(** * Data hooks and study orchestration of modular_optuna_ml

    A shallow embedding of [data/hooks/feature_selection.py] and
    [study/manager.py].  Hooks are functions over a dataset container,
    failing Python calls return [Err], and the stateful parts (the PCA
    hook's backing transform, the study's RNG and result store) thread
    their state explicitly.

    Numbers: a threshold is a Python float, an IEEE 754 double.  The
    product [n_samples * threshold] is the exact product rounded to the
    nearest double, ties to the even significand, an infinity when it
    overflows; [int] truncates it toward zero and raises on an infinity
    or a NaN. *)

From Stdlib Require Import ZArith QArith Qround Qpower Qabs List String Ascii.
From Stdlib Require Import Lia Lqa.
From Stdlib Require Import DecimalString DecimalNat FinFun.
From Stdlib Require Import Floats.SpecFloat.
From stdpp Require Import gmap strings list.

Local Open Scope string_scope.
Local Open Scope list_scope.

(** ** Exceptions and fallible results *)

Inductive error : Type :=
| TypeError
| KeyError
| IndexError
| ValueError
| AttributeError
| NotFittedError
| NotImplementedError
| OperationalError
| OverflowError.

Inductive result (A : Type) : Type :=
| Ok (a : A)
| Err (e : error).

Arguments Ok {A} a.
Arguments Err {A} e.

Definition rbind {A B : Type} (m : result A) (k : A -> result B) : result B :=
  match m with
  | Ok a => k a
  | Err e => Err e
  end.

Declare Scope result_scope.
Delimit Scope result_scope with res.
Notation "x <- m ;; k" := (rbind m (fun x => k))
  (at level 100, m at next level, right associativity) : result_scope.

(** A list comprehension [[k for k in l if f k]] whose test can raise. *)
Fixpoint filterM {A : Type} (f : A -> result bool) (l : list A)
  : result (list A) :=
  match l with
  | [] => Ok []
  | a :: l' =>
      (b <- f a ;;
       r <- filterM f l' ;;
       Ok (if b then a :: r else r))%res
  end.

(** ** Python numerics *)

(** *** Floats

    A Python float is an IEEE 754 double: a rational of the form
    [m * 2^e] with [|m| < 2^53] and [-1074 <= e], below [2^1024] in
    magnitude, an infinity, or a NaN.  Arithmetic rounds the exact result
    to the nearest double, ties to the even significand.  The sign of a
    zero is not recorded: [int] does not depend on it. *)

Definition pow2 (k : Z) : Q := (2 ^ k)%Q.

(** The [k] with [2^k <= q < 2^(k+1)], for a positive [q]. *)
Definition binade (q : Q) : Z :=
  let k := (Z.log2 (Qnum q) - Z.log2 (Z.pos (Qden q)))%Z in
  if Qle_bool (pow2 k) q then k else (k - 1)%Z.

(** The nearest integer, the even one of two equally near. *)
Definition nearest_even (q : Q) : Z :=
  let f := Qfloor q in
  match (q - inject_Z f ?= 1 # 2)%Q with
  | Lt => f
  | Gt => (f + 1)%Z
  | Eq => if Z.even f then f else (f + 1)%Z
  end.

(** The exponent of the last place of the doubles around a positive
    [a]: 53 significant bits, and the subnormal spacing [2^-1074] at the
    bottom of the range. *)
Definition exponent (a : Q) : Z := Z.max (binade a - 52) (-1074).

Definition round_magnitude (a : Q) : Q :=
  inject_Z (nearest_even (a / pow2 (exponent a))) * pow2 (exponent a).

(** Rounding to the nearest double, the exponent range taken unbounded
    above. *)
Definition round_double (q : Q) : Q :=
  match Qnum q with
  | Z0 => 0
  | Zpos _ => round_magnitude q
  | Zneg _ => - round_magnitude (- q)
  end.

(** The largest double. *)
Definition max_double : Q := inject_Z (2 ^ 53 - 1) * pow2 971.

(** The nearest double of [q]; none when the rounded magnitude reaches
    [2^1024], where a double overflows. *)
Definition binary64 (q : Q) : option Q :=
  let v := round_double q in
  if Qle_bool (pow2 1024) (Qabs v) then None else Some v.

Inductive pyfloat : Type :=
| Finite (q : Q)
| Infinite (negative : bool)
| NaN.

(** The float of a number written in a program or a configuration:
    [0.7] is [py_float (7 # 10)]. *)
Definition py_float (q : Q) : pyfloat :=
  match binary64 q with
  | Some v => Finite v
  | None => Infinite (Qnum q <? 0)%Z
  end.

(** The conversion of an [int] operand of float arithmetic; an [int]
    beyond the range of doubles raises. *)
Definition float_of_int (n : Z) : result pyfloat :=
  match binary64 (inject_Z n) with
  | Some v => Ok (Finite v)
  | None => Err OverflowError
  end.

(** [a * b] on floats. *)
Definition float_mul (a b : pyfloat) : pyfloat :=
  match a, b with
  | NaN, _ | _, NaN => NaN
  | Finite x, Finite y => py_float (x * y)
  | Infinite s, Finite y | Finite y, Infinite s =>
      match Qnum y with
      | Z0 => NaN
      | Zpos _ => Infinite s
      | Zneg _ => Infinite (negb s)
      end
  | Infinite s, Infinite s' => Infinite (xorb s s')
  end.

(** [int(q)] on a finite float: truncation toward zero. *)
Definition py_int (q : Q) : Z := Z.quot (Qnum q) (Z.pos (Qden q)).

(** [int(f)]: an infinity raises [OverflowError], a NaN [ValueError]. *)
Definition int_of_float (f : pyfloat) : result Z :=
  match f with
  | Finite q => Ok (py_int q)
  | Infinite _ => Err OverflowError
  | NaN => Err ValueError
  end.

(** [str(n)] for a non-negative integer. *)
Definition str_nat (n : nat) : string :=
  NilEmpty.string_of_uint (Nat.to_uint n).

(** [name in names] *)
Definition mem_str (name : string) (names : list string) : bool :=
  existsb (String.eqb name) names.

(** ** Arrays *)

(** An entry of a dataset: [None] is a null (NaN / None / NaT) entry, the
    numeric payload is an integer since the hooks only inspect nullity. *)
Definition cell : Type := option Z.

(** A two-dimensional array, one inner list per row. *)
Definition ndarray : Type := list (list cell).

(** [pd.isnull(c)] *)
Definition isnull (c : cell) : bool :=
  match c with None => true | Some _ => false end.

(** [np.sum(pd.isnull(row))] for a one-dimensional sample view. *)
Definition null_count (row : list cell) : nat :=
  length (List.filter isnull row).

(** [np.sum(pd.isnull(arr))] for a two-dimensional array. *)
Definition null_total (arr : ndarray) : nat :=
  fold_right (fun row acc => null_count row + acc) 0 arr.

(** [arr.shape[1]] *)
Definition shape1 (arr : ndarray) : nat :=
  match arr with
  | [] => 0
  | row :: _ => length row
  end.

(** ** The data container *)

Module DM.

(** Modelled from the spec: [data/base.py], [data/mixins.py] and
    [data/utils.py] (BaseDataManager, MultiFeatureMixin,
    FeatureSplittableManager) are not part of the sources at hand.  The
    container is the rectangular dataset of the spec's data model: an
    ordered sequence of samples over named features, with the two
    capabilities as class-membership flags. *)
Record t : Type := mk {
  multi_feature : bool;       (* isinstance(x, MultiFeatureMixin) *)
  feature_splittable : bool;  (* isinstance(x, FeatureSplittableManager) *)
  names : list string;
  samples : list (list cell)
}.

Definition with_samples (x : t) (rows : list (list cell)) : t :=
  mk (multi_feature x) (feature_splittable x) (names x) rows.

Definition with_columns (x : t) (ns : list string)
           (rows : list (list cell)) : t :=
  mk (multi_feature x) (feature_splittable x) ns rows.

(** Modelled from the spec: [len(x)], the number of samples. *)
Definition len (x : t) : nat := length (samples x).

(** Modelled from the spec: [x.features()], the ordered feature names. *)
Definition features (x : t) : list string := names x.

(** Modelled from the spec: [x.as_array()], full-array conversion. *)
Definition as_array (x : t) : ndarray := samples x.

(** Modelled from the spec: iteration yields the per-sample views in
    order; [enumerate(x)] pairs each with its position. *)
Fixpoint enumerate_from (i : nat) (rows : list (list cell))
  : list (nat * list cell) :=
  match rows with
  | [] => []
  | r :: rows' => (i, r) :: enumerate_from (S i) rows'
  end.

Definition enumerate (x : t) : list (nat * list cell) :=
  enumerate_from 0 (samples x).

Fixpoint take_rows (rows : list (list cell)) (idx : list nat)
  : option (list (list cell)) :=
  match idx with
  | [] => Some []
  | i :: idx' =>
      match nth_error rows i, take_rows rows idx' with
      | Some r, Some rs => Some (r :: rs)
      | _, _ => None
      end
  end.

(** Modelled from the spec: [x[idx]], indexing by an integer sequence
    (row subset); a position past the end raises. *)
Definition getitem (x : t) (idx : list nat) : result t :=
  match take_rows (samples x) idx with
  | Some rows => Ok (with_samples x rows)
  | None => Err IndexError
  end.

(** The entries of a row at the positions marked in [mask]. *)
Fixpoint select_cols (mask : list bool) (row : list cell) : list cell :=
  match mask, row with
  | b :: mask', c :: row' =>
      if b then c :: select_cols mask' row' else select_cols mask' row'
  | _, _ => []
  end.

Definition all_present (wanted : list string) (x : t) : bool :=
  forallb (fun n => mem_str n (names x)) wanted.

(** Modelled from the spec: [x.get_features(wanted)], feature subset
    selection returning a new container, in the order the container holds
    the features; an absent name raises. *)
Definition get_features (x : t) (wanted : list string) : result t :=
  if all_present wanted x then
    let mask := map (fun n => mem_str n wanted) (names x) in
    Ok (with_columns x
          (List.filter (fun n => mem_str n wanted) (names x))
          (map (select_cols mask) (samples x)))
  else Err KeyError.

(** Modelled from the spec: [x.drop_features(unwanted)], feature removal
    returning a new container; an absent name raises. *)
Definition drop_features (x : t) (unwanted : list string) : result t :=
  if all_present unwanted x then
    let mask := map (fun n => negb (mem_str n unwanted)) (names x) in
    Ok (with_columns x
          (List.filter (fun n => negb (mem_str n unwanted)) (names x))
          (map (select_cols mask) (samples x)))
  else Err KeyError.

Fixpoint index_of (name : string) (ns : list string) : option nat :=
  match ns with
  | [] => None
  | n :: ns' =>
      if String.eqb name n then Some 0
      else option_map S (index_of name ns')
  end.

(** Column [j] of an array. *)
Definition column (j : nat) (arr : ndarray) : list cell :=
  map (fun row => nth j row None) arr.

Fixpoint zip_rows {A : Type} (f : list cell -> A -> list cell)
         (rows : list (list cell)) (xs : list A) : list (list cell) :=
  match rows, xs with
  | r :: rows', a :: xs' => f r a :: zip_rows f rows' xs'
  | _, _ => []
  end.

(** One feature assigned by name: replaced in place when the container
    has it, appended as a new last feature otherwise. *)
Definition assign_feature (x : t) (name : string) (col : list cell) : t :=
  match index_of name (names x) with
  | Some j =>
      with_samples x (zip_rows (fun r c => <[j := c]> r) (samples x) col)
  | None =>
      with_columns x (names x ++ [name])
        (zip_rows (fun r c => r ++ [c]) (samples x) col)
  end.

Fixpoint assign_from (j : nat) (labels : list string) (arr : ndarray)
         (x : t) : t :=
  match labels with
  | [] => x
  | l :: labels' =>
      assign_from (S j) labels' arr (assign_feature x l (column j arr))
  end.

Definition fits (x : t) (labels : list string) (arr : ndarray) : bool :=
  (length arr =? len x)%nat
  && forallb (fun row => (length row =? length labels)%nat) arr.

(** Modelled from the spec: [x.set_features(labels, arr)], feature
    replacement or assignment by name with new array data ([arr] has one
    row per sample and one column per label); a shape mismatch raises. *)
Definition set_features (x : t) (labels : list string) (arr : ndarray)
  : result t :=
  if fits x labels arr then Ok (assign_from 0 labels arr x)
  else Err ValueError.

(** Modelled from the spec: the feature operations exist only on a
    container with the multi-feature capability; looking one up on a
    container without it raises. *)
Definition mixin (x : t) : result t :=
  if multi_feature x then Ok x else Err AttributeError.

(** Modelled from the spec: [x.pop_features(target)] extracts the named
    features as a separate container and removes them from [x]; the pair
    is ([x] after the call, the extracted container). *)
Definition pop_features (x : t) (target : list string) : result (t * t) :=
  (y <- get_features x target ;;
   x' <- drop_features x target ;;
   Ok (x', y))%res.

(** Modelled from the spec: [x.train_test_split(train_idx, test_idx)],
    index-based splitting returning two containers. *)
Definition train_test_split (x : t) (train_idx test_idx : list nat)
  : result (t * t) :=
  (a <- getitem x train_idx ;;
   b <- getitem x test_idx ;;
   Ok (a, b))%res.

End DM.

(** ** Explicit feature selection *)

(** [ExplicitFeatures]: the configured list of feature names. *)
Record ExplicitFeatures : Type := { features : list string }.

Module ExplicitDrop.

Definition run (self : ExplicitFeatures) (x : DM.t) : result DM.t :=
  if negb (DM.multi_feature x) then Err TypeError
  else DM.drop_features x (features self).

End ExplicitDrop.

Module ExplicitKeep.

Definition run (self : ExplicitFeatures) (x : DM.t) : result DM.t :=
  if negb (DM.multi_feature x) then Err TypeError
  else DM.get_features x (features self).

End ExplicitKeep.

(** ** Feature selection by null content *)

(** [NullityDrop]: the configured threshold, a float (default 0.5, no
    bounds check). *)
Record NullityDrop : Type := { threshold : pyfloat }.

(** [int(n_samples * self.threshold)]: the count is converted to a float,
    the product is the rounded double, [int] truncates it. *)
Definition null_tolerance (self : NullityDrop) (n_samples : nat) : result Z :=
  (n <- float_of_int (Z.of_nat n_samples) ;;
   int_of_float (float_mul n (threshold self)))%res.

Module SampleNullityDrop.

Definition keep_idx (self : NullityDrop) (x : DM.t) : result (list nat) :=
  let n_samples := DM.len x in
  (tol <- null_tolerance self n_samples ;;
   Ok (map fst
         (List.filter (fun ik => (Z.of_nat (null_count (snd ik)) <? tol)%Z)
            (DM.enumerate x))))%res.

Definition run (self : NullityDrop) (x : DM.t) : result DM.t :=
  (idx <- keep_idx self x ;; DM.getitem x idx)%res.

End SampleNullityDrop.

Module FeatureNullityDrop.

(** [np.sum(pd.isnull(x.get_features(k).as_array()))] *)
Definition null_content (x : DM.t) (k : string) : result nat :=
  (col <- DM.get_features x [k] ;;
   Ok (null_total (DM.as_array col)))%res.

Definition drop_idx (self : NullityDrop) (x : DM.t) : result (list string) :=
  let n_samples := DM.len x in
  (tol <- null_tolerance self n_samples ;;
   filterM
     (fun k => (c <- null_content x k ;; Ok (tol <? Z.of_nat c)%Z)%res)
     (DM.features x))%res.

Definition run (self : NullityDrop) (x : DM.t) : result DM.t :=
  if negb (DM.multi_feature x) then Err TypeError
  else (d <- drop_idx self x ;; DM.drop_features x d)%res.

End FeatureNullityDrop.

(** ** A state and error monad

    Methods of an object with mutable attributes: the state is threaded
    through a raised exception, as the object outlives the failed call. *)

Definition M (S A : Type) : Type := S -> result A * S.

Definition ret {S A : Type} (a : A) : M S A := fun s => (Ok a, s).

Definition raise {S A : Type} (e : error) : M S A := fun s => (Err e, s).

Definition bind {S A B : Type} (m : M S A) (k : A -> M S B) : M S B :=
  fun s =>
    match m s with
    | (Ok a, s') => k a s'
    | (Err e, s') => (Err e, s')
    end.

Definition lift {S A : Type} (r : result A) : M S A := fun s => (r, s).

Definition get {S : Type} : M S S := fun s => (Ok s, s).

Definition modify {S : Type} (f : S -> S) : M S unit :=
  fun s => (Ok tt, f s).

Declare Scope state_scope.
Delimit Scope state_scope with st.
Notation "x <- m ;; k" := (bind m (fun x => k))
  (at level 100, m at next level, right associativity) : state_scope.

(** ** Principal component analysis *)

(** A configuration entry: a JSON object with scalar fields. *)
Inductive scalar : Type :=
| SStr (s : string)
| SNum (q : Q).

Definition ConfigEntry : Type := list (string * scalar).

(** sklearn's [PCA] estimator as far as the hook uses it: what a fit
    learns from an array, and how a learnt state maps an array. *)
Class Decomposition : Type := {
  fitted : Type;
  pca_fit : Q -> ndarray -> result fitted;
  pca_apply : fitted -> ndarray -> result ndarray
}.

(** [tuning/utils.py] is not part of the sources at hand: a tunable
    parameter is used through its constructor, [tune(trial)] and [value]. *)
Class Tuning : Type := {
  Trial : Type;
  TunableParam : Type;
  from_config_entry : ConfigEntry -> result TunableParam;
  tuner_tune : TunableParam -> Trial -> result TunableParam;
  tuner_value : TunableParam -> Q
}.

Module PCA.
Section WithDecomposition.
Context `{Decomposition}.

(** A [PCA] object: its constructor argument and, once fitted, the
    learnt state. *)
Record t : Type := mk {
  n_components : Q;
  fit_state : option fitted
}.

(** [PCA(n_components=v)] *)
Definition new (v : Q) : t := mk v None.

(** [p.fit_transform(X)]: learns from [X], then maps [X]; a fit that
    raises is taken to leave the object as it was. *)
Definition fit_transform (p : t) (X : ndarray) : result ndarray * t :=
  match pca_fit (n_components p) X with
  | Err e => (Err e, p)
  | Ok f => (pca_apply f X, mk (n_components p) (Some f))
  end.

(** [p.transform(X)]: maps [X] with the learnt state, learning
    nothing. *)
Definition transform (p : t) (X : ndarray) : result ndarray * t :=
  match fit_state p with
  | None => (Err NotFittedError, p)
  | Some f => (pca_apply f X, p)
  end.

End WithDecomposition.
End PCA.

(** What [run] hands back: a relabelled container on the multi-feature
    path, the bare transformed array otherwise. *)
Inductive hook_out : Type :=
| OutManager (x : DM.t)
| OutArray (a : ndarray).

Module PrincipalComponentAnalysis.
Section WithCollaborators.
Context `{Decomposition} `{Tuning}.

Record t : Type := mk {
  prop_tuner : TunableParam;
  backing_pca : option PCA.t
}.

Definition default_proportion : ConfigEntry :=
  [("label", SStr "proportion");
   ("type", SStr "constant");
   ("value", SNum (7 # 10))].

(** [__init__]: the proportion to select defaults to 70%; no backing
    instance yet. *)
Definition init (config : gmap string ConfigEntry) : result t :=
  let select_prop := default default_proportion (config !! "proportion") in
  (prop_tuner <- from_config_entry select_prop ;;
   Ok (mk prop_tuner None))%res.

Definition tune (trial : Trial) : M t unit :=
  fun self =>
    match tuner_tune (prop_tuner self) trial with
    | Err e => (Err e, self)
    | Ok tuner =>
        (Ok tt, mk tuner (Some (PCA.new (tuner_value tuner))))
    end.

Definition tunable_params (self : t) : list TunableParam :=
  [prop_tuner self].

(** A method call on [self.backing_pca]; on [None] the attribute
    lookup raises before anything else happens. *)
Definition on_backing (method : PCA.t -> ndarray -> result ndarray * PCA.t)
           (X : ndarray) : M t ndarray :=
  fun self =>
    match backing_pca self with
    | None => (Err AttributeError, self)
    | Some p =>
        let '(r, p') := method p X in
        (r, mk (prop_tuner self) (Some p'))
    end.

(** [[f'PC{i}' for i in range(k)]] *)
Definition pc_labels (k : nat) : list string :=
  map (fun i => String.append "PC" (str_nat i)) (seq 0 k).

(** Drop all features and replace them with the new components. *)
Definition relabel (x : DM.t) (feature_labels : list string)
           (tmp : ndarray) : result DM.t :=
  (x_out <- DM.drop_features x (DM.features x) ;;
   DM.set_features x_out feature_labels tmp)%res.

Definition run (x : DM.t) : M t hook_out :=
  if DM.multi_feature x then
    (tmp_train <- on_backing PCA.fit_transform (DM.as_array x) ;;
     let feature_labels := pc_labels (shape1 tmp_train) in
     x_out <- lift (relabel x feature_labels tmp_train) ;;
     ret (OutManager x_out))%st
  else
    (x_out <- on_backing PCA.fit_transform (DM.as_array x) ;;
     ret (OutArray x_out))%st.

(** [x_test] is [Optional]: [None] has none of the methods. *)
Definition deref (x : option DM.t) : result DM.t :=
  match x with
  | Some x => Ok x
  | None => Err AttributeError
  end.

Definition run_fitted (x_train : DM.t) (x_test : option DM.t)
  : M t (hook_out * hook_out) :=
  if DM.multi_feature x_train then
    (* Run the fitted analysis first *)
    (tmp_train <- on_backing PCA.fit_transform (DM.as_array x_train) ;;
     let feature_labels := pc_labels (shape1 tmp_train) in
     train_out <- lift (relabel x_train feature_labels tmp_train) ;;
     (* Do the same to our testing data, but without re-fitting *)
     xt <- lift (deref x_test) ;;
     tmp_test <- on_backing PCA.transform (DM.as_array xt) ;;
     xt <- lift (DM.mixin xt) ;;
     test_out <- lift (relabel xt feature_labels tmp_test) ;;
     ret (OutManager train_out, OutManager test_out))%st
  else
    (train_out <- on_backing PCA.fit_transform (DM.as_array x_train) ;;
     xt <- lift (deref x_test) ;;
     test_out <- on_backing PCA.fit_transform (DM.as_array xt) ;;
     ret (OutArray train_out, OutArray test_out))%st.

End WithCollaborators.
End PrincipalComponentAnalysis.

(** ** Study management *)

Module DataConfig.
(** [config/data.py]: the parsed fields the study reads. *)
Record t : Type := mk {
  format : string;
  label : string;
  data_manager : DM.t
}.
End DataConfig.

Module ModelConfig.
(** [config/model.py] is not part of the sources at hand; its model
    factory is a collaborator (see [Collaborators]). *)
Record t : Type := mk { label : string }.
End ModelConfig.

Module StudyConfig.
(** [config/study.py] is not part of the sources at hand; these are the
    fields the manager reads. *)
Record t : Type := mk {
  label : string;
  random_seed : Z;
  no_replicates : nat;
  no_trials : nat;
  target : list string
}.
End StudyConfig.

(** An optuna trial as the objective sees it: its number, the objective
    values of the trials before it, and the study it belongs to. *)
Record OptunaTrial (V : Type) : Type := {
  number : nat;
  history : list V;
  study_name : string;
  sampler_seed : Z
}.

Arguments number {V} _.
Arguments history {V} _.
Arguments study_name {V} _.
Arguments sampler_seed {V} _.

(** The libraries and configuration-built objects the manager calls:
    numpy's global generator, sklearn's splitter and metrics, the data
    manager's pre-analysis pipeline, the model factory and its models,
    and sqlite3's reading of text pasted unquoted into a statement:
    whether it takes the text for the identifier it spells
    ([my study], [1st] or a reserved word are not), and whether it takes
    the text for a value ([0.25] is, [nan] and [inf] are not). *)
Class Collaborators : Type := {
  RNG : Type;
  np_random_seed : Z -> RNG;
  np_random_randint : nat -> RNG -> list Z * RNG;
  Splitter : Type;
  StratifiedKFold : nat -> Z -> result Splitter;
  skf_split : Splitter -> ndarray -> ndarray
              -> result (list (list nat * list nat));
  process_pre_analysis : DM.t -> M RNG DM.t;
  Model : Type;
  Prediction : Type;
  Metric : Type;
  metric_str : Metric -> string;
  build_model : OptunaTrial Metric -> M RNG Model;
  model_fit : Model -> DM.t -> DM.t -> M RNG Model;
  predict : Model -> DM.t -> result Prediction;
  predict_proba : Model -> DM.t -> result Prediction;
  log_loss : DM.t -> Prediction -> result Metric;
  balanced_accuracy_score : DM.t -> Prediction -> result Metric;
  sql_identifier : string -> bool;
  sql_literal : string -> bool
}.

(** A table of the result store: its columns and the rows inserted so
    far, oldest first; every value is stored as the text it was given. *)
Record Table : Type := {
  columns : list string;
  rows : list (list string)
}.

(** The calls a run makes on its collaborators, in the order made. *)
Inductive Event : Type :=
| EvSeed (s : Z)
| EvRandint (size : nat)
| EvStratifiedKFold (n_splits : nat) (random_state : Z)
| EvPreAnalysis
| EvPopFeatures (target : list string)
| EvCreateTable (name : string)
| EvSplit
| EvBuildModel (rep trial : nat)
| EvFit (rep trial : nat)
| EvInsert (name : string) (row : list string).

Global Instance Event_eq_dec : EqDecision Event.
Proof. solve_decision. Defined.

(** [dict[k] = v] on an insertion-ordered dictionary. *)
Fixpoint dict_set {V : Type} (d : list (string * V)) (k : string) (v : V)
  : list (string * V) :=
  match d with
  | [] => [(k, v)]
  | (k', v') :: d' =>
      if String.eqb k k' then (k, v) :: d' else (k', v') :: dict_set d' k v
  end.

Module StudyManager.
Section WithCollaborators.
Context `{Collaborators}.

Definition DB_KEYS : list string := ["replicate"; "trial"; "objective"].

(** The manager with the state a run touches: numpy's global
    generator, the result store, whether [self.db_cursor] is set, and
    the log of collaborator calls. *)
Record World : Type := {
  rng : RNG;
  db : gmap string Table;
  db_cursor : bool;
  trace : list Event
}.

Record t : Type := mk {
  data_config : DataConfig.t;
  model_config : ModelConfig.t;
  study_config : StudyConfig.t;
  debug : bool
}.

(** [f"{study}__{model}__{data}"] *)
Definition study_label (self : t) : string :=
  String.append (StudyConfig.label (study_config self))
    (String.append "__"
       (String.append (ModelConfig.label (model_config self))
          (String.append "__" (DataConfig.label (data_config self))))).

(** [lambda m, x, y: log_loss(y, m.predict_proba(x))] *)
Definition objective (m : Model) (x y : DM.t) : result Metric :=
  (p <- predict_proba m x ;; log_loss y p)%res.

Definition tracked_metrics
  : list (string * (Model -> DM.t -> DM.t -> result Metric)) :=
  [("bacc",
    fun m x y => (p <- predict m x ;; balanced_accuracy_score y p)%res)].

Definition log (e : Event) : M World unit :=
  modify (fun w => {| rng := rng w; db := db w;
                      db_cursor := db_cursor w;
                      trace := trace w ++ [e] |}).

(** A collaborator call that may draw from the global generator. *)
Definition with_rng {A : Type} (m : M RNG A) : M World A :=
  fun w =>
    let '(r, g) := m (rng w) in
    (r, {| rng := g; db := db w; db_cursor := db_cursor w;
           trace := trace w |}).

(** [np.random.seed(s)] *)
Definition seed (s : Z) : M World unit :=
  (_ <- log (EvSeed s) ;;
   with_rng (fun _ => (Ok tt, np_random_seed s)))%st.

(** [np.random.randint(0, np.iinfo(np.int32).max, size=n)] *)
Definition randint (n : nat) : M World (list Z) :=
  (_ <- log (EvRandint n) ;;
   with_rng (fun g => let '(l, g') := np_random_randint n g in
                      (Ok l, g')))%st.

(** [cur.execute(f"CREATE TABLE {name} ({', '.join(cols)})")]: the name
    and the columns are pasted into the statement as they are.  sqlite3
    raises when it does not read them as identifiers, and on an existing
    table. *)
Definition create_table (name : string) (cols : list string)
  : M World unit :=
  fun w =>
    if sql_identifier name && forallb sql_identifier cols then
      match db w !! name with
      | Some _ => (Err OperationalError, w)
      | None =>
          (Ok tt, {| rng := rng w;
                     db := <[name := {| columns := cols; rows := [] |}]>
                             (db w);
                     db_cursor := db_cursor w; trace := trace w |})
      end
    else (Err OperationalError, w).

(** [cur.execute(f"INSERT INTO {name} VALUES ({', '.join(vals)})")]
    followed by the commit: the name and the values are pasted into the
    statement as they are.  sqlite3 raises when it does not read the name
    as an identifier or a value as a literal, when the table is missing
    and when the values are not one per column. *)
Definition insert_row (name : string) (vals : list string)
  : M World unit :=
  fun w =>
    if sql_identifier name && forallb sql_literal vals then
      match db w !! name with
      | None => (Err OperationalError, w)
      | Some tbl =>
          if (length vals =? length (columns tbl))%nat then
            (Ok tt, {| rng := rng w;
                       db := <[name := {| columns := columns tbl;
                                          rows := rows tbl ++ [vals] |}]>
                               (db w);
                       db_cursor := db_cursor w; trace := trace w |})
          else (Err OperationalError, w)
      end
    else (Err OperationalError, w).

Definition init_db (self : t) : M World unit :=
  let col_vals := DB_KEYS ++ map fst tracked_metrics in
  (_ <- log (EvCreateTable (study_label self)) ;;
   create_table (study_label self) col_vals)%st.

Definition save_results (self : t) (replicate_n trial_n : nat)
           (metrics : list (string * Metric)) : M World unit :=
  let new_val_strs :=
    str_nat replicate_n :: str_nat trial_n
    :: map (fun kv => metric_str (snd kv)) metrics in
  (w <- get ;;
   _ <- (if db_cursor w then ret tt else raise AttributeError) ;;
   _ <- log (EvInsert (study_label self) new_val_strs) ;;
   insert_row (study_label self) new_val_strs)%st.

Fixpoint tracked_values
         (ms : list (string * (Model -> DM.t -> DM.t -> result Metric)))
         (model : Model) (test_x test_y : DM.t)
         (metric_dict : list (string * Metric))
  : result (list (string * Metric)) :=
  match ms with
  | [] => Ok metric_dict
  | (k, metric_func) :: ms' =>
      (v <- metric_func model test_x test_y ;;
       tracked_values ms' model test_x test_y (dict_set metric_dict k v))%res
  end.

Definition calculate_metrics (model : Model) (test_x test_y : DM.t)
  : result (Metric * list (string * Metric)) :=
  (obj_val <- objective model test_x test_y ;;
   let metric_dict := [("objective", obj_val)] in
   metric_dict <- tracked_values tracked_metrics model test_x test_y
                    metric_dict ;;
   Ok (obj_val, metric_dict))%res.

(** The trial objective [opt_func] of [run_supervised]. *)
Definition opt_func (self : t) (rep : nat)
           (train_x train_y test_x test_y : DM.t)
           (trial : OptunaTrial Metric) : M World Metric :=
  (_ <- log (EvBuildModel rep (number trial)) ;;
   model <- with_rng (build_model trial) ;;
   _ <- log (EvFit rep (number trial)) ;;
   model <- with_rng (model_fit model train_x train_y) ;;
   om <- lift (calculate_metrics model test_x test_y) ;;
   let '(obj_val, metric_vals) := om in
   _ <- save_results self rep (number trial) metric_vals ;;
   ret obj_val)%st.

(** [study.optimize(func, n_trials)] with optuna's defaults: the
    objective is called once per trial, one after the other, trials
    are numbered from 0 and an exception of the objective ends the
    search. *)
Fixpoint optimize (func : OptunaTrial Metric -> M World Metric)
         (name : string) (sampler : Z) (n_trials : nat)
         (past : list Metric) : M World unit :=
  match n_trials with
  | O => ret tt
  | S n =>
      (v <- func {| number := length past; history := past;
                    study_name := name; sampler_seed := sampler |} ;;
       optimize func name sampler n (past ++ [v]))%st
  end.

Definition run_supervised (self : t) (rep : nat)
           (train_x train_y test_x test_y : DM.t) (seed : Z)
  : M World unit :=
  let study_name :=
    String.append (study_label self)
      (String.append " [" (String.append (str_nat rep) "]")) in
  optimize (opt_func self rep train_x train_y test_x test_y)
    study_name seed (StudyConfig.no_trials (study_config self)) [].

Definition set_cursor : M World unit :=
  modify (fun w => {| rng := rng w; db := db w; db_cursor := true;
                      trace := trace w |}).

(** One pass of the replicate loop of [run]. *)
Definition replicate (self : t) (replicate_seeds : list Z)
           (x y : DM.t) (i : nat) (fold : list nat * list nat)
  : M World unit :=
  let '(train_idx, test_idx) := fold in
  (s <- lift (match nth_error replicate_seeds i with
              | Some s => Ok s
              | None => Err IndexError
              end) ;;
   _ <- seed s ;;
   tt_x <- lift (DM.train_test_split x train_idx test_idx) ;;
   let '(train_x, test_x) := tt_x in
   train_y <- lift (DM.getitem y train_idx) ;;
   test_y <- lift (DM.getitem y test_idx) ;;
   run_supervised self i train_x train_y test_x test_y s)%st.

Fixpoint replicates (self : t) (replicate_seeds : list Z) (x y : DM.t)
         (i : nat) (folds : list (list nat * list nat)) : M World unit :=
  match folds with
  | [] => ret tt
  | fold :: folds' =>
      (_ <- replicate self replicate_seeds x y i fold ;;
       replicates self replicate_seeds x y (S i) folds')%st
  end.

Definition run (self : t) : M World unit :=
  (* Control for RNG before proceeding *)
  let init_seed := StudyConfig.random_seed (study_config self) in
  let no_replicates := StudyConfig.no_replicates (study_config self) in
  (_ <- seed init_seed ;;
   (* Get the DataManager from the config *)
   let data_manager := DataConfig.data_manager (data_config self) in
   (* Generate the requested number of splits *)
   replicate_seeds <- randint no_replicates ;;
   _ <- log (EvStratifiedKFold no_replicates init_seed) ;;
   skf_splitter <- lift (StratifiedKFold no_replicates init_seed) ;;
   (* Process the data with any operations done pre-split *)
   _ <- log EvPreAnalysis ;;
   data_manager <- with_rng (process_pre_analysis data_manager) ;;
   (* Isolate the target column(s) from the dataset *)
   xy <- (if DM.feature_splittable data_manager then
            (_ <- log (EvPopFeatures
                         (StudyConfig.target (study_config self))) ;;
             lift (DM.pop_features data_manager
                     (StudyConfig.target (study_config self))))
          else raise NotImplementedError) ;;
   let '(x, y) := xy in
   (* Initiate the DB and create a table for the study's results *)
   _ <- init_db self ;;
   _ <- set_cursor ;;
   (* Run the study once for each replicate *)
   _ <- log EvSplit ;;
   folds <- lift (skf_split skf_splitter (DM.as_array x) (DM.as_array y)) ;;
   replicates self replicate_seeds x y 0 folds)%st.

End WithCollaborators.
End StudyManager.

(** ** Data configuration *)

(** A parsed JSON value. *)
#[warnings="-register-all"]
Inductive json : Type :=
| JNull
| JBool (b : bool)
| JNum (q : Q)
| JStr (s : string)
| JList (l : list json)
| JDict (d : list (string * json)).

(** The checks [config/utils.py] offers for an entry. *)
Inductive check : Type :=
| is_not_null
| as_str.

(** What a configuration being parsed consists of: the dictionary, which
    the parsers and the data manager share and may consume, and the
    warnings the logger has received. *)
Record Parsing : Type := {
  json_data : list (string * json);
  warnings : list string
}.

(** [config/utils.py] and the registry of [data/base.py] are not part of
    the sources at hand: an entry parser, the registered manager classes
    with their [from_config], and the JSON loader. *)
Class ConfigLibrary : Type := {
  ManagerClass : Type;
  parse_data_config_entry : string -> list check -> M Parsing string;
  DATA_MANAGERS : gmap string ManagerClass;
  manager_from_config : ManagerClass -> M Parsing DM.t;
  load_json_with_validation : string -> result json
}.

Module DataConfigInit.
Section WithLibrary.
Context `{ConfigLibrary}.

Definition parse_format : M Parsing string :=
  parse_data_config_entry "format" [is_not_null; as_str].

Definition parse_label : M Parsing string :=
  parse_data_config_entry "label" [is_not_null; as_str].

Definition parse_manager (format : string) : M Parsing DM.t :=
  match DATA_MANAGERS !! format with
  | None => raise ValueError
  | Some manager_cls => manager_from_config manager_cls
  end.

(** [f"Entry '{k}' in configuration file is not a valid configuration
    option and was ignored"] *)
Definition ignored_entry (k : string) : string :=
  String.append "Entry '"
    (String.append k
       "' in configuration file is not a valid configuration option and was ignored").

Definition report_remaining_values : M Parsing unit :=
  fun st =>
    if (length (json_data st) =? 0)%nat then (Ok tt, st)
    else (Ok tt,
          {| json_data := json_data st;
             warnings := warnings st
                         ++ map (fun kv => ignored_entry (fst kv))
                              (json_data st) |}).

(** [__init__] *)
Definition init : M Parsing DataConfig.t :=
  (format <- parse_format ;;
   label <- parse_label ;;
   data_manager <- parse_manager format ;;
   _ <- report_remaining_values ;;
   ret (DataConfig.mk format label data_manager))%st.

(** [from_json_file], given the warnings logged so far. *)
Definition from_json_file (json_file : string) (logged : list string)
  : result DataConfig.t * list string :=
  match load_json_with_validation json_file with
  | Err e => (Err e, logged)
  | Ok (JDict d) =>
      let '(r, st) := init {| json_data := d; warnings := logged |} in
      (r, warnings st)
  | Ok _ => (Err TypeError, logged)
  end.

End WithLibrary.
End DataConfigInit.

(** ** Concrete collaborators

    Small executable stand-ins for the libraries, used to run the hooks
    and the manager on concrete data. *)

Module Demo.

Fixpoint values (row : list cell) : option (list Z) :=
  match row with
  | [] => Some []
  | Some v :: row' => option_map (cons v) (values row')
  | None :: _ => None
  end.

Fixpoint add_rows (a b : list Z) : list Z :=
  match a, b with
  | u :: a', v :: b' => (u + v)%Z :: add_rows a' b'
  | _, _ => []
  end.

(** Column sums; [None] when an entry is null. *)
Fixpoint col_sums (X : ndarray) : option (list Z) :=
  match X with
  | [] => None
  | [row] => values row
  | row :: X' =>
      match values row, col_sums X' with
      | Some a, Some b => Some (add_rows a b)
      | _, _ => None
      end
  end.

(** What the stand-in fit learns: the number of training samples, their
    column sums and the number of leading columns kept. *)
Record centre : Type := {
  count : Z;
  sums : list Z;
  kept : nat
}.

Definition centre_fit (prop : Q) (X : ndarray) : result centre :=
  match col_sums X with
  | None => Err ValueError
  | Some s =>
      Ok {| count := Z.of_nat (length X);
            sums := s;
            kept := Z.to_nat (py_int (inject_Z (Z.of_nat (length s)) * prop)) |}
  end.

Fixpoint centre_row (n : Z) (s : list Z) (row : list Z) : list cell :=
  match s, row with
  | m :: s', v :: row' => Some (n * v - m)%Z :: centre_row n s' row'
  | _, _ => []
  end.

Fixpoint centre_rows (c : centre) (X : ndarray) : result ndarray :=
  match X with
  | [] => Ok []
  | row :: X' =>
      match values row with
      | None => Err ValueError
      | Some vs =>
          if (length vs =? length (sums c))%nat then
            (rest <- centre_rows c X' ;;
             Ok (firstn (kept c) (centre_row (count c) (sums c) vs) :: rest))%res
          else Err ValueError
      end
  end.

(** A centring projection: every entry is shifted by its training
    column mean (scaled by the sample count) and the leading columns are
    kept. *)
Definition centring : Decomposition := {|
  fitted := centre;
  pca_fit := centre_fit;
  pca_apply := centre_rows
|}.

Definition entry_value (e : ConfigEntry) : result Q :=
  match List.find (fun kv => String.eqb (fst kv) "value") e with
  | Some (_, SNum q) => Ok q
  | _ => Err ValueError
  end.

(** A tunable parameter that takes the value a trial suggests; a trial
    is the value it suggests. *)
Definition suggested : Tuning := {|
  Trial := Q;
  TunableParam := Q;
  from_config_entry := entry_value;
  tuner_tune := fun _ trial => Ok trial;
  tuner_value := fun v => v
|}.

(** The double nearest [q] as a float of the Standard Library's IEEE 754
    specification, and the number such a float stands for. *)
Definition ieee (q : Q) : spec_float :=
  let a := Qabs q in
  let m := nearest_even (a / pow2 (exponent a)) in
  binary_normalize 53 1024 (if (Qnum q <? 0)%Z then - m else m)%Z
    (exponent a) false.

Definition ieee_value (f : spec_float) : option Q :=
  match f with
  | S754_zero _ => Some 0%Q
  | S754_finite s m e =>
      Some (inject_Z (if s then Z.neg m else Z.pos m) * pow2 e)%Q
  | _ => None
  end.

Definition same_number (a b : option Q) : bool :=
  match a, b with
  | Some x, Some y => Qeq_bool x y
  | None, None => true
  | _, _ => false
  end.

(** Whether the product of an integer and a number, both taken to the
    nearest double, is the same by [binary64] and by the Standard
    Library's [SFmul]; no number stands for an overflow. *)
Definition products_agree (nt : Z * Q) : bool :=
  let '(n, t) := nt in
  same_number
    (ieee_value (SFmul 53 1024 (ieee (inject_Z n)) (ieee t)))
    (match binary64 (inject_Z n), binary64 t with
     | Some a, Some b => binary64 (a * b)
     | _, _ => None
     end).

Definition is_letter (c : ascii) : bool :=
  let n := nat_of_ascii c in
  ((65 <=? n) && (n <=? 90) || (97 <=? n) && (n <=? 122) || (n =? 95))%nat.

Definition is_digit (c : ascii) : bool :=
  let n := nat_of_ascii c in ((48 <=? n) && (n <=? 57))%nat.

(** Letters, digits and underscores, the first not a digit. *)
Definition bare_identifier (s : string) : bool :=
  match s with
  | EmptyString => false
  | String c s' =>
      is_letter c
      && forallb (fun c => is_letter c || is_digit c)
           (list_ascii_of_string s')
  end.

(** The text of a non-negative integer. *)
Definition integer_literal (s : string) : bool :=
  match s with
  | EmptyString => false
  | String _ _ => forallb is_digit (list_ascii_of_string s)
  end.

Fixpoint draws (n : nat) (g : Z) : list Z * Z :=
  match n with
  | O => ([], g)
  | S n' =>
      let g' := ((1103515245 * g + 12345) mod 2147483647)%Z in
      let '(l, g'') := draws n' g' in
      (g' :: l, g'')
  end.

(** Fold [i] of [k]: the positions congruent to [i] are the test rows. *)
Definition fold_of (n k i : nat) : list nat * list nat :=
  (List.filter (fun j => negb (j mod k =? i)%nat) (seq 0 n),
   List.filter (fun j => (j mod k =? i)%nat) (seq 0 n)).

Definition library : Collaborators := {|
  RNG := Z;
  np_random_seed := fun s => s;
  np_random_randint := draws;
  Splitter := nat;
  StratifiedKFold := fun k _ =>
    if (k <? 2)%nat then Err ValueError else Ok k;
  skf_split := fun k X _ =>
    if (length X <? k)%nat then Err ValueError
    else Ok (map (fold_of (length X) k) (seq 0 k));
  process_pre_analysis := fun x => ret x;
  Model := nat;
  Prediction := nat;
  Metric := nat;
  metric_str := str_nat;
  build_model := fun trial => ret (number trial);
  model_fit := fun m train_x _ => ret (m + DM.len train_x);
  predict := fun m x => Ok (m + DM.len x);
  predict_proba := fun m x => Ok (m * DM.len x);
  log_loss := fun _ p => Ok p;
  balanced_accuracy_score := fun _ _ => Ok 1;
  sql_identifier := bare_identifier;
  sql_literal := integer_literal
|}.

(** A hook after [tune] resolved the proportion [v]. *)
Definition tuned (v : Q) : @PrincipalComponentAnalysis.t centring suggested :=
  @PrincipalComponentAnalysis.mk centring suggested v
    (Some (@PCA.new centring v)).

(** Three features, four samples, some entries null. *)
Definition table : DM.t :=
  DM.mk true true ["a"; "b"; "c"]
    [[Some 1; None; Some 3];
     [None; None; Some 6];
     [Some 7; Some 8; Some 9];
     [Some 1; None; None]]%Z.

(** Ten samples over seven features: the first sample has six null
    entries, feature [a] seven, feature [b] eight. *)
Definition survey : DM.t :=
  DM.mk true true ["a"; "b"; "c"; "d"; "e"; "f"; "g"]
    [[None; None; None; None; None; None; Some 1];
     [None; None; Some 1; Some 1; Some 1; Some 1; Some 1];
     [None; None; Some 2; Some 2; Some 2; Some 2; Some 2];
     [None; None; Some 3; Some 3; Some 3; Some 3; Some 3];
     [None; None; Some 4; Some 4; Some 4; Some 4; Some 4];
     [None; None; Some 5; Some 5; Some 5; Some 5; Some 5];
     [None; None; Some 6; Some 6; Some 6; Some 6; Some 6];
     [Some 7; None; Some 7; Some 7; Some 7; Some 7; Some 7];
     [Some 8; Some 8; Some 8; Some 8; Some 8; Some 8; Some 8];
     [Some 9; Some 9; Some 9; Some 9; Some 9; Some 9; Some 9]]%Z.

(** A container without the multi-feature capability. *)
Definition series : DM.t :=
  DM.mk false false ["v"] [[Some 1]; [Some 2]; [Some 6]]%Z.

Definition series_a : DM.t :=
  DM.mk false false ["v"] [[Some 10]; [Some 20]]%Z.

Definition series_b : DM.t :=
  DM.mk false false ["v"] [[Some 0]; [Some 0]]%Z.

(** Complete multi-feature data for the decomposition. *)
Definition train : DM.t :=
  DM.mk true true ["a"; "b"; "c"]
    [[Some 1; Some 2; Some 3];
     [Some 4; Some 5; Some 6];
     [Some 7; Some 8; Some 10]]%Z.

Definition test : DM.t :=
  DM.mk true true ["a"; "b"; "c"]
    [[Some 0; Some 0; Some 1];
     [Some 2; Some 2; Some 2]]%Z.

(** Six samples, two features and a target. *)
Definition dataset : DM.t :=
  DM.mk true true ["f1"; "f2"; "y"]
    [[Some 1; Some 2; Some 0];
     [Some 3; Some 4; Some 1];
     [Some 5; Some 6; Some 0];
     [Some 7; Some 8; Some 1];
     [Some 9; Some 1; Some 0];
     [Some 2; Some 3; Some 1]]%Z.

(** A study whose label holds a blank. *)
Definition spaced : StudyManager.t :=
  StudyManager.mk
    (DataConfig.mk "tabular" "data" dataset)
    (ModelConfig.mk "model")
    (StudyConfig.mk "my study" 42 3 2 ["y"])
    false.

Definition manager : StudyManager.t :=
  StudyManager.mk
    (DataConfig.mk "tabular" "data" dataset)
    (ModelConfig.mk "model")
    (StudyConfig.mk "study" 42 3 2 ["y"])
    false.

Definition start : @StudyManager.World library :=
  @StudyManager.Build_World library 0%Z ∅ false [].

(** A store that already holds a table of the study's label. *)
Definition earlier : @StudyManager.World library :=
  @StudyManager.Build_World library 0%Z
    {[ "study__model__data" :=
         {| columns := ["replicate"; "trial"; "objective"; "bacc"];
            rows := [["0"; "0"; "8"; "1"]] |} ]}
    false [].

(** A store holding the table of another study. *)
Definition shared : @StudyManager.World library :=
  @StudyManager.Build_World library 0%Z
    {[ "other__model__data" :=
         {| columns := ["replicate"; "trial"; "objective"; "bacc"];
            rows := [["0"; "0"; "3"; "1"]] |} ]}
    false [].

(** The same collaborators with a model factory that raises on the
    second trial of a search. *)
Definition flaky : Collaborators := {|
  RNG := Z;
  np_random_seed := fun s => s;
  np_random_randint := draws;
  Splitter := nat;
  StratifiedKFold := fun k _ =>
    if (k <? 2)%nat then Err ValueError else Ok k;
  skf_split := fun k X _ =>
    if (length X <? k)%nat then Err ValueError
    else Ok (map (fold_of (length X) k) (seq 0 k));
  process_pre_analysis := fun x => ret x;
  Model := nat;
  Prediction := nat;
  Metric := nat;
  metric_str := str_nat;
  build_model := fun trial =>
    if (number trial =? 1)%nat then raise ValueError
    else ret (number trial);
  model_fit := fun m train_x _ => ret (m + DM.len train_x);
  predict := fun m x => Ok (m + DM.len x);
  predict_proba := fun m x => Ok (m * DM.len x);
  log_loss := fun _ p => Ok p;
  balanced_accuracy_score := fun _ _ => Ok 1;
  sql_identifier := bare_identifier;
  sql_literal := integer_literal
|}.

(** A store in which the study's table was just created and the cursor
    set. *)
Definition opened : @StudyManager.World flaky :=
  @StudyManager.Build_World flaky 0%Z
    {[ "study__model__data" :=
         {| columns := ["replicate"; "trial"; "objective"; "bacc"];
            rows := [] |} ]}
    true [].

(** Entries are read and removed from the dictionary; a missing entry
    raises. *)
Fixpoint pop_entry (key : string) (d : list (string * json))
  : option (json * list (string * json)) :=
  match d with
  | [] => None
  | (k, v) :: d' =>
      if String.eqb key k then Some (v, d')
      else match pop_entry key d' with
           | Some (v', d'') => Some (v', (k, v) :: d'')
           | None => None
           end
  end.

Definition pop_str (key : string) (_ : list check) : M Parsing string :=
  fun st =>
    match pop_entry key (json_data st) with
    | Some (JStr s, d) => (Ok s, {| json_data := d; warnings := warnings st |})
    | _ => (Err ValueError, st)
    end.

(** One registered format, whose manager takes nothing further from the
    dictionary. *)
Definition registry : ConfigLibrary := {|
  ManagerClass := DM.t;
  parse_data_config_entry := pop_str;
  DATA_MANAGERS := {[ "tabular" := dataset ]};
  manager_from_config := fun dm => ret dm;
  load_json_with_validation := fun _ => Ok JNull
|}.

(** A study on data without the feature-splittable capability. *)
Definition unsupervised : StudyManager.t :=
  StudyManager.mk
    (DataConfig.mk "tabular" "data" series)
    (ModelConfig.mk "model")
    (StudyConfig.mk "study" 42 3 2 ["y"])
    false.

End Demo.

(** ** Notions the properties are stated with *)

(** The product [n_samples × t] of a sample count and a float threshold:
    the count converted to a float, times the threshold, rounded to the
    nearest double. *)
Definition float_product (n_samples : nat) (t : pyfloat) : result pyfloat :=
  (n <- float_of_int (Z.of_nat n_samples) ;; Ok (float_mul n t))%res.

(** The positions of the columns named [k]. *)
Fixpoint positions (k : string) (names : list string) : list nat :=
  match names with
  | [] => []
  | n :: names' =>
      (if String.eqb n k then [0] else []) ++ map S (positions k names')
  end.

(** Whether the entry of a sample at position [j] is null. *)
Definition null_at (row : list cell) (j : nat) : bool :=
  match nth_error row j with
  | Some c => isnull c
  | None => false
  end.

(** The null count of feature [k] over all samples: the number of
    entries, sample by sample, that stand in a column named [k] and are
    null. *)
Definition feature_null_count (x : DM.t) (k : string) : Z :=
  Z.of_nat
    (fold_right
       (fun row acc =>
          length (List.filter (null_at row) (positions k (DM.names x))) + acc)
       0 (DM.samples x)).

(** The count [FeatureNullityDrop.run] compares with the tolerance (0
    only stands in for a name the container does not have). *)
Definition counted_nulls (x : DM.t) (k : string) : Z :=
  match FeatureNullityDrop.null_content x k with
  | Ok c => Z.of_nat c
  | Err _ => 0%Z
  end.

(** A sequence of calls on one PCA hook, as a pipeline makes them. *)
Module Session.
Section WithCollaborators.
Context `{Decomposition} `{Tuning}.

Inductive call : Type :=
| CallTune (trial : Trial)
| CallRun (x : DM.t)
| CallRunFitted (x_train : DM.t) (x_test : option DM.t).

Inductive outcome : Type :=
| Returned
| Raised (e : error).

Definition outcome_of {A : Type} (r : result A) : outcome :=
  match r with
  | Ok _ => Returned
  | Err e => Raised e
  end.

Definition invoke (c : call) (self : PrincipalComponentAnalysis.t)
  : outcome * PrincipalComponentAnalysis.t :=
  match c with
  | CallTune trial =>
      let '(r, self') := PrincipalComponentAnalysis.tune trial self in
      (outcome_of r, self')
  | CallRun x =>
      let '(r, self') := PrincipalComponentAnalysis.run x self in
      (outcome_of r, self')
  | CallRunFitted x_train x_test =>
      let '(r, self') :=
        PrincipalComponentAnalysis.run_fitted x_train x_test self in
      (outcome_of r, self')
  end.

Fixpoint play (cs : list call) (self : PrincipalComponentAnalysis.t)
  : list outcome * PrincipalComponentAnalysis.t :=
  match cs with
  | [] => ([], self)
  | c :: cs' =>
      let '(o, self') := invoke c self in
      let '(os, self'') := play cs' self' in
      (o :: os, self'')
  end.

Definition is_tune (c : call) : bool :=
  match c with
  | CallTune _ => true
  | _ => false
  end.

End WithCollaborators.
End Session.

(** The first position of an event in a trace. *)
Fixpoint position (e : Event) (tr : list Event) : option nat :=
  match tr with
  | [] => None
  | e' :: tr' =>
      if decide (e = e') then Some 0 else option_map S (position e tr')
  end.

(** [a] is recorded, and earlier than any [b]. *)
Definition happens_before (a b : Event) (tr : list Event) : bool :=
  match position a tr, position b tr with
  | Some i, Some j => (i <? j)%nat
  | Some _, None => true
  | None, _ => false
  end.

(** Invariants of the PCA hook. *)
Section HookNotions.
Context `{Decomposition} `{Tuning}.

Local Abbreviation hook := PrincipalComponentAnalysis.t.

(** A computation that keeps a property of the hook, raising or not. *)
Definition keeps {A : Type} (I : hook -> Prop) (m : M hook A) : Prop :=
  forall self, I self -> I (snd (m self)).

(** The backing transform is set, was built with [v], and the tuner is
    [tuner]. *)
Definition built_with (tuner : TunableParam) (v : Q) (self : hook) : Prop :=
  PrincipalComponentAnalysis.prop_tuner self = tuner /\
  exists p, PrincipalComponentAnalysis.backing_pca self = Some p /\
            PCA.n_components p = v.

End HookNotions.

(** What a study run logs and stores. *)
Section StudyNotions.
Context `{Collaborators}.

Local Abbreviation World := StudyManager.World.

(** A computation only appends to the log of calls. *)
Definition appends {A : Type} (m : M World A) : Prop :=
  forall w, exists l, StudyManager.trace (snd (m w)) = StudyManager.trace w ++ l.

(** Whenever it returns, the computation has appended exactly [l]. *)
Definition logs {A : Type} (l : list Event) (m : M World A) : Prop :=
  forall w a w',
    m w = (Ok a, w') -> StudyManager.trace w' = StudyManager.trace w ++ l.

(** The computation always returns, having appended exactly [l]. *)
Definition surely_logs {A : Type} (l : list Event) (m : M World A) : Prop :=
  forall w, exists a w',
    m w = (Ok a, w') /\ StudyManager.trace w' = StudyManager.trace w ++ l.

(** Whatever the outcome, what the computation appends starts with [l]. *)
Definition logs_first {A : Type} (l : list Event) (m : M World A) : Prop :=
  forall w, exists rest,
    StudyManager.trace (snd (m w)) = StudyManager.trace w ++ l ++ rest.

(** Whenever it returns, what the computation appended starts with [l]. *)
Definition logs_first_ok {A : Type} (l : list Event) (m : M World A) : Prop :=
  forall w a w',
    m w = (Ok a, w') ->
    exists rest, StudyManager.trace w' = StudyManager.trace w ++ l ++ rest.

(** The row of replicate [rep] and trial [trial] with objective [fst v]
    and tracked value [snd v]. *)
Definition result_row (rep trial : nat) (v : Metric * Metric) : list string :=
  [str_nat rep; str_nat trial; metric_str (fst v); metric_str (snd v)].

(** The rows of one replicate, trials numbered from [start]. *)
Fixpoint trial_rows (rep start : nat) (vals : list (Metric * Metric))
  : list (list string) :=
  match vals with
  | [] => []
  | v :: vals' => result_row rep start v :: trial_rows rep (S start) vals'
  end.

(** The rows of consecutive replicates, numbered from [start]. *)
Fixpoint study_rows (start : nat) (vals : list (list (Metric * Metric)))
  : list (list string) :=
  match vals with
  | [] => []
  | l :: vals' => trial_rows start 0 l ++ study_rows (S start) vals'
  end.

(** The trials that returned: called one after the other from [w], the
    trials numbered from [length past] returned the objective values [vs]
    and left [w']. *)
Inductive completed (func : OptunaTrial Metric -> M World Metric)
          (name : string) (sampler : Z)
  : list Metric -> World -> list Metric -> World -> Prop :=
| completed_none (past : list Metric) (w : World) :
    completed func name sampler past w [] w
| completed_next (past : list Metric) (w w1 w2 : World)
                 (v : Metric) (vs : list Metric) :
    func {| number := length past; history := past;
            study_name := name; sampler_seed := sampler |} w = (Ok v, w1) ->
    completed func name sampler (past ++ [v]) w1 vs w2 ->
    completed func name sampler past w (v :: vs) w2.

(** The table [name] holds the earlier rows followed by [new]. *)
Definition extended (name : string) (tbl : Table) (new : list (list string))
           (w : World) : Prop :=
  StudyManager.db w !! name
  = Some {| columns := columns tbl; rows := rows tbl ++ new |} /\
  StudyManager.db_cursor w = true.

End StudyNotions.

(** The seeds given to [np.random.seed], in the order of the calls. *)
Fixpoint seeds_of (tr : list Event) : list Z :=
  match tr with
  | [] => []
  | EvSeed s :: tr' => s :: seeds_of tr'
  | _ :: tr' => seeds_of tr'
  end.

Section StoreNotions.
Context `{Collaborators}.

(** A computation leaves every table but [name] as it is, whatever its
    outcome. *)
Definition spares_others {A : Type} (name : string)
           (m : M StudyManager.World A) : Prop :=
  forall w other,
    other <> name ->
    StudyManager.db (snd (m w)) !! other = StudyManager.db w !! other.

(** A computation leaves the whole store as it is, whatever its outcome. *)
Definition spares_store {A : Type} (m : M StudyManager.World A) : Prop :=
  forall w,
    StudyManager.db (snd (m w)) = StudyManager.db w /\
    StudyManager.db_cursor (snd (m w)) = StudyManager.db_cursor w.

(** On a store that already has the table [name], a computation raises
    and leaves the store as it is. *)
Definition refuses_existing {A : Type} (name : string)
           (m : M StudyManager.World A) : Prop :=
  forall w,
    is_Some (StudyManager.db w !! name) ->
    (exists e, fst (m w) = Err e) /\
    StudyManager.db (snd (m w)) = StudyManager.db w.

(** When it returns, the computation has seeded the generator with
    exactly the values [l], in that order. *)
Definition reseeds {A : Type} (l : list Z) (m : M StudyManager.World A)
  : Prop :=
  forall w a w',
    m w = (Ok a, w') ->
    seeds_of (StudyManager.trace w') = seeds_of (StudyManager.trace w) ++ l.

End StoreNotions.

(** * Properties *)

(** ** Membership, truncation and floor *)

Lemma mem_str_In (n : string) (l : list string) :
  mem_str n l = true <-> In n l.
Proof.
  unfold mem_str. rewrite existsb_exists. split.
  - intros [m [Hin Heq]]. apply String.eqb_eq in Heq. now subst.
  - intros Hin. exists n. split; [assumption | apply String.eqb_refl].
Qed.

Lemma mem_str_false (n : string) (l : list string) :
  mem_str n l = false <-> ~ In n l.
Proof.
  rewrite <- mem_str_In. destruct (mem_str n l); split; congruence.
Qed.

Lemma py_int_nonneg (q : Q) : (0 <= q)%Q -> py_int q = Qfloor q.
Proof.
  destruct q as [n d]. unfold Qle, py_int, Qfloor. simpl. intros H.
  apply Z.quot_div_nonneg; lia.
Qed.

Lemma py_int_neg (q : Q) : (q < 0)%Q -> (py_int q <= 0 /\ Qfloor q < 0)%Z.
Proof.
  destruct q as [n d]. unfold Qlt, py_int, Qfloor. simpl. intros H.
  assert (Hn : (n < 0)%Z) by lia. split.
  - pose proof (Z.mul_quot_ge n (Z.pos d)) as Hq. nia.
  - apply Z.div_lt_upper_bound; lia.
Qed.

(** Truncation is at least the floor, whatever the sign. *)
Lemma py_int_ge_floor (q : Q) : (Qfloor q <= py_int q)%Z.
Proof.
  destruct (Qlt_le_dec q 0) as [Hneg | Hpos].
  - destruct q as [n d]. unfold Qlt, py_int, Qfloor in *. simpl in *.
    assert (Hn : (n <= 0)%Z) by lia.
    pose proof (Z.mul_quot_ge n (Z.pos d) Hn) as Hq.
    apply Z.div_le_upper_bound; lia.
  - rewrite (py_int_nonneg q Hpos). lia.
Qed.

Lemma py_int_mono (q1 q2 : Q) : (q1 <= q2)%Q -> (py_int q1 <= py_int q2)%Z.
Proof.
  intros Hle.
  destruct (Qlt_le_dec q1 0) as [Hneg1 | Hpos1].
  - destruct (Qlt_le_dec q2 0) as [Hneg2 | Hpos2].
    + (* both negative: compare through the ceilings *)
      destruct q1 as [n1 d1], q2 as [n2 d2].
      unfold Qlt, Qle, py_int in *. simpl in *.
      assert (H1 : (n1 <= 0)%Z) by lia. assert (H2 : (n2 <= 0)%Z) by lia.
      pose proof (Z.mul_pred_quot_lt n1 (Z.pos d1) H1 eq_refl) as Ha.
      pose proof (Z.mul_quot_ge n2 (Z.pos d2) H2) as Hb.
      destruct (Z_le_gt_dec (Z.quot n1 (Z.pos d1)) (Z.quot n2 (Z.pos d2)))
        as [Hdone | Hgt]; [exact Hdone | exfalso].
      assert (Hc : (Z.pos d1 * Z.quot n2 (Z.pos d2)
                    <= Z.pos d1 * Z.pred (Z.quot n1 (Z.pos d1)))%Z)
        by (apply Z.mul_le_mono_nonneg_l; lia).
      assert (Hd : (Z.pos d1 * n2 <= Z.pos d1 * (Z.pos d2 * Z.quot n2 (Z.pos d2)))%Z)
        by (apply Z.mul_le_mono_nonneg_l; lia).
      assert (He : (Z.pos d2 * (Z.pos d1 * Z.quot n2 (Z.pos d2)) < Z.pos d2 * n1)%Z)
        by (apply Z.mul_lt_mono_pos_l; lia).
      lia.
    + destruct (py_int_neg q1 Hneg1) as [H1 _].
      rewrite (py_int_nonneg q2 Hpos2).
      assert (0 <= Qfloor q2)%Z; [| lia].
      change 0%Z with (Qfloor 0). now apply Qfloor_resp_le.
  - assert (Hpos2 : (0 <= q2)%Q) by (eapply Qle_trans; eassumption).
    rewrite (py_int_nonneg q1 Hpos1), (py_int_nonneg q2 Hpos2).
    now apply Qfloor_resp_le.
Qed.

(** ** Rounding to the nearest double *)

Lemma two_neq_0 : ~ (2 == 0)%Q.
Proof. discriminate. Qed.

Lemma pow2_pos (k : Z) : (0 < pow2 k)%Q.
Proof. apply Qpower_0_lt. reflexivity. Qed.

Lemma pow2_add (a b : Z) : (pow2 (a + b) == pow2 a * pow2 b)%Q.
Proof. apply Qpower_plus, two_neq_0. Qed.

Lemma pow2_le (a b : Z) : (a <= b)%Z -> (pow2 a <= pow2 b)%Q.
Proof. intros H. apply Qpower_le_compat_l; [exact H | discriminate]. Qed.

Lemma pow2_lt_inv (a b : Z) : (pow2 a < pow2 b)%Q -> (a < b)%Z.
Proof. intros H. apply (Qpower_lt_compat_l_inv 2); [exact H | reflexivity]. Qed.

Lemma pow2_inject (k : Z) : (0 <= k)%Z -> (inject_Z (2 ^ k) == pow2 k)%Q.
Proof. intros H. apply (Zpower_Qpower 2 k H). Qed.

Lemma div_pow2_le (a b : Q) (e : Z) : (a <= b)%Q -> (a / pow2 e <= b / pow2 e)%Q.
Proof.
  intros H. unfold Qdiv. apply Qmult_le_compat_r; [exact H |].
  apply Qlt_le_weak, Qinv_lt_0_compat, pow2_pos.
Qed.

Lemma div_pow2 (k e : Z) : (pow2 k / pow2 e == pow2 (k - e))%Q.
Proof. symmetry. apply Qpower_minus, two_neq_0. Qed.

(** The binade of a positive rational holds it. *)
Lemma binade_spec (q : Q) :
  (0 < q)%Q -> (pow2 (binade q) <= q /\ q < pow2 (binade q + 1))%Q.
Proof.
  intros Hq. destruct q as [n d]. 
  assert (Hn : (0 < n)%Z).
  { unfold Qlt in Hq. simpl in Hq. lia. }
  pose proof (Z.log2_spec n Hn) as [Hn1 Hn2].
  pose proof (Z.log2_spec (Z.pos d) (Pos2Z.is_pos d)) as [Hd1 Hd2].
  pose proof (Z.log2_nonneg n) as Hln.
  pose proof (Z.log2_nonneg (Z.pos d)) as Hld.
  set (ln := Z.log2 n) in *. set (ld := Z.log2 (Z.pos d)) in *.
  assert (Hq' : (n # d == inject_Z n / inject_Z (Z.pos d))%Q) by apply Qmake_Qdiv.
  assert (Hdpos : (0 < inject_Z (Z.pos d))%Q) by reflexivity.
  assert (Hmul : ((n # d) * inject_Z (Z.pos d) == inject_Z n)%Q).
  { rewrite Hq'. field. discriminate. }
  (* lower: pow2 (ln - ld - 1) <= q ; upper: q < pow2 (ln - ld + 1) *)
  assert (Hlow : (pow2 (ln - ld - 1) <= n # d)%Q).
  { apply Qmult_le_r with (z := pow2 (ld + 1)); [apply pow2_pos |].
    rewrite <- pow2_add. replace (ln - ld - 1 + (ld + 1))%Z with ln by lia.
    apply Qle_trans with (inject_Z n).
    - rewrite <- pow2_inject by lia. rewrite <- Zle_Qle. exact Hn1.
    - rewrite <- Hmul. apply Qmult_le_l; [exact Hq |].
      rewrite <- pow2_inject by lia. rewrite <- Zle_Qle. lia. }
  assert (Hup : (n # d < pow2 (ln - ld + 1))%Q).
  { apply Qmult_lt_r with (z := pow2 ld); [apply pow2_pos |].
    rewrite <- pow2_add. replace (ln - ld + 1 + ld)%Z with (ln + 1)%Z by lia.
    apply Qle_lt_trans with (inject_Z n).
    - rewrite <- Hmul. apply Qmult_le_l; [exact Hq |].
      rewrite <- pow2_inject by lia. rewrite <- Zle_Qle. exact Hd1.
    - rewrite <- pow2_inject by lia. rewrite <- Zlt_Qlt. lia. }
  unfold binade. cbn [Qnum Qden]. fold ln ld.
  destruct (Qle_bool (pow2 (ln - ld)) (n # d)) eqn:Hb.
  - apply Qle_bool_iff in Hb. split; [exact Hb | exact Hup].
  - split; [exact Hlow |].
    replace (ln - ld - 1 + 1)%Z with (ln - ld)%Z by lia.
    apply Qnot_le_lt. intros Hc. apply Qle_bool_iff in Hc. congruence.
Qed.

Lemma binade_mono (a b : Q) : (0 < a)%Q -> (a <= b)%Q -> (binade a <= binade b)%Z.
Proof.
  intros Ha Hab.
  destruct (binade_spec a Ha) as [Ha1 _].
  destruct (binade_spec b (Qlt_le_trans _ _ _ Ha Hab)) as [_ Hb2].
  assert (H : (pow2 (binade a) < pow2 (binade b + 1))%Q).
  { eapply Qle_lt_trans; [exact Ha1 |]. eapply Qle_lt_trans; [exact Hab | exact Hb2]. }
  apply pow2_lt_inv in H. lia.
Qed.

(** Rounding to the nearest integer keeps the order and the integers. *)
Lemma nearest_even_inject (z : Z) : nearest_even (inject_Z z) = z.
Proof.
  unfold nearest_even. rewrite Qfloor_Z.
  assert (H : (inject_Z z - inject_Z z < 1 # 2)%Q) by lra.
  rewrite (proj1 (Qlt_alt _ _) H). reflexivity.
Qed.

Lemma nearest_even_bounds (q : Q) :
  (Qfloor q <= nearest_even q <= Qfloor q + 1)%Z.
Proof.
  unfold nearest_even.
  destruct (q - inject_Z (Qfloor q) ?= 1 # 2)%Q; [destruct (Z.even _) | |]; lia.
Qed.

Lemma nearest_even_mono (a b : Q) :
  (a <= b)%Q -> (nearest_even a <= nearest_even b)%Z.
Proof.
  intros Hab.
  pose proof (Qfloor_resp_le _ _ Hab) as Hf.
  pose proof (nearest_even_bounds a) as Ba.
  pose proof (nearest_even_bounds b) as Bb.
  destruct (Z.eq_dec (Qfloor a) (Qfloor b)) as [E | NE]; [| lia].
  unfold nearest_even in *. rewrite <- E in *.
  set (f := Qfloor a) in *.
  assert (Hr : (a - inject_Z f <= b - inject_Z f)%Q).
  { apply Qplus_le_l with (z := inject_Z f). ring_simplify. exact Hab. }
  destruct (a - inject_Z f ?= 1 # 2)%Q eqn:Ca;
    destruct (b - inject_Z f ?= 1 # 2)%Q eqn:Cb;
    try (destruct (Z.even f)); try lia; exfalso;
    repeat match goal with
      | H : (_ ?= _)%Q = Eq |- _ => apply <- Qeq_alt in H
      | H : (_ ?= _)%Q = Lt |- _ => apply <- Qlt_alt in H
      | H : (_ ?= _)%Q = Gt |- _ => apply <- Qgt_alt in H
      end; lra.
Qed.

Lemma nearest_even_eq (a b : Q) : (a == b)%Q -> nearest_even a = nearest_even b.
Proof.
  intros H. apply Z.le_antisymm; apply nearest_even_mono; rewrite H; apply Qle_refl.
Qed.

Lemma nearest_even_le (q : Q) (z : Z) :
  (q <= inject_Z z)%Q -> (nearest_even q <= z)%Z.
Proof.
  intros H. rewrite <- (nearest_even_inject z). apply nearest_even_mono, H.
Qed.

Lemma nearest_even_ge (q : Q) (z : Z) :
  (inject_Z z <= q)%Q -> (z <= nearest_even q)%Z.
Proof.
  intros H. rewrite <- (nearest_even_inject z). apply nearest_even_mono, H.
Qed.

Lemma round_magnitude_unfold (a : Q) :
  round_magnitude a = (inject_Z (nearest_even (a / pow2 (exponent a))) * pow2 (exponent a))%Q.
Proof. reflexivity. Qed.

Lemma round_magnitude_nonneg (a : Q) : (0 <= a)%Q -> (0 <= round_magnitude a)%Q.
Proof.
  intros Ha. rewrite round_magnitude_unfold.
  apply Qmult_le_0_compat; [| apply Qlt_le_weak, pow2_pos].
  change 0%Q with (inject_Z 0). rewrite <- Zle_Qle.
  apply nearest_even_ge. change (inject_Z 0) with 0%Q.
  apply Qle_shift_div_l; [apply pow2_pos |]. lra.
Qed.

Lemma round_magnitude_mono (a b : Q) :
  (0 < a)%Q -> (a <= b)%Q -> (round_magnitude a <= round_magnitude b)%Q.
Proof.
  intros Ha Hab.
  assert (Hb : (0 < b)%Q) by lra.
  pose proof (binade_mono a b Ha Hab) as Hk.
  destruct (binade_spec a Ha) as [_ Ha2].
  destruct (binade_spec b Hb) as [Hb1 _].
  rewrite !round_magnitude_unfold.
  destruct (Z.eq_dec (exponent a) (exponent b)) as [E | NE].
  - rewrite E. apply Qmult_le_compat_r; [| apply Qlt_le_weak, pow2_pos].
    rewrite <- Zle_Qle. apply nearest_even_mono, div_pow2_le, Hab.
  - assert (Hlt : (exponent a < exponent b)%Z) by (unfold exponent in *; lia).
    assert (Heb : exponent b = (binade b - 52)%Z) by (unfold exponent in *; lia).
    assert (Hea : (binade a - 52 <= exponent a)%Z) by (unfold exponent; lia).
    apply Qle_trans with (inject_Z (2 ^ 53) * pow2 (exponent a))%Q.
    + apply Qmult_le_compat_r; [| apply Qlt_le_weak, pow2_pos].
      rewrite <- Zle_Qle. apply nearest_even_le.
      rewrite pow2_inject by lia.
      apply Qle_shift_div_r; [apply pow2_pos |].
      rewrite <- pow2_add.
      apply Qle_trans with (pow2 (binade a + 1)); [lra |].
      apply pow2_le. lia.
    + apply Qle_trans with (inject_Z (2 ^ 52) * pow2 (exponent b))%Q.
      * rewrite !pow2_inject by lia. rewrite <- !pow2_add. apply pow2_le. lia.
      * apply Qmult_le_compat_r; [| apply Qlt_le_weak, pow2_pos].
        rewrite <- Zle_Qle. apply nearest_even_ge.
        rewrite pow2_inject by lia.
        apply Qle_shift_div_l; [apply pow2_pos |].
        rewrite <- pow2_add. rewrite Heb.
        replace (52 + (binade b - 52))%Z with (binade b) by lia. exact Hb1.
Qed.

Lemma Qnum_sign (q : Q) :
  match Qnum q with
  | Z0 => (q == 0)%Q
  | Zpos _ => (0 < q)%Q
  | Zneg _ => (q < 0)%Q
  end.
Proof.
  destruct q as [[| p | p] d]; unfold Qeq, Qlt; simpl; lia.
Qed.

Lemma round_double_pos (q : Q) : (0 < q)%Q -> round_double q = round_magnitude q.
Proof.
  intros H. unfold round_double. pose proof (Qnum_sign q) as S.
  destruct (Qnum q); [lra | reflexivity | lra].
Qed.

Lemma round_double_neg (q : Q) :
  (q < 0)%Q -> round_double q = (- round_magnitude (- q))%Q.
Proof.
  intros H. unfold round_double. pose proof (Qnum_sign q) as S.
  destruct (Qnum q); [lra | lra | reflexivity].
Qed.

Lemma round_double_zero (q : Q) : (q == 0)%Q -> round_double q = 0%Q.
Proof.
  intros H. unfold round_double. pose proof (Qnum_sign q) as S.
  destruct (Qnum q); [reflexivity | lra | lra].
Qed.

Lemma round_double_nonneg (q : Q) : (0 <= q)%Q -> (0 <= round_double q)%Q.
Proof.
  intros H. destruct (Qlt_le_dec 0 q) as [P | N].
  - rewrite round_double_pos by exact P. apply round_magnitude_nonneg, H.
  - rewrite round_double_zero by lra. lra.
Qed.

Lemma round_double_nonpos (q : Q) : (q <= 0)%Q -> (round_double q <= 0)%Q.
Proof.
  intros H. destruct (Qlt_le_dec q 0) as [N | P].
  - rewrite round_double_neg by exact N.
    assert (0 <= round_magnitude (- q))%Q by (apply round_magnitude_nonneg; lra). lra.
  - rewrite round_double_zero by lra. lra.
Qed.

(** Rounding to the nearest double keeps the order. *)
Lemma round_double_mono (a b : Q) :
  (a <= b)%Q -> (round_double a <= round_double b)%Q.
Proof.
  intros Hab.
  destruct (Qlt_le_dec 0 a) as [Pa | Na].
  - rewrite (round_double_pos a Pa), (round_double_pos b) by lra.
    apply round_magnitude_mono; assumption.
  - destruct (Qlt_le_dec b 0) as [Nb | Pb].
    + rewrite (round_double_neg b Nb), (round_double_neg a) by lra.
      assert (round_magnitude (- b) <= round_magnitude (- a))%Q
        by (apply round_magnitude_mono; lra).
      lra.
    + apply Qle_trans with 0%Q;
        [apply round_double_nonpos, Na | apply round_double_nonneg, Pb].
Qed.

Lemma binade_inject (z : Z) : (0 < z)%Z -> binade (inject_Z z) = Z.log2 z.
Proof.
  intros Hz. unfold binade. cbn [inject_Z Qnum Qden].
  change (Z.log2 1) with 0%Z. rewrite Z.sub_0_r.
  pose proof (Z.log2_spec z Hz) as [H1 _]. pose proof (Z.log2_nonneg z) as H0.
  assert (Hb : Qle_bool (pow2 (Z.log2 z)) (inject_Z z) = true).
  { apply Qle_bool_iff. rewrite <- pow2_inject by lia.
    rewrite <- Zle_Qle. exact H1. }
  rewrite Hb. reflexivity.
Qed.

(** Integers below 2^53 are doubles. *)
Lemma round_double_inject (z : Z) :
  (0 <= z < 2 ^ 53)%Z -> (round_double (inject_Z z) == inject_Z z)%Q.
Proof.
  intros [H0 H53].
  destruct (Z.eq_dec z 0%Z) as [-> | Hnz]; [reflexivity |].
  assert (Hz : (0 < z)%Z) by lia.
  rewrite round_double_pos by (change 0%Q with (inject_Z 0); rewrite <- Zlt_Qlt; exact Hz).
  rewrite round_magnitude_unfold. unfold exponent. rewrite binade_inject by exact Hz.
  pose proof (Z.log2_nonneg z) as Hl0.
  assert (Hl : (Z.log2 z < 53)%Z) by (apply Z.log2_lt_pow2; lia).
  rewrite Z.max_l by lia.
  set (e := (Z.log2 z - 52)%Z).
  assert (Hdiv : (inject_Z z / pow2 e == inject_Z (z * 2 ^ (- e)))%Q).
  { rewrite inject_Z_mult, pow2_inject by lia. unfold pow2.
    rewrite Qpower_opp. reflexivity. }
  rewrite (nearest_even_eq _ _ Hdiv), nearest_even_inject.
  rewrite inject_Z_mult, pow2_inject by lia.
  rewrite <- Qmult_assoc, <- pow2_add.
  replace (- e + e)%Z with 0%Z by lia. change (pow2 0) with 1%Q. ring.
Qed.

Lemma binary64_some (q v : Q) :
  binary64 q = Some v <-> v = round_double q /\ (Qabs v < pow2 1024)%Q.
Proof.
  unfold binary64.
  destruct (Qle_bool (pow2 1024) (Qabs (round_double q))) eqn:E.
  - split; [discriminate |]. intros [-> H]. apply Qle_bool_iff in E. lra.
  - split.
    + intros [= <-]. split; [reflexivity |].
      apply Qnot_le_lt. intros C. apply Qle_bool_iff in C. congruence.
    + intros [-> _]. reflexivity.
Qed.

Lemma binary64_mono (a b va vb : Q) :
  (a <= b)%Q -> binary64 a = Some va -> binary64 b = Some vb -> (va <= vb)%Q.
Proof.
  intros Hab Ha Hb. apply binary64_some in Ha as [-> _]. apply binary64_some in Hb as [-> _].
  apply round_double_mono, Hab.
Qed.

Lemma nearest_even_below_half (q : Q) (z : Z) :
  (q < inject_Z z + (1 # 2))%Q -> (nearest_even q <= z)%Z.
Proof.
  intros Hq.
  pose proof (Qfloor_le q) as Hlo. pose proof (Qlt_floor q) as Hhi.
  pose proof (nearest_even_bounds q) as Hb.
  assert (Hf : (Qfloor q <= z)%Z).
  { apply Z.lt_succ_r. rewrite Zlt_Qlt.
    unfold Z.succ. rewrite inject_Z_plus. change (inject_Z 1) with 1%Q. lra. }
  destruct (Z.eq_dec (Qfloor q) z) as [E | NE]; [| lia].
  unfold nearest_even. rewrite E.
  assert (Hlt : (q - inject_Z z < 1 # 2)%Q) by lra.
  rewrite (proj1 (Qlt_alt _ _) Hlt). lia.
Qed.

Lemma binade_unique (q : Q) (k : Z) :
  (pow2 k <= q)%Q -> (q < pow2 (k + 1))%Q -> binade q = k.
Proof.
  intros Hlo Hhi.
  assert (Hq : (0 < q)%Q) by (pose proof (pow2_pos k); lra).
  destruct (binade_spec q Hq) as [Hb1 Hb2].
  assert (H1 : (pow2 k < pow2 (binade q + 1))%Q) by lra.
  assert (H2 : (pow2 (binade q) < pow2 (k + 1))%Q) by lra.
  apply pow2_lt_inv in H1. apply pow2_lt_inv in H2. lia.
Qed.

(** Below the midpoint between the largest double and [2^1024] a
    positive number rounds to a double. *)
Lemma round_double_below_overflow (q : Q) :
  (0 <= q)%Q -> (q < pow2 1024 - pow2 970)%Q ->
  (round_double q <= max_double)%Q.
Proof.
  intros H0 Htop.
  destruct (Qlt_le_dec q (pow2 1023)) as [Hsmall | Hbig].
  - apply Qle_trans with (round_double (pow2 1023)).
    + apply round_double_mono. lra.
    + apply Qle_bool_imp_le. vm_compute. reflexivity.
  - assert (Hq : (0 < q)%Q) by (pose proof (pow2_pos 1023); lra).
    assert (Hb : binade q = 1023%Z).
    { apply binade_unique; [exact Hbig |].
      pose proof (pow2_pos 970). change (1023 + 1)%Z with 1024%Z. lra. }
    rewrite round_double_pos by exact Hq. rewrite round_magnitude_unfold.
    unfold exponent. rewrite Hb. change (Z.max (1023 - 52) (-1074)) with 971%Z.
    unfold max_double.
    apply Qmult_le_compat_r; [| apply Qlt_le_weak, pow2_pos].
    rewrite <- Zle_Qle. apply nearest_even_below_half.
    assert (He : ((pow2 1024 - pow2 970) / pow2 971
                  == inject_Z (2 ^ 53 - 1) + (1 # 2))%Q)
      by (apply Qeq_bool_eq; vm_compute; reflexivity).
    rewrite <- He. unfold Qdiv.
    apply Qmult_lt_compat_r; [apply Qinv_lt_0_compat, pow2_pos | exact Htop].
Qed.

(** A double that is not negative is at most the largest double. *)
Lemma binary64_at_most_max (q v : Q) :
  (0 <= q)%Q -> binary64 q = Some v -> (v <= max_double)%Q.
Proof.
  intros H0 Hv. apply binary64_some in Hv as [-> Hfin].
  apply round_double_below_overflow; [exact H0 |].
  apply Qnot_le_lt. intros Hmid.
  pose proof (round_double_mono _ _ Hmid) as Hm.
  assert (Hedge : (pow2 1024 <= round_double (pow2 1024 - pow2 970))%Q)
    by (apply Qle_bool_imp_le; vm_compute; reflexivity).
  rewrite Qabs_pos in Hfin by (apply round_double_nonneg, H0). lra.
Qed.

Lemma binary64_up_to_max (q : Q) :
  (0 <= q)%Q -> (q <= max_double)%Q ->
  binary64 q = Some (round_double q).
Proof.
  intros H0 Hmax. apply binary64_some. split; [reflexivity |].
  rewrite Qabs_pos by (apply round_double_nonneg, H0).
  apply Qle_lt_trans with max_double.
  - apply round_double_below_overflow; [exact H0 |].
    apply Qle_lt_trans with max_double; [exact Hmax |].
    apply Qlt_alt. vm_compute. reflexivity.
  - apply Qlt_alt. vm_compute. reflexivity.
Qed.

(** On sample counts and thresholds of several magnitudes, subnormal
    and overflowing products included, the rounded product is the one of
    the Standard Library's IEEE 754 multiplication. *)
Remark binary64_products_agree_with_SFmul :
  forallb Demo.products_agree
    [(10, 7 # 10); (10, 3 # 10); (50, 29 # 50); (7, 1 # 7); (3, 3 # 10);
     (3, -1 # 10); (0, 1 # 2); (1000003, 123457 # 1000000);
     (9007199254740993, 1 # 3); (1, 1 # 2 ^ 1070); (3, 5 # 2 ^ 1075);
     (123456789, 2 ^ 1000 # 1)]%Z
  = true.
Proof. vm_compute. reflexivity. Qed.

(** ** Row selection by a list of kept positions *)

Lemma take_rows_enumerate (P : list cell -> bool) (l pre : list (list cell)) :
  DM.take_rows (pre ++ l)
    (map fst (List.filter (fun ik => P (snd ik))
                (DM.enumerate_from (length pre) l)))
  = Some (List.filter P l).
Proof.
  revert pre. induction l as [| r l IH]; intros pre; [reflexivity |].
  assert (Hshift : DM.take_rows (pre ++ r :: l)
            (map fst (List.filter (fun ik => P (snd ik))
                        (DM.enumerate_from (S (length pre)) l)))
          = Some (List.filter P l)).
  { specialize (IH (pre ++ [r])).
    rewrite <- app_assoc in IH. simpl in IH.
    rewrite length_app in IH. simpl in IH.
    now rewrite Nat.add_1_r in IH. }
  simpl. destruct (P r); simpl; [| exact Hshift].
  rewrite Hshift.
  rewrite nth_error_app2 by lia. now rewrite Nat.sub_diag.
Qed.

Lemma keep_idx_selects (P : list cell -> bool) (x : DM.t) :
  DM.getitem x
    (map fst (List.filter (fun ik => P (snd ik)) (DM.enumerate x)))
  = Ok (DM.with_samples x (List.filter P (DM.samples x))).
Proof.
  unfold DM.getitem, DM.enumerate.
  pose proof (take_rows_enumerate P (DM.samples x) []) as H.
  simpl in H. now rewrite H.
Qed.

(** A null count is below the truncated tolerance exactly when it is below
    the floored one: the two differ only for negative products, where no
    count is below either. *)
Lemma below_tolerance_floor (c : nat) (q : Q) :
  (Z.of_nat c <? py_int q)%Z = (Z.of_nat c <? Qfloor q)%Z.
Proof.
  destruct (Qlt_le_dec q 0) as [Hneg | Hpos].
  - destruct (py_int_neg q Hneg) as [H1 H2].
    transitivity false; [| symmetry]; apply Z.ltb_ge; lia.
  - now rewrite (py_int_nonneg q Hpos).
Qed.

Lemma filter_length_mono {A : Type} (f g : A -> bool) (l : list A) :
  (forall a, f a = true -> g a = true) ->
  length (List.filter f l) <= length (List.filter g l).
Proof.
  intros Himp. induction l as [| a l IH]; simpl; [lia |].
  destruct (f a) eqn:Hf.
  - rewrite (Himp a Hf). simpl. lia.
  - destruct (g a); simpl; lia.
Qed.

Lemma filter_none {A : Type} (f : A -> bool) (l : list A) :
  (forall a, In a l -> f a = false) -> List.filter f l = [].
Proof.
  induction l as [| a l IH]; intros Hf; [reflexivity |]. simpl.
  rewrite (Hf a (or_introl eq_refl)). apply IH.
  intros b Hb. apply Hf. now right.
Qed.

Lemma filter_every {A : Type} (f : A -> bool) (l : list A) :
  (forall a, In a l -> f a = true) -> List.filter f l = l.
Proof.
  induction l as [| a l IH]; intros Hf; [reflexivity |]. simpl.
  rewrite (Hf a (or_introl eq_refl)). f_equal. apply IH.
  intros b Hb. apply Hf. now right.
Qed.

(** ** The tolerance *)

Lemma null_tolerance_product (self : NullityDrop) (n : nat) :
  null_tolerance self n
  = (p <- float_product n (threshold self) ;; int_of_float p)%res.
Proof.
  unfold null_tolerance, float_product.
  now destruct (float_of_int (Z.of_nat n)).
Qed.

Lemma null_tolerance_finite (self : NullityDrop) (n : nat) (p : Q) :
  float_product n (threshold self) = Ok (Finite p) ->
  null_tolerance self n = Ok (py_int p).
Proof. intros Hp. now rewrite null_tolerance_product, Hp. Qed.

Lemma py_float_finite (q p : Q) :
  py_float q = Finite p -> binary64 q = Some p.
Proof.
  unfold py_float. destruct (binary64 q); [| discriminate].
  now intros [= ->].
Qed.

Lemma float_product_finite (n : nat) (t p : Q) :
  float_product n (Finite t) = Ok (Finite p) ->
  exists m : Q,
    binary64 (inject_Z (Z.of_nat n)) = Some m /\ binary64 (m * t) = Some p.
Proof.
  unfold float_product, float_of_int.
  destruct (binary64 (inject_Z (Z.of_nat n))) as [m |]; [| discriminate].
  simpl. intros [= Hp]. exists m. split; [reflexivity |].
  now apply py_float_finite.
Qed.

Lemma float_of_count_nonneg (n : nat) (m : Q) :
  binary64 (inject_Z (Z.of_nat n)) = Some m -> (0 <= m)%Q.
Proof.
  intros Hm. apply binary64_some in Hm as [-> _].
  apply round_double_nonneg.
  change 0%Q with (inject_Z 0). rewrite <- Zle_Qle. lia.
Qed.

(** The float product grows with the threshold. *)
Lemma float_product_mono (n : nat) (t1 t2 p1 p2 : Q) :
  (t1 <= t2)%Q ->
  float_product n (Finite t1) = Ok (Finite p1) ->
  float_product n (Finite t2) = Ok (Finite p2) ->
  (p1 <= p2)%Q.
Proof.
  intros Hle H1 H2.
  apply float_product_finite in H1 as [m [Hm H1]].
  apply float_product_finite in H2 as [m' [Hm' H2]].
  assert (m' = m) by congruence. subst m'.
  pose proof (float_of_count_nonneg n m Hm) as H0.
  eapply binary64_mono; [| exact H1 | exact H2].
  rewrite !(Qmult_comm m). apply Qmult_le_compat_r; assumption.
Qed.

(** A sample count below 2^53 is a double. *)
Lemma float_of_count (n : nat) :
  (Z.of_nat n < 2 ^ 53)%Z ->
  exists m : Q,
    binary64 (inject_Z (Z.of_nat n)) = Some m /\
    (m == inject_Z (Z.of_nat n))%Q.
Proof.
  intros Hn.
  assert (He : (round_double (inject_Z (Z.of_nat n))
                == inject_Z (Z.of_nat n))%Q)
    by (apply round_double_inject; lia).
  exists (round_double (inject_Z (Z.of_nat n))). split; [| exact He].
  apply binary64_some. split; [reflexivity |].
  rewrite He, Qabs_pos
    by (change 0%Q with (inject_Z 0); rewrite <- Zle_Qle; lia).
  apply Qlt_le_trans with (inject_Z (2 ^ 53)).
  - rewrite <- Zlt_Qlt. exact Hn.
  - rewrite pow2_inject by lia. apply pow2_le. lia.
Qed.

(** A sample count that fits a machine word, as every [len] does, is
    within the doubles. *)
Lemma float_of_count_finite (n : nat) :
  (Z.of_nat n < 2 ^ 63)%Z ->
  exists m : Q,
    binary64 (inject_Z (Z.of_nat n)) = Some m /\
    (0 <= m)%Q /\ (m <= max_double)%Q.
Proof.
  intros Hn.
  assert (H0 : (0 <= inject_Z (Z.of_nat n))%Q)
    by (change 0%Q with (inject_Z 0); rewrite <- Zle_Qle; lia).
  assert (Hmax : (inject_Z (Z.of_nat n) <= max_double)%Q).
  { apply Qle_trans with (inject_Z (2 ^ 63)).
    - rewrite <- Zle_Qle. lia.
    - apply Qle_bool_imp_le. vm_compute. reflexivity. }
  exists (round_double (inject_Z (Z.of_nat n))).
  split; [now apply binary64_up_to_max |].
  split; [apply round_double_nonneg, H0 |].
  apply round_double_below_overflow; [exact H0 |].
  apply Qle_lt_trans with max_double; [exact Hmax |].
  apply Qlt_alt. vm_compute. reflexivity.
Qed.

(** For a threshold in [0, 1] the product with a sample count is a
    finite float, and it is not negative. *)
Lemma float_product_unit_interval (n : nat) (t : Q) :
  (Z.of_nat n < 2 ^ 63)%Z -> (0 <= t)%Q -> (t <= 1)%Q ->
  exists p : Q,
    float_product n (Finite t) = Ok (Finite p) /\ (0 <= p)%Q.
Proof.
  intros Hn H0 H1.
  destruct (float_of_count_finite n Hn) as [m [Hm [Hm0 Hmax]]].
  assert (Hlo : (0 <= m * t)%Q) by (apply Qmult_le_0_compat; assumption).
  assert (Hhi : (m * t <= max_double)%Q).
  { apply Qle_trans with m; [| exact Hmax].
    rewrite <- (Qmult_1_r m) at 2.
    rewrite !(Qmult_comm m). apply Qmult_le_compat_r; assumption. }
  exists (round_double (m * t)).
  split; [| apply round_double_nonneg, Hlo].
  unfold float_product, float_of_int. rewrite Hm. simpl.
  unfold py_float. now rewrite (binary64_up_to_max (m * t) Hlo Hhi).
Qed.

(** With a threshold of at least 1 the product is no less than the
    sample count. *)
Lemma float_product_at_least_count (n : nat) (t p : Q) :
  (Z.of_nat n < 2 ^ 53)%Z -> (1 <= t)%Q ->
  float_product n (Finite t) = Ok (Finite p) ->
  (inject_Z (Z.of_nat n) <= p)%Q.
Proof.
  intros Hn H1 Hp.
  apply float_product_finite in Hp as [m [Hm Hp]].
  destruct (float_of_count n Hn) as [m' [Hm' He]].
  assert (m' = m) by congruence. subst m'.
  apply binary64_some in Hp as [-> _].
  assert (Hn0 : (0 <= inject_Z (Z.of_nat n))%Q)
    by (change 0%Q with (inject_Z 0); rewrite <- Zle_Qle; lia).
  rewrite <- (round_double_inject (Z.of_nat n)) at 1 by lia.
  apply round_double_mono. rewrite <- He.
  rewrite <- (Qmult_1_r m) at 1. rewrite !(Qmult_comm m).
  apply Qmult_le_compat_r; [exact H1 | rewrite He; exact Hn0].
Qed.

Lemma py_int_inject (z : Z) : py_int (inject_Z z) = z.
Proof. unfold py_int. simpl. apply Z.quot_1_r. Qed.

(** ** Sample selection *)

Lemma SampleNullityDrop_run_with (self : NullityDrop) (x : DM.t) (tol : Z) :
  null_tolerance self (DM.len x) = Ok tol ->
  SampleNullityDrop.run self x
  = Ok (DM.with_samples x
          (List.filter (fun row => (Z.of_nat (null_count row) <? tol)%Z)
             (DM.samples x))).
Proof.
  intros Htol. unfold SampleNullityDrop.run, SampleNullityDrop.keep_idx.
  rewrite Htol. simpl.
  apply (keep_idx_selects
           (fun row => (Z.of_nat (null_count row) <? tol)%Z)).
Qed.

(** C4: [SampleNullityDrop.run] returns the container restricted to
    exactly the samples whose null count is strictly below
    [floor(n_samples × threshold)], in their original order.  The product
    is the one of float arithmetic, rounded to the nearest double (10 × 0.7
    is 7): the statement holds whenever that product is a finite number
    [p], and it is one for every threshold in [0, 1]. *)
Theorem SampleNullityDrop_run_keeps_below_tolerance
        (self : NullityDrop) (x : DM.t) :
  (forall p : Q,
      float_product (DM.len x) (threshold self) = Ok (Finite p) ->
      SampleNullityDrop.run self x
      = Ok (DM.with_samples x
              (List.filter
                 (fun row => (Z.of_nat (null_count row) <? Qfloor p)%Z)
                 (DM.samples x)))) /\
  (forall t : Q,
      threshold self = Finite t -> (0 <= t)%Q -> (t <= 1)%Q ->
      (Z.of_nat (DM.len x) < 2 ^ 63)%Z ->
      exists p : Q,
        float_product (DM.len x) (threshold self) = Ok (Finite p) /\
        SampleNullityDrop.run self x
        = Ok (DM.with_samples x
                (List.filter
                   (fun row => (Z.of_nat (null_count row) <? Qfloor p)%Z)
                   (DM.samples x)))).
Proof.
  assert (Hfinite : forall p : Q,
             float_product (DM.len x) (threshold self) = Ok (Finite p) ->
             SampleNullityDrop.run self x
             = Ok (DM.with_samples x
                     (List.filter
                        (fun row => (Z.of_nat (null_count row) <? Qfloor p)%Z)
                        (DM.samples x)))).
  { intros p Hp.
    rewrite (SampleNullityDrop_run_with self x _
               (null_tolerance_finite self _ p Hp)).
    do 2 f_equal. apply filter_ext. intros row.
    apply below_tolerance_floor. }
  split; [exact Hfinite |].
  intros t Ht H0 H1 Hlen.
  destruct (float_product_unit_interval (DM.len x) t Hlen H0 H1)
    as [p [Hp _]].
  rewrite <- Ht in Hp. exists p. split; [exact Hp | exact (Hfinite p Hp)].
Qed.

Lemma sample_drop_monotone (t1 t2 : Q) (x : DM.t) (p1 p2 : Q) :
  (t1 <= t2)%Q ->
  float_product (DM.len x) (Finite t1) = Ok (Finite p1) ->
  float_product (DM.len x) (Finite t2) = Ok (Finite p2) ->
  exists r1 r2 : DM.t,
    SampleNullityDrop.run {| threshold := Finite t1 |} x = Ok r1 /\
    SampleNullityDrop.run {| threshold := Finite t2 |} x = Ok r2 /\
    DM.len r1 <= DM.len r2.
Proof.
  intros Hle H1 H2.
  pose proof (float_product_mono _ _ _ _ _ Hle H1 H2) as Hp.
  pose (kept := fun p : Q => fun row : list cell =>
          (Z.of_nat (null_count row) <? py_int p)%Z).
  exists (DM.with_samples x (List.filter (kept p1) (DM.samples x))).
  exists (DM.with_samples x (List.filter (kept p2) (DM.samples x))).
  split.
  { apply SampleNullityDrop_run_with.
    now apply (null_tolerance_finite {| threshold := Finite t1 |}). }
  split.
  { apply SampleNullityDrop_run_with.
    now apply (null_tolerance_finite {| threshold := Finite t2 |}). }
  unfold DM.len at 1 2. simpl. apply filter_length_mono.
  unfold kept. intros row Hrow.
  apply Z.ltb_lt in Hrow. apply Z.ltb_lt.
  eapply Z.lt_le_trans; [exact Hrow |].
  apply py_int_mono. exact Hp.
Qed.

(** C6: for a fixed container and thresholds [t1 <= t2], both runs return
    and the larger threshold keeps no fewer samples.  This holds for every
    pair of thresholds in [0, 1], and beyond that interval for every pair
    whose float products with the sample count are finite (a product that
    overflows makes [int] raise).  The product is the one of float
    arithmetic, rounded to the nearest double. *)
Theorem SampleNullityDrop_threshold_monotone (t1 t2 : Q) (x : DM.t) :
  (t1 <= t2)%Q ->
  ((0 <= t1)%Q -> (t2 <= 1)%Q -> (Z.of_nat (DM.len x) < 2 ^ 63)%Z ->
   exists r1 r2 : DM.t,
     SampleNullityDrop.run {| threshold := Finite t1 |} x = Ok r1 /\
     SampleNullityDrop.run {| threshold := Finite t2 |} x = Ok r2 /\
     DM.len r1 <= DM.len r2) /\
  (forall p1 p2 : Q,
      float_product (DM.len x) (Finite t1) = Ok (Finite p1) ->
      float_product (DM.len x) (Finite t2) = Ok (Finite p2) ->
      exists r1 r2 : DM.t,
        SampleNullityDrop.run {| threshold := Finite t1 |} x = Ok r1 /\
        SampleNullityDrop.run {| threshold := Finite t2 |} x = Ok r2 /\
        DM.len r1 <= DM.len r2).
Proof.
  intros Hle. split.
  - intros H0 H1 Hlen.
    destruct (float_product_unit_interval (DM.len x) t1 Hlen H0)
      as [p1 [Hp1 _]]; [lra |].
    destruct (float_product_unit_interval (DM.len x) t2 Hlen)
      as [p2 [Hp2 _]]; [lra | exact H1 |].
    exact (sample_drop_monotone t1 t2 x p1 p2 Hle Hp1 Hp2).
  - intros p1 p2. apply sample_drop_monotone. exact Hle.
Qed.

(** ** Feature selection *)

Lemma all_present_iff (wanted : list string) (x : DM.t) :
  DM.all_present wanted x = true <->
  (forall n, In n wanted -> In n (DM.features x)).
Proof.
  unfold DM.all_present, DM.features. rewrite forallb_forall.
  split; intros H n Hn; apply mem_str_In; auto.
Qed.

Lemma get_features_ok (x : DM.t) (wanted : list string) :
  (forall n, In n wanted -> In n (DM.features x)) ->
  exists y, DM.get_features x wanted = Ok y /\
            DM.features y
            = List.filter (fun n => mem_str n wanted) (DM.features x) /\
            DM.len y = DM.len x.
Proof.
  intros Hall. unfold DM.get_features.
  rewrite (proj2 (all_present_iff wanted x) Hall).
  eexists. split; [reflexivity |]. split; [reflexivity |].
  unfold DM.len. simpl. apply length_map.
Qed.

Lemma drop_features_ok (x : DM.t) (unwanted : list string) :
  (forall n, In n unwanted -> In n (DM.features x)) ->
  exists y, DM.drop_features x unwanted = Ok y /\
            DM.features y
            = List.filter (fun n => negb (mem_str n unwanted)) (DM.features x) /\
            DM.len y = DM.len x.
Proof.
  intros Hall. unfold DM.drop_features.
  rewrite (proj2 (all_present_iff unwanted x) Hall).
  eexists. split; [reflexivity |]. split; [reflexivity |].
  unfold DM.len. simpl. apply length_map.
Qed.

Lemma filterM_total {A : Type} (f : A -> result bool) (g : A -> bool)
      (l : list A) :
  (forall a, In a l -> f a = Ok (g a)) ->
  filterM f l = Ok (List.filter g l).
Proof.
  induction l as [| a l IH]; intros Hf; [reflexivity |].
  simpl. rewrite (Hf a (or_introl eq_refl)). simpl.
  rewrite IH by (intros b Hb; apply Hf; now right). reflexivity.
Qed.

Lemma filter_split_perm {A : Type} (f : A -> bool) (l : list A) :
  Permutation (List.filter f l ++ List.filter (fun a => negb (f a)) l) l.
Proof.
  induction l as [| a l IH]; simpl; [constructor |].
  destruct (f a); simpl.
  - now constructor.
  - symmetry. apply Permutation_cons_app. now symmetry.
Qed.

Lemma null_content_ok (x : DM.t) (k : string) :
  In k (DM.features x) ->
  FeatureNullityDrop.null_content x k
  = Ok (Z.to_nat (counted_nulls x k)).
Proof.
  intros Hin. unfold counted_nulls, FeatureNullityDrop.null_content.
  destruct (get_features_ok x [k]) as [y [Hy _]].
  { intros n [<- | []]. exact Hin. }
  rewrite Hy. simpl. now rewrite Nat2Z.id.
Qed.

Lemma counted_nulls_nonneg (x : DM.t) (k : string) :
  (0 <= counted_nulls x k)%Z.
Proof.
  unfold counted_nulls.
  destruct (FeatureNullityDrop.null_content x k); lia.
Qed.

Lemma drop_idx_ok (self : NullityDrop) (x : DM.t) (tol : Z) :
  null_tolerance self (DM.len x) = Ok tol ->
  FeatureNullityDrop.drop_idx self x
  = Ok (List.filter (fun k => (tol <? counted_nulls x k)%Z)
          (DM.features x)).
Proof.
  intros Htol. unfold FeatureNullityDrop.drop_idx. rewrite Htol. simpl.
  apply filterM_total.
  intros k Hk. rewrite (null_content_ok x k Hk). simpl.
  rewrite Z2Nat.id by apply counted_nulls_nonneg. reflexivity.
Qed.

(** *** The count the code takes is the feature's null count *)

Lemma null_at_nil (j : nat) : null_at [] j = false.
Proof. unfold null_at. now destruct j. Qed.

Lemma filter_null_at_shift (c : cell) (row : list cell) (l : list nat) :
  length (List.filter (null_at (c :: row)) (map S l))
  = length (List.filter (null_at row) l).
Proof.
  induction l as [| j l IH]; [reflexivity |]. simpl.
  change (null_at (c :: row) (S j)) with (null_at row j).
  destruct (null_at row j); simpl; now rewrite IH.
Qed.

Lemma positions_absent (k : string) (ns : list string) :
  ~ In k ns -> positions k ns = [].
Proof.
  induction ns as [| n ns IH]; intros Hout; [reflexivity |]. simpl.
  destruct (String.eqb_spec n k) as [-> | _].
  - exfalso. apply Hout. now left.
  - rewrite IH by (intros Hin; apply Hout; now right). reflexivity.
Qed.

Lemma null_count_cons (c : cell) (row : list cell) :
  null_count (c :: row)
  = if isnull c then S (null_count row) else null_count row.
Proof. unfold null_count. simpl. now destruct (isnull c). Qed.

(** The null entries of a sample among the selected columns named [k] are
    its null entries at the positions of [k]. *)
Lemma select_cols_positions (k : string) (ns : list string) :
  forall row : list cell,
    null_count (DM.select_cols (map (fun n => mem_str n [k]) ns) row)
    = length (List.filter (null_at row) (positions k ns)).
Proof.
  induction ns as [| n ns IH]; intros [| c row]; try reflexivity.
  - simpl. symmetry. rewrite filter_none; [reflexivity |].
    intros j _. apply null_at_nil.
  - cbn [map positions DM.select_cols]. unfold mem_str at 1.
    cbn [existsb]. rewrite orb_false_r.
    destruct (String.eqb n k).
    + cbn [app List.filter]. change (null_at (c :: row) 0) with (isnull c).
      rewrite null_count_cons.
      destruct (isnull c); cbn [length];
        now rewrite filter_null_at_shift, IH.
    + cbn [app]. now rewrite filter_null_at_shift, IH.
Qed.

Lemma counted_nulls_spec (x : DM.t) (k : string) :
  counted_nulls x k = feature_null_count x k.
Proof.
  unfold counted_nulls, feature_null_count, FeatureNullityDrop.null_content,
    DM.get_features, DM.all_present.
  simpl. rewrite andb_true_r.
  destruct (mem_str k (DM.names x)) eqn:Hin; simpl.
  - f_equal. unfold DM.as_array. cbn [DM.samples DM.with_columns].
    induction (DM.samples x) as [| row rows IH]; [reflexivity |].
    cbn [map null_total fold_right].
    f_equal; [apply (select_cols_positions k (DM.names x) row) | exact IH].
  - apply mem_str_false in Hin. rewrite (positions_absent k _ Hin).
    f_equal. induction (DM.samples x) as [| row rows IH]; [reflexivity |].
    simpl. exact IH.
Qed.

Lemma feature_drop_above_floor (self : NullityDrop) (x : DM.t) (p : Q) :
  DM.multi_feature x = true ->
  float_product (DM.len x) (threshold self) = Ok (Finite p) ->
  (0 <= p)%Q ->
  exists x' : DM.t,
    FeatureNullityDrop.run self x = Ok x' /\
    DM.drop_features x
      (List.filter (fun k => (Qfloor p <? feature_null_count x k)%Z)
         (DM.features x)) = Ok x' /\
    DM.len x' = DM.len x /\
    (forall k, In k (DM.features x) ->
       (~ In k (DM.features x') <-> (Qfloor p < feature_null_count x k)%Z)) /\
    (forall k, In k (DM.features x) ->
       feature_null_count x k = Qfloor p -> In k (DM.features x')) /\
    (forall k, In k (DM.features x) ->
       feature_null_count x k = (Qfloor p + 1)%Z ->
       ~ In k (DM.features x')).
Proof.
  intros Hmulti Hp Hpos. set (tol := Qfloor p).
  assert (Htol : null_tolerance self (DM.len x) = Ok tol).
  { rewrite (null_tolerance_finite self _ p Hp). f_equal.
    now apply py_int_nonneg. }
  set (dropped := List.filter
                    (fun k => (tol <? feature_null_count x k)%Z)
                    (DM.features x)).
  assert (Hsame : List.filter (fun k => (tol <? counted_nulls x k)%Z)
                    (DM.features x) = dropped).
  { apply filter_ext. intros k. now rewrite counted_nulls_spec. }
  destruct (drop_features_ok x dropped) as [x' [Hx' [Hfeat Hlen]]].
  { intros n Hn. apply filter_In in Hn. tauto. }
  assert (Hiff : forall k, In k (DM.features x) ->
            (~ In k (DM.features x') <-> (tol < feature_null_count x k)%Z)).
  { intros k Hk. rewrite Hfeat, filter_In, negb_true_iff, mem_str_false.
    unfold dropped. rewrite filter_In, Z.ltb_lt. split.
    - intros Hno. destruct (Z_lt_ge_dec tol (feature_null_count x k));
        [assumption | exfalso]. apply Hno. split; [exact Hk |]. lia.
    - intros Hlt [_ Hno]. apply Hno. tauto. }
  exists x'. split.
  { unfold FeatureNullityDrop.run. rewrite Hmulti. simpl.
    rewrite (drop_idx_ok self x tol Htol), Hsame. simpl. exact Hx'. }
  split; [exact Hx' |]. split; [exact Hlen |]. split; [exact Hiff |].
  split.
  - intros k Hk Heq.
    destruct (in_dec string_dec k (DM.features x')) as [Hin | Hout];
      [exact Hin | exfalso].
    apply (Hiff k Hk) in Hout. lia.
  - intros k Hk Heq. apply (Hiff k Hk). lia.
Qed.

(** C5: on a multi-feature container [FeatureNullityDrop.run] removes
    exactly the features whose null count over all samples is strictly
    above [floor(n_samples × threshold)]: a count equal to the tolerance
    keeps the feature, a count of tolerance + 1 drops it.  The product is
    the one of float arithmetic, rounded to the nearest double: the
    statement holds whenever that product is a finite number [p >= 0],
    and it is one for every threshold in [0, 1]. *)
Theorem FeatureNullityDrop_run_drops_above_tolerance
        (self : NullityDrop) (x : DM.t) :
  DM.multi_feature x = true ->
  (forall t : Q,
      threshold self = Finite t -> (0 <= t)%Q -> (t <= 1)%Q ->
      (Z.of_nat (DM.len x) < 2 ^ 63)%Z ->
      exists p : Q,
        float_product (DM.len x) (threshold self) = Ok (Finite p) /\
        (0 <= p)%Q) /\
  (forall p : Q,
      float_product (DM.len x) (threshold self) = Ok (Finite p) ->
      (0 <= p)%Q ->
      let tol := Qfloor p in
      exists x' : DM.t,
        FeatureNullityDrop.run self x = Ok x' /\
        DM.drop_features x
          (List.filter (fun k => (tol <? feature_null_count x k)%Z)
             (DM.features x)) = Ok x' /\
        DM.len x' = DM.len x /\
        (forall k, In k (DM.features x) ->
           (~ In k (DM.features x') <-> (tol < feature_null_count x k)%Z)) /\
        (forall k, In k (DM.features x) ->
           feature_null_count x k = tol -> In k (DM.features x')) /\
        (forall k, In k (DM.features x) ->
           feature_null_count x k = (tol + 1)%Z ->
           ~ In k (DM.features x'))).
Proof.
  intros Hmulti. split.
  - intros t Ht H0 H1 Hlen. rewrite Ht.
    exact (float_product_unit_interval (DM.len x) t Hlen H0 H1).
  - intros p Hp Hpos tol.
    exact (feature_drop_above_floor self x p Hmulti Hp Hpos).
Qed.

(** Below zero the truncation of [int] and the floor part ways: with
    threshold -0.1 on three samples the product is about -0.3, the
    tolerance is 0, not -1, and the features without a null entry are all
    kept. *)
Remark negative_threshold_truncates_toward_zero :
  null_tolerance {| threshold := py_float (-1 # 10) |} (DM.len Demo.train)
  = Ok 0%Z /\
  (exists p : Q,
     float_product (DM.len Demo.train) (py_float (-1 # 10)) = Ok (Finite p) /\
     Qfloor p = (-1)%Z) /\
  FeatureNullityDrop.run {| threshold := py_float (-1 # 10) |} Demo.train
  = Ok Demo.train.
Proof.
  split; [vm_compute; reflexivity |].
  split; [| vm_compute; reflexivity].
  eexists. split; vm_compute; reflexivity.
Qed.

(** C7: for a multi-feature container and a subset [S] of its features,
    keeping [S] yields exactly the features of [S] in the container's
    order, dropping [S] yields the remaining ones, and the two results
    partition the original feature set. *)
Theorem explicit_keep_drop_complementary (S : list string) (x : DM.t) :
  DM.multi_feature x = true ->
  (forall s, In s S -> In s (DM.features x)) ->
  exists xk xd : DM.t,
    ExplicitKeep.run {| features := S |} x = Ok xk /\
    ExplicitDrop.run {| features := S |} x = Ok xd /\
    DM.features xk = List.filter (fun n => mem_str n S) (DM.features x) /\
    DM.features xd
    = List.filter (fun n => negb (mem_str n S)) (DM.features x) /\
    (forall f, In f (DM.features xk) <-> In f S) /\
    (forall f, In f (DM.features xd) <-> In f (DM.features x) /\ ~ In f S) /\
    (forall f, ~ (In f (DM.features xk) /\ In f (DM.features xd))) /\
    Permutation (DM.features xk ++ DM.features xd) (DM.features x).
Proof.
  intros Hmulti Hsub.
  destruct (get_features_ok x S Hsub) as [xk [Hk [Hfk _]]].
  destruct (drop_features_ok x S Hsub) as [xd [Hd [Hfd _]]].
  exists xk, xd.
  assert (Hink : forall f, In f (DM.features xk) <-> In f S).
  { intros f. rewrite Hfk, filter_In, mem_str_In. split; [tauto |].
    intros Hf. split; [apply Hsub |]; assumption. }
  assert (Hind : forall f,
            In f (DM.features xd) <-> In f (DM.features x) /\ ~ In f S).
  { intros f. rewrite Hfd, filter_In, negb_true_iff, mem_str_false.
    reflexivity. }
  unfold ExplicitKeep.run, ExplicitDrop.run. rewrite Hmulti. simpl.
  split; [exact Hk |]. split; [exact Hd |].
  split; [exact Hfk |]. split; [exact Hfd |].
  split; [exact Hink |]. split; [exact Hind |]. split.
  - intros f [Ha Hb]. apply Hink in Ha. apply Hind in Hb. tauto.
  - rewrite Hfk, Hfd. apply filter_split_perm.
Qed.

(** C9: on a container without the multi-feature capability, the explicit
    drop, explicit keep and feature-nullity hooks all raise a type error
    and return no container.  The hooks are functions of the container
    value and the container has no in-place update, so [x] is the same
    value after the failed call. *)
Theorem single_feature_hooks_raise_TypeError
        (sel : ExplicitFeatures) (nd : NullityDrop) (x : DM.t) :
  DM.multi_feature x = false ->
  ExplicitDrop.run sel x = Err TypeError /\
  ExplicitKeep.run sel x = Err TypeError /\
  FeatureNullityDrop.run nd x = Err TypeError.
Proof.
  intros Hsingle.
  unfold ExplicitDrop.run, ExplicitKeep.run, FeatureNullityDrop.run.
  rewrite Hsingle. simpl. auto.
Qed.

(** ** Component labels and relabelling *)

Lemma str_nat_inj (a b : nat) : str_nat a = str_nat b -> a = b.
Proof.
  unfold str_nat. intros Heq. apply Unsigned.to_uint_inj.
  pose proof (NilEmpty.usu (Nat.to_uint a)) as Ha.
  pose proof (NilEmpty.usu (Nat.to_uint b)) as Hb.
  rewrite Heq in Ha. congruence.
Qed.

Lemma pc_labels_length (k : nat) :
  length (PrincipalComponentAnalysis.pc_labels k) = k.
Proof.
  unfold PrincipalComponentAnalysis.pc_labels.
  now rewrite length_map, length_seq.
Qed.

Lemma pc_labels_NoDup (k : nat) :
  List.NoDup (PrincipalComponentAnalysis.pc_labels k).
Proof.
  unfold PrincipalComponentAnalysis.pc_labels.
  apply Injective_map_NoDup; [| apply seq_NoDup].
  intros a b Heq. simpl in Heq. injection Heq as Heq.
  now apply str_nat_inj.
Qed.

Lemma index_of_fresh (name : string) (ns : list string) :
  ~ In name ns -> DM.index_of name ns = None.
Proof.
  induction ns as [| n ns IH]; intros Hout; [reflexivity |].
  simpl. destruct (String.eqb_spec name n) as [-> | Hne].
  - exfalso. apply Hout. now left.
  - rewrite IH; [reflexivity |]. intros Hin. apply Hout. now right.
Qed.

Lemma zip_rows_length {A : Type} (f : list cell -> A -> list cell)
      (rows : list (list cell)) (xs : list A) :
  length xs = length rows -> length (DM.zip_rows f rows xs) = length rows.
Proof.
  revert xs. induction rows as [| r rows IH]; intros [| a xs] Hlen;
    simpl in *; try lia.
  now rewrite IH by lia.
Qed.

Lemma assign_feature_len (x : DM.t) (name : string) (col : list cell) :
  length col = DM.len x -> DM.len (DM.assign_feature x name col) = DM.len x.
Proof.
  intros Hlen. unfold DM.assign_feature, DM.len in *.
  destruct (DM.index_of name (DM.names x)); simpl;
    now apply zip_rows_length.
Qed.

Lemma assign_feature_fresh (x : DM.t) (name : string) (col : list cell) :
  ~ In name (DM.names x) ->
  DM.names (DM.assign_feature x name col) = DM.names x ++ [name].
Proof.
  intros Hout. unfold DM.assign_feature.
  now rewrite (index_of_fresh name (DM.names x) Hout).
Qed.

Lemma assign_from_fresh (labels : list string) :
  forall (j : nat) (x : DM.t) (arr : ndarray),
    length arr = DM.len x ->
    List.NoDup (DM.names x ++ labels) ->
    DM.names (DM.assign_from j labels arr x) = DM.names x ++ labels /\
    DM.len (DM.assign_from j labels arr x) = DM.len x.
Proof.
  induction labels as [| l labels IH]; intros j x arr Hlen Hnd; simpl.
  - now rewrite app_nil_r.
  - assert (Hout : ~ In l (DM.names x)).
    { apply NoDup_remove_2 in Hnd. intros Hin. apply Hnd.
      apply in_or_app. now left. }
    assert (Hcol : length (DM.column j arr) = DM.len x)
      by (unfold DM.column; now rewrite length_map).
    pose proof (assign_feature_len x l _ Hcol) as Hlen'.
    pose proof (assign_feature_fresh x l (DM.column j arr) Hout) as Hn.
    destruct (IH (S j) (DM.assign_feature x l (DM.column j arr)) arr)
      as [Hnames Hl].
    + congruence.
    + rewrite Hn, <- app_assoc. exact Hnd.
    + rewrite Hnames, Hl, Hn, Hlen', <- app_assoc. now split.
Qed.

Lemma filter_all_out (ns : list string) :
  List.filter (fun n => negb (mem_str n ns)) ns = [].
Proof.
  assert (Hgen : forall l, (forall n, In n l -> In n ns) ->
            List.filter (fun n => negb (mem_str n ns)) l = []).
  { induction l as [| n l IH]; intros Hsub; [reflexivity |]. simpl.
    rewrite (proj2 (mem_str_In n ns)) by (apply Hsub; now left). simpl.
    apply IH. intros m Hm. apply Hsub. now right. }
  now apply Hgen.
Qed.

Lemma relabel_ok (x : DM.t) (k : nat) (arr : ndarray) :
  length arr = DM.len x ->
  Forall (fun row => length row = k) arr ->
  exists x' : DM.t,
    PrincipalComponentAnalysis.relabel x
      (PrincipalComponentAnalysis.pc_labels k) arr = Ok x' /\
    DM.features x' = PrincipalComponentAnalysis.pc_labels k /\
    DM.len x' = DM.len x.
Proof.
  intros Hlen Hrect. unfold PrincipalComponentAnalysis.relabel.
  destruct (drop_features_ok x (DM.features x)) as [x0 [Hx0 [Hf0 Hl0]]];
    [auto |].
  rewrite Hx0. simpl. unfold DM.features in Hf0.
  rewrite filter_all_out in Hf0.
  assert (Hfits : DM.fits x0 (PrincipalComponentAnalysis.pc_labels k) arr
                  = true).
  { unfold DM.fits. rewrite Hl0, Hlen, Nat.eqb_refl. simpl.
    apply forallb_forall. intros row Hrow. rewrite pc_labels_length.
    apply Nat.eqb_eq. rewrite List.Forall_forall in Hrect. now apply Hrect. }
  unfold DM.set_features. rewrite Hfits.
  destruct (assign_from_fresh (PrincipalComponentAnalysis.pc_labels k)
              0 x0 arr) as [Hn Hl].
  - congruence.
  - rewrite Hf0. simpl. apply pc_labels_NoDup.
  - eexists. split; [reflexivity |]. unfold DM.features.
    rewrite Hn, Hf0, Hl, Hl0. now split.
Qed.

(** ** The PCA hook *)

Section PCAHook.
Context `{Decomposition} `{Tuning}.

Local Abbreviation hook := PrincipalComponentAnalysis.t.
Local Abbreviation mk_hook := PrincipalComponentAnalysis.mk.

Lemma on_backing_fit (self : hook) (p : PCA.t) (f : fitted) (X : ndarray) :
  PrincipalComponentAnalysis.backing_pca self = Some p ->
  pca_fit (PCA.n_components p) X = Ok f ->
  PrincipalComponentAnalysis.on_backing PCA.fit_transform X self
  = (pca_apply f X,
     mk_hook (PrincipalComponentAnalysis.prop_tuner self)
       (Some (PCA.mk (PCA.n_components p) (Some f)))).
Proof.
  intros Hb Hf. unfold PrincipalComponentAnalysis.on_backing.
  rewrite Hb. unfold PCA.fit_transform. now rewrite Hf.
Qed.

Lemma on_backing_transform (self : hook) (p : PCA.t) (f : fitted)
      (X : ndarray) :
  PrincipalComponentAnalysis.backing_pca self = Some p ->
  PCA.fit_state p = Some f ->
  PrincipalComponentAnalysis.on_backing PCA.transform X self
  = (pca_apply f X,
     mk_hook (PrincipalComponentAnalysis.prop_tuner self) (Some p)).
Proof.
  intros Hb Hf. unfold PrincipalComponentAnalysis.on_backing.
  rewrite Hb. unfold PCA.transform. now rewrite Hf.
Qed.

Lemma on_backing_none (method : PCA.t -> ndarray -> result ndarray * PCA.t)
      (self : hook) (X : ndarray) :
  PrincipalComponentAnalysis.backing_pca self = None ->
  PrincipalComponentAnalysis.on_backing method X self
  = (Err AttributeError, self).
Proof.
  intros Hb. unfold PrincipalComponentAnalysis.on_backing. now rewrite Hb.
Qed.

(** C8: on a multi-feature container of [n] samples whose decomposition
    returns an [n] by [k] array, [run] returns a container of [n] samples
    with exactly the features [PC0 .. PC{k-1}]; [run_fitted] returns two
    containers with that same feature list, in the same order. *)
Theorem pca_outputs_carry_component_labels
        (self : hook) (p : PCA.t) (f : fitted)
        (x x_test : DM.t) (arr arr_test : ndarray) :
  DM.multi_feature x = true ->
  DM.multi_feature x_test = true ->
  PrincipalComponentAnalysis.backing_pca self = Some p ->
  pca_fit (PCA.n_components p) (DM.as_array x) = Ok f ->
  pca_apply f (DM.as_array x) = Ok arr ->
  length arr = DM.len x ->
  Forall (fun row => length row = shape1 arr) arr ->
  pca_apply f (DM.as_array x_test) = Ok arr_test ->
  length arr_test = DM.len x_test ->
  Forall (fun row => length row = shape1 arr) arr_test ->
  let labels := PrincipalComponentAnalysis.pc_labels (shape1 arr) in
  (exists (x_out : DM.t) (self' : hook),
      PrincipalComponentAnalysis.run x self = (Ok (OutManager x_out), self') /\
      DM.len x_out = DM.len x /\
      DM.features x_out = labels /\
      length (DM.features x_out) = shape1 arr) /\
  (exists (train_out test_out : DM.t) (self' : hook),
      PrincipalComponentAnalysis.run_fitted x (Some x_test) self
      = (Ok (OutManager train_out, OutManager test_out), self') /\
      DM.features train_out = labels /\
      DM.features test_out = DM.features train_out /\
      DM.len train_out = DM.len x /\
      DM.len test_out = DM.len x_test).
Proof.
  intros Hmx Hmt Hb Hfit Happ Hlen Hrect Happ_t Hlen_t Hrect_t labels.
  destruct (relabel_ok x (shape1 arr) arr Hlen Hrect)
    as [x_out [Hrel [Hfeat Hl]]].
  destruct (relabel_ok x_test (shape1 arr) arr_test Hlen_t Hrect_t)
    as [t_out [Hrel_t [Hfeat_t Hl_t]]].
  split.
  - exists x_out. eexists. split; [| split; [exact Hl | split]].
    + unfold PrincipalComponentAnalysis.run. rewrite Hmx.
      unfold bind. rewrite (on_backing_fit self p f _ Hb Hfit), Happ.
      unfold lift. rewrite Hrel. reflexivity.
    + exact Hfeat.
    + rewrite Hfeat. apply pc_labels_length.
  - exists x_out, t_out. eexists.
    split; [| split; [exact Hfeat | split; [congruence | now split]]].
    unfold PrincipalComponentAnalysis.run_fitted. rewrite Hmx.
    unfold bind. rewrite (on_backing_fit self p f _ Hb Hfit), Happ.
    unfold lift at 1. rewrite Hrel.
    unfold lift at 1. simpl PrincipalComponentAnalysis.deref. cbv iota beta.
    rewrite (on_backing_transform _ (PCA.mk (PCA.n_components p) (Some f)) f)
      by reflexivity.
    rewrite Happ_t. unfold lift at 1. unfold DM.mixin. rewrite Hmt.
    unfold lift. rewrite Hrel_t. reflexivity.
Qed.

End PCAHook.

(** ** Calls on one hook *)

Section PCASession.
Context `{Decomposition} `{Tuning}.

Local Abbreviation hook := PrincipalComponentAnalysis.t.
Local Abbreviation mk_hook := PrincipalComponentAnalysis.mk.

Lemma keeps_ret {A : Type} (I : hook -> Prop) (a : A) : keeps I (ret a).
Proof. intros self HI. exact HI. Qed.

Lemma keeps_lift {A : Type} (I : hook -> Prop) (r : result A) :
  keeps I (lift r).
Proof. intros self HI. exact HI. Qed.

Lemma keeps_bind {A B : Type} (I : hook -> Prop)
      (m : M hook A) (k : A -> M hook B) :
  keeps I m -> (forall a, keeps I (k a)) -> keeps I (bind m k).
Proof.
  intros Hm Hk self HI. unfold bind. specialize (Hm self HI).
  destruct (m self) as [[a | e] self']; simpl in *.
  - now apply Hk.
  - exact Hm.
Qed.

Lemma keeps_on_backing (tuner : TunableParam) (v : Q)
      (method : PCA.t -> ndarray -> result ndarray * PCA.t) (X : ndarray) :
  (forall p, PCA.n_components (snd (method p X)) = PCA.n_components p) ->
  keeps (built_with tuner v)
    (PrincipalComponentAnalysis.on_backing method X).
Proof.
  intros Hm self [Ht [p [Hb Hv]]].
  unfold PrincipalComponentAnalysis.on_backing. rewrite Hb.
  specialize (Hm p). destruct (method p X) as [r p']. simpl in *.
  split; [exact Ht |]. exists p'. split; [reflexivity | congruence].
Qed.

Lemma fit_transform_n_components (p : PCA.t) (X : ndarray) :
  PCA.n_components (snd (PCA.fit_transform p X)) = PCA.n_components p.
Proof.
  unfold PCA.fit_transform.
  now destruct (pca_fit (PCA.n_components p) X).
Qed.

Lemma transform_n_components (p : PCA.t) (X : ndarray) :
  PCA.n_components (snd (PCA.transform p X)) = PCA.n_components p.
Proof. unfold PCA.transform. now destruct (PCA.fit_state p). Qed.

Lemma run_keeps_built (tuner : TunableParam) (v : Q) (x : DM.t) :
  keeps (built_with tuner v) (PrincipalComponentAnalysis.run x).
Proof.
  unfold PrincipalComponentAnalysis.run.
  destruct (DM.multi_feature x);
    repeat (first [ apply keeps_bind; [| intros ?]
                  | apply keeps_on_backing; intros ?;
                    apply fit_transform_n_components
                  | apply keeps_lift
                  | apply keeps_ret ]).
Qed.

Lemma run_fitted_keeps_built (tuner : TunableParam) (v : Q)
      (x_train : DM.t) (x_test : option DM.t) :
  keeps (built_with tuner v)
    (PrincipalComponentAnalysis.run_fitted x_train x_test).
Proof.
  unfold PrincipalComponentAnalysis.run_fitted.
  destruct (DM.multi_feature x_train);
    repeat (first [ apply keeps_bind; [| intros ?]
                  | apply keeps_on_backing; intros ?;
                    first [ apply fit_transform_n_components
                          | apply transform_n_components ]
                  | apply keeps_lift
                  | apply keeps_ret ]).
Qed.

Lemma run_untuned (self : hook) (x : DM.t) :
  PrincipalComponentAnalysis.backing_pca self = None ->
  PrincipalComponentAnalysis.run x self = (Err AttributeError, self).
Proof.
  intros Hb. unfold PrincipalComponentAnalysis.run, bind.
  destruct (DM.multi_feature x); now rewrite on_backing_none.
Qed.

Lemma run_fitted_untuned (self : hook) (x_train : DM.t)
      (x_test : option DM.t) :
  PrincipalComponentAnalysis.backing_pca self = None ->
  PrincipalComponentAnalysis.run_fitted x_train x_test self
  = (Err AttributeError, self).
Proof.
  intros Hb. unfold PrincipalComponentAnalysis.run_fitted, bind.
  destruct (DM.multi_feature x_train); now rewrite on_backing_none.
Qed.

Lemma play_untuned (cs : list Session.call) (self : hook) :
  PrincipalComponentAnalysis.backing_pca self = None ->
  forallb (fun c => negb (Session.is_tune c)) cs = true ->
  Session.play cs self
  = (map (fun _ => Session.Raised AttributeError) cs, self).
Proof.
  intros Hb. induction cs as [| c cs IH]; intros Hfree; [reflexivity |].
  simpl in Hfree. apply andb_true_iff in Hfree as [Hc Hcs].
  simpl. destruct c as [trial | x | x_train x_test]; [discriminate | |];
    simpl.
  - rewrite (run_untuned self x Hb). simpl. now rewrite (IH Hcs).
  - rewrite (run_fitted_untuned self x_train x_test Hb). simpl.
    now rewrite (IH Hcs).
Qed.

Lemma play_keeps_built (tuner : TunableParam) (v : Q)
      (cs : list Session.call) :
  forallb (fun c => negb (Session.is_tune c)) cs = true ->
  forall self, built_with tuner v self ->
               built_with tuner v (snd (Session.play cs self)).
Proof.
  induction cs as [| c cs IH]; intros Hfree self HI; [exact HI |].
  simpl in Hfree. apply andb_true_iff in Hfree as [Hc Hcs].
  simpl. destruct c as [trial | x | x_train x_test]; [discriminate | |];
    simpl.
  - pose proof (run_keeps_built tuner v x self HI) as Hstep.
    destruct (PrincipalComponentAnalysis.run x self) as [r self1].
    specialize (IH Hcs self1 Hstep).
    destruct (Session.play cs self1) as [os self2]. exact IH.
  - pose proof (run_fitted_keeps_built tuner v x_train x_test self HI)
      as Hstep.
    destruct (PrincipalComponentAnalysis.run_fitted x_train x_test self)
      as [r self1].
    specialize (IH Hcs self1 Hstep).
    destruct (Session.play cs self1) as [os self2]. exact IH.
Qed.

(** C10: a freshly constructed hook has no backing transform, and as long
    as [tune] is not called every [run] and [run_fitted] raises instead of
    returning output.  After a [tune] call that returned, the backing
    transform is the one that call built, and it stays set through every
    later [run] and [run_fitted], so the branch that raises on a missing
    transform is never entered again. *)
Theorem untuned_hook_raises_tuned_hook_keeps_transform :
  (forall config (self : hook),
      PrincipalComponentAnalysis.init config = Ok self ->
      PrincipalComponentAnalysis.backing_pca self = None) /\
  (forall config (self : hook) (cs : list Session.call),
      PrincipalComponentAnalysis.init config = Ok self ->
      forallb (fun c => negb (Session.is_tune c)) cs = true ->
      Session.play cs self
      = (map (fun _ => Session.Raised AttributeError) cs, self)) /\
  (forall (self self' : hook) (trial : Trial) (cs : list Session.call),
      PrincipalComponentAnalysis.tune trial self = (Ok tt, self') ->
      forallb (fun c => negb (Session.is_tune c)) cs = true ->
      exists (tuner : TunableParam) (p : PCA.t),
        tuner_tune (PrincipalComponentAnalysis.prop_tuner self) trial
        = Ok tuner /\
        PrincipalComponentAnalysis.backing_pca self'
        = Some (PCA.new (tuner_value tuner)) /\
        PrincipalComponentAnalysis.backing_pca (snd (Session.play cs self'))
        = Some p /\
        PCA.n_components p = tuner_value tuner).
Proof.
  assert (Hfresh : forall config (self : hook),
             PrincipalComponentAnalysis.init config = Ok self ->
             PrincipalComponentAnalysis.backing_pca self = None).
  { intros config self. unfold PrincipalComponentAnalysis.init.
    destruct (from_config_entry _); simpl; [| discriminate].
    intros Heq. injection Heq as <-. reflexivity. }
  split; [exact Hfresh |]. split.
  - intros config self cs Hinit Hfree.
    apply play_untuned; [eapply Hfresh; eassumption | exact Hfree].
  - intros self self' trial cs Htune Hfree.
    unfold PrincipalComponentAnalysis.tune in Htune.
    destruct (tuner_tune (PrincipalComponentAnalysis.prop_tuner self) trial)
      as [tuner | e]; [| discriminate].
    injection Htune as <-.
    destruct (play_keeps_built tuner (tuner_value tuner) cs Hfree
                (mk_hook tuner (Some (PCA.new (tuner_value tuner)))))
      as [_ [p [Hp Hv]]].
    { split; [reflexivity |]. eexists. split; reflexivity. }
    exists tuner, p. auto.
Qed.

End PCASession.

(** ** What the fit of [run_fitted] is learnt from *)

Section FitSource.
Context `{Decomposition} `{Tuning}.

Local Abbreviation hook := PrincipalComponentAnalysis.t.
Local Abbreviation mk_hook := PrincipalComponentAnalysis.mk.

(** On the multi-feature path the state of the hook after [run_fitted]
    is the one the fit on [x_train] left: whatever [x_test] is, and whether
    or not its transformation succeeds. *)
Lemma run_fitted_multi_feature_fit_ignores_test
      (self : hook) (x_train : DM.t) (x_test : option DM.t) :
  DM.multi_feature x_train = true ->
  PrincipalComponentAnalysis.backing_pca
    (snd (PrincipalComponentAnalysis.run_fitted x_train x_test self))
  = PrincipalComponentAnalysis.backing_pca
      (snd (PrincipalComponentAnalysis.on_backing PCA.fit_transform
              (DM.as_array x_train) self)).
Proof.
  intros Hm. unfold PrincipalComponentAnalysis.run_fitted. rewrite Hm.
  unfold bind.
  destruct (PrincipalComponentAnalysis.on_backing PCA.fit_transform
              (DM.as_array x_train) self) as [[tmp | e] s1]; [| reflexivity].
  unfold lift at 1.
  destruct (PrincipalComponentAnalysis.relabel x_train _ tmp);
    [| reflexivity].
  unfold lift at 1. destruct (PrincipalComponentAnalysis.deref x_test) as [xt | e];
    [| reflexivity].
  assert (Hsame : PrincipalComponentAnalysis.backing_pca
                    (snd (PrincipalComponentAnalysis.on_backing
                            PCA.transform (DM.as_array xt) s1))
                  = PrincipalComponentAnalysis.backing_pca s1).
  { unfold PrincipalComponentAnalysis.on_backing, PCA.transform.
    destruct (PrincipalComponentAnalysis.backing_pca s1) as [p |] eqn:Hb;
      [| exact Hb].
    destruct (PCA.fit_state p); reflexivity. }
  destruct (PrincipalComponentAnalysis.on_backing PCA.transform
              (DM.as_array xt) s1) as [[tmp_t | e] s2]; [| exact Hsame].
  unfold lift at 1. destruct (DM.mixin xt); [| exact Hsame].
  unfold lift at 1.
  destruct (PrincipalComponentAnalysis.relabel _ _ tmp_t); exact Hsame.
Qed.

(** On the single-feature path the second [fit_transform] learns from
    [x_test]: the hook is left fitted on the test data, and the test output
    is the test data mapped by its own fit. *)
Lemma run_fitted_single_feature_fit_from_test
      (self : hook) (p : PCA.t) (f_train f_test : fitted)
      (x_train x_test : DM.t) :
  DM.multi_feature x_train = false ->
  PrincipalComponentAnalysis.backing_pca self = Some p ->
  pca_fit (PCA.n_components p) (DM.as_array x_train) = Ok f_train ->
  pca_fit (PCA.n_components p) (DM.as_array x_test) = Ok f_test ->
  forall train_arr,
    pca_apply f_train (DM.as_array x_train) = Ok train_arr ->
    PrincipalComponentAnalysis.run_fitted x_train (Some x_test) self
    = (match pca_apply f_test (DM.as_array x_test) with
       | Ok test_arr => Ok (OutArray train_arr, OutArray test_arr)
       | Err e => Err e
       end,
       mk_hook (PrincipalComponentAnalysis.prop_tuner self)
         (Some (PCA.mk (PCA.n_components p) (Some f_test)))).
Proof.
  intros Hs Hb Hf1 Hf2 train_arr Ha.
  unfold PrincipalComponentAnalysis.run_fitted. rewrite Hs.
  unfold bind. rewrite (on_backing_fit self p f_train _ Hb Hf1), Ha.
  unfold lift. simpl PrincipalComponentAnalysis.deref. cbv iota beta.
  rewrite (on_backing_fit _ (PCA.mk (PCA.n_components p) (Some f_train))
             f_test) by (reflexivity || exact Hf2).
  simpl. destruct (pca_apply f_test (DM.as_array x_test)); reflexivity.
Qed.

End FitSource.

(** C1: with the centring stand-in for the decomposition, [run_fitted] on
    single-feature containers leaves the hook fitted on the test data: the
    same [x_train] with two different [x_test] gives two different fitted
    states, neither being the fit of [x_train]. *)
Theorem run_fitted_single_feature_refits_on_test :
  let fit_after (x_test : DM.t) :=
    option_map PCA.fit_state
      (PrincipalComponentAnalysis.backing_pca
         (snd (PrincipalComponentAnalysis.run_fitted
                 Demo.series (Some x_test) (Demo.tuned 1)))) in
  Demo.centre_fit 1 (DM.as_array Demo.series)
  = Ok {| Demo.count := 3; Demo.sums := [9%Z]; Demo.kept := 1 |} /\
  fit_after Demo.series_a
  = Some (Some {| Demo.count := 2; Demo.sums := [30%Z]; Demo.kept := 1 |}) /\
  fit_after Demo.series_b
  = Some (Some {| Demo.count := 2; Demo.sums := [0%Z]; Demo.kept := 1 |}) /\
  fit_after Demo.series_a <> fit_after Demo.series_b.
Proof.
  cbv zeta. repeat split; try reflexivity.
  vm_compute. discriminate.
Qed.

(** ** The study run *)

Lemma bind_ok_inv {S A B : Type} (m : M S A) (k : A -> M S B)
      (s s' : S) (b : B) :
  bind m k s = (Ok b, s') ->
  exists a s1, m s = (Ok a, s1) /\ k a s1 = (Ok b, s').
Proof.
  unfold bind. destruct (m s) as [[a | e] s1]; intros Heq.
  - now exists a, s1.
  - discriminate.
Qed.

Section Study.
Context `{Collaborators}.

Local Abbreviation World := StudyManager.World.

Lemma appends_bind {A B : Type} (m : M World A) (k : A -> M World B) :
  appends m -> (forall a, appends (k a)) -> appends (bind m k).
Proof.
  intros Hm Hk w. unfold bind. destruct (Hm w) as [l Hl].
  destruct (m w) as [[a | e] w1]; simpl in *.
  - destruct (Hk a w1) as [l' Hl']. exists (l ++ l').
    now rewrite Hl', Hl, app_assoc.
  - now exists l.
Qed.

Lemma appends_still {A : Type} (m : M World A) :
  (forall w, StudyManager.trace (snd (m w)) = StudyManager.trace w) ->
  appends m.
Proof. intros Hm w. exists []. now rewrite app_nil_r. Qed.

Lemma appends_log (e : Event) : appends (StudyManager.log e).
Proof. intros w. now exists [e]. Qed.

Lemma appends_with_rng {A : Type} (m : M RNG A) :
  appends (StudyManager.with_rng m).
Proof.
  apply appends_still. intros w. unfold StudyManager.with_rng.
  now destruct (m (StudyManager.rng w)).
Qed.

Lemma appends_lift {A : Type} (r : result A) : appends (lift r).
Proof. now apply appends_still. Qed.

Lemma appends_ret {A : Type} (a : A) : appends (ret a).
Proof. now apply appends_still. Qed.

Lemma appends_raise {A : Type} (e : error) : appends (@raise World A e).
Proof. now apply appends_still. Qed.

Lemma appends_insert_row (name : string) (vals : list string) :
  appends (StudyManager.insert_row name vals).
Proof.
  apply appends_still. intros w. unfold StudyManager.insert_row.
  destruct (sql_identifier name && forallb sql_literal vals);
    [| reflexivity].
  destruct (StudyManager.db w !! name) as [tbl |]; [| reflexivity].
  now destruct (length vals =? length (columns tbl))%nat.
Qed.

Lemma appends_create_table (name : string) (cols : list string) :
  appends (StudyManager.create_table name cols).
Proof.
  apply appends_still. intros w. unfold StudyManager.create_table.
  destruct (sql_identifier name && forallb sql_identifier cols);
    [| reflexivity].
  now destruct (StudyManager.db w !! name).
Qed.

(** What the two statements do to the store. *)
Lemma create_table_ok (name : string) (cols : list string) (w w' : World)
      (u : unit) :
  StudyManager.create_table name cols w = (Ok u, w') ->
  StudyManager.db w !! name = None /\
  StudyManager.db w'
  = <[name := {| columns := cols; rows := [] |}]> (StudyManager.db w) /\
  StudyManager.db_cursor w' = StudyManager.db_cursor w /\
  StudyManager.trace w' = StudyManager.trace w.
Proof.
  unfold StudyManager.create_table.
  destruct (sql_identifier name && forallb sql_identifier cols);
    [| discriminate].
  destruct (StudyManager.db w !! name); [discriminate |].
  intros Heq. injection Heq as _ <-. now repeat split.
Qed.

Lemma create_table_err (name : string) (cols : list string) (w w' : World)
      (e : error) :
  StudyManager.create_table name cols w = (Err e, w') ->
  e = OperationalError /\ w' = w.
Proof.
  unfold StudyManager.create_table.
  destruct (sql_identifier name && forallb sql_identifier cols).
  - destruct (StudyManager.db w !! name); [| discriminate].
    intros Heq. injection Heq as <- <-. now split.
  - intros Heq. injection Heq as <- <-. now split.
Qed.

Lemma create_table_existing (name : string) (cols : list string) (w : World) :
  is_Some (StudyManager.db w !! name) ->
  StudyManager.create_table name cols w = (Err OperationalError, w).
Proof.
  intros [tbl Htbl]. unfold StudyManager.create_table. rewrite Htbl.
  now destruct (sql_identifier name && forallb sql_identifier cols).
Qed.

Lemma insert_row_ok (name : string) (vals : list string) (w w' : World)
      (u : unit) :
  StudyManager.insert_row name vals w = (Ok u, w') ->
  exists tbl : Table,
    StudyManager.db w !! name = Some tbl /\
    length vals = length (columns tbl) /\
    StudyManager.db w'
    = <[name := {| columns := columns tbl; rows := rows tbl ++ [vals] |}]>
        (StudyManager.db w) /\
    StudyManager.db_cursor w' = StudyManager.db_cursor w /\
    StudyManager.trace w' = StudyManager.trace w.
Proof.
  unfold StudyManager.insert_row.
  destruct (sql_identifier name && forallb sql_literal vals);
    [| discriminate].
  destruct (StudyManager.db w !! name) as [tbl |]; [| discriminate].
  destruct (length vals =? length (columns tbl))%nat eqn:Hlen;
    [| discriminate].
  intros Heq. injection Heq as _ <-. exists tbl.
  apply Nat.eqb_eq in Hlen. now repeat split.
Qed.

Lemma insert_row_err (name : string) (vals : list string) (w w' : World)
      (e : error) :
  StudyManager.insert_row name vals w = (Err e, w') ->
  e = OperationalError /\ w' = w.
Proof.
  unfold StudyManager.insert_row.
  destruct (sql_identifier name && forallb sql_literal vals).
  - destruct (StudyManager.db w !! name) as [tbl |].
    + destruct (length vals =? length (columns tbl))%nat; [discriminate |].
      intros Heq. injection Heq as <- <-. now split.
    + intros Heq. injection Heq as <- <-. now split.
  - intros Heq. injection Heq as <- <-. now split.
Qed.

Ltac appends_step :=
  first [ apply appends_bind; [| intros ?]
        | apply appends_log
        | apply appends_with_rng
        | apply appends_lift
        | apply appends_ret
        | apply appends_raise
        | apply appends_insert_row
        | apply appends_create_table
        | apply appends_still; reflexivity ].

Lemma appends_seed (s : Z) : appends (StudyManager.seed s).
Proof. unfold StudyManager.seed. repeat appends_step. Qed.

Lemma appends_save_results (self : StudyManager.t) (rep n : nat)
      (ms : list (string * Metric)) :
  appends (StudyManager.save_results self rep n ms).
Proof.
  unfold StudyManager.save_results.
  apply appends_bind; [now apply appends_still | intros w0].
  apply appends_bind;
    [destruct (StudyManager.db_cursor w0); appends_step | intros _].
  repeat appends_step.
Qed.

Lemma appends_opt_func (self : StudyManager.t) (rep : nat)
      (train_x train_y test_x test_y : DM.t) (trial : OptunaTrial Metric) :
  appends (StudyManager.opt_func self rep train_x train_y test_x test_y trial).
Proof.
  unfold StudyManager.opt_func.
  apply appends_bind; [appends_step | intros _].
  apply appends_bind; [appends_step | intros model].
  apply appends_bind; [appends_step | intros _].
  apply appends_bind; [appends_step | intros model'].
  apply appends_bind; [appends_step | intros [obj_val metric_vals]].
  apply appends_bind; [apply appends_save_results | intros _].
  appends_step.
Qed.

Lemma appends_optimize (func : OptunaTrial Metric -> M World Metric)
      (name : string) (sampler : Z) (n : nat) :
  (forall trial, appends (func trial)) ->
  forall past, appends (StudyManager.optimize func name sampler n past).
Proof.
  intros Hf. induction n as [| n IH]; intros past; simpl.
  - appends_step.
  - apply appends_bind; [apply Hf | intros v; apply IH].
Qed.

Lemma appends_replicate (self : StudyManager.t) (seeds : list Z)
      (x y : DM.t) (i : nat) (fold : list nat * list nat) :
  appends (StudyManager.replicate self seeds x y i fold).
Proof.
  unfold StudyManager.replicate. destruct fold as [train_idx test_idx].
  apply appends_bind; [appends_step | intros s].
  apply appends_bind; [apply appends_seed | intros _].
  apply appends_bind; [appends_step | intros [train_x test_x]].
  apply appends_bind; [appends_step | intros train_y].
  apply appends_bind; [appends_step | intros test_y].
  unfold StudyManager.run_supervised. apply appends_optimize.
  intros trial. apply appends_opt_func.
Qed.

Lemma appends_replicates (self : StudyManager.t) (seeds : list Z)
      (x y : DM.t) (folds : list (list nat * list nat)) :
  forall i, appends (StudyManager.replicates self seeds x y i folds).
Proof.
  induction folds as [| fold folds IH]; intros i; simpl.
  - appends_step.
  - apply appends_bind; [apply appends_replicate | intros _; apply IH].
Qed.

Lemma surely_logs_seed (s : Z) : surely_logs [EvSeed s] (StudyManager.seed s).
Proof. intros w. do 2 eexists. split; reflexivity. Qed.

Lemma surely_logs_randint (n : nat) :
  surely_logs [EvRandint n] (StudyManager.randint n).
Proof.
  intros w. unfold StudyManager.randint, bind, StudyManager.log, modify,
    StudyManager.with_rng. simpl.
  destruct (np_random_randint n (StudyManager.rng w)) as [l g].
  do 2 eexists. split; reflexivity.
Qed.

Lemma surely_logs_log (e : Event) : surely_logs [e] (StudyManager.log e).
Proof. intros w. do 2 eexists. split; reflexivity. Qed.

Lemma surely_logs_logs {A : Type} (l : list Event) (m : M World A) :
  surely_logs l m -> logs l m.
Proof.
  intros Hm w a w' Heq. destruct (Hm w) as [a0 [w0 [Hrun Htr]]].
  rewrite Hrun in Heq. now injection Heq as <- <-.
Qed.

Lemma logs_first_bind {A B : Type} (l1 l2 : list Event)
      (m : M World A) (k : A -> M World B) :
  surely_logs l1 m -> (forall a, logs_first l2 (k a)) ->
  logs_first (l1 ++ l2) (bind m k).
Proof.
  intros Hm Hk w. destruct (Hm w) as [a [w1 [Hrun Htr]]].
  unfold bind. rewrite Hrun. destruct (Hk a w1) as [rest Hrest].
  exists rest. now rewrite Hrest, Htr, <- !app_assoc.
Qed.

Lemma logs_first_nil {A : Type} (m : M World A) :
  appends m -> logs_first [] m.
Proof. intros Hm w. destruct (Hm w) as [l Hl]. now exists l. Qed.

Lemma logs_first_ok_bind {A B : Type} (l1 l2 : list Event)
      (m : M World A) (k : A -> M World B) :
  logs l1 m -> (forall a, logs_first_ok l2 (k a)) ->
  logs_first_ok (l1 ++ l2) (bind m k).
Proof.
  intros Hm Hk w b w' Heq.
  apply bind_ok_inv in Heq as [a [w1 [Hrun Hrest]]].
  destruct (Hk a w1 b w' Hrest) as [rest Htr].
  exists rest. now rewrite Htr, (Hm w a w1 Hrun), <- !app_assoc.
Qed.

Lemma logs_first_ok_nil {A : Type} (m : M World A) :
  appends m -> logs_first_ok [] m.
Proof.
  intros Hm w a w' Heq. destruct (Hm w) as [l Hl].
  rewrite Heq in Hl. now exists l.
Qed.

Lemma logs_still {A : Type} (m : M World A) :
  (forall w, StudyManager.trace (snd (m w)) = StudyManager.trace w) ->
  logs [] m.
Proof.
  intros Hm w a w' Heq. specialize (Hm w). rewrite Heq in Hm.
  now rewrite app_nil_r.
Qed.

Lemma logs_with_rng {A : Type} (m : M RNG A) :
  logs [] (StudyManager.with_rng m).
Proof.
  apply logs_still. intros w. unfold StudyManager.with_rng.
  now destruct (m (StudyManager.rng w)).
Qed.

Lemma logs_lift {A : Type} (r : result A) : logs [] (@lift World A r).
Proof. now apply logs_still. Qed.

Lemma logs_pop_features (dm : DM.t) (target : list string) :
  logs [EvPopFeatures target]
    (if DM.feature_splittable dm then
       (_ <- StudyManager.log (EvPopFeatures target) ;;
        lift (DM.pop_features dm target))%st
     else raise NotImplementedError).
Proof.
  intros w a w'. destruct (DM.feature_splittable dm); [| discriminate].
  unfold bind, lift. simpl. intros Heq. now injection Heq as _ <-.
Qed.

Lemma logs_init_db (self : StudyManager.t) :
  logs [EvCreateTable (StudyManager.study_label self)]
    (StudyManager.init_db self).
Proof.
  intros w [] w'. unfold StudyManager.init_db, bind.
  cbn [StudyManager.log modify fst snd].
  intros Heq. apply create_table_ok in Heq as [_ [_ [_ Htr]]].
  exact Htr.
Qed.

Lemma logs_set_cursor : logs [] StudyManager.set_cursor.
Proof. now apply logs_still. Qed.

(** The events [run] appends start with the seeding, the draw of the
    replicate seeds and the construction of the splitter; a run that
    returns went on with the pre-analysis, the target extraction, the
    table creation and the split, in this order. *)
Lemma run_trace_shape (self : StudyManager.t) (w : World) :
  let init_seed := StudyConfig.random_seed (StudyManager.study_config self) in
  let R := StudyConfig.no_replicates (StudyManager.study_config self) in
  exists rest,
    StudyManager.trace (snd (StudyManager.run self w))
    = StudyManager.trace w
      ++ [EvSeed init_seed; EvRandint R; EvStratifiedKFold R init_seed]
      ++ rest /\
    (fst (StudyManager.run self w) = Ok tt ->
     exists rest',
       rest = [EvPreAnalysis;
               EvPopFeatures (StudyConfig.target (StudyManager.study_config self));
               EvCreateTable (StudyManager.study_label self);
               EvSplit] ++ rest').
Proof.
  intros init_seed R.
  assert (Hfirst : logs_first
            ([EvSeed init_seed] ++ [EvRandint R]
             ++ [EvStratifiedKFold R init_seed] ++ [])
            (StudyManager.run self)).
  { unfold StudyManager.run.
    apply logs_first_bind; [apply surely_logs_seed | intros _].
    apply logs_first_bind; [apply surely_logs_randint | intros seeds].
    apply logs_first_bind; [apply surely_logs_log | intros _].
    apply logs_first_nil.
    apply appends_bind; [appends_step | intros sp].
    apply appends_bind; [appends_step | intros _].
    apply appends_bind; [appends_step | intros dm].
    apply appends_bind.
    { destruct (DM.feature_splittable dm); repeat appends_step. }
    intros [x y].
    apply appends_bind; [unfold StudyManager.init_db; repeat appends_step |].
    intros _. apply appends_bind; [now apply appends_still | intros _].
    apply appends_bind; [appends_step | intros _].
    apply appends_bind; [appends_step | intros folds].
    apply appends_replicates. }
  assert (Hok : logs_first_ok
            ([EvSeed init_seed] ++ [EvRandint R]
             ++ [EvStratifiedKFold R init_seed] ++ [] ++ [EvPreAnalysis]
             ++ [] ++ [EvPopFeatures
                         (StudyConfig.target (StudyManager.study_config self))]
             ++ [EvCreateTable (StudyManager.study_label self)] ++ []
             ++ [EvSplit] ++ [] ++ [])
            (StudyManager.run self)).
  { unfold StudyManager.run.
    apply logs_first_ok_bind;
      [apply surely_logs_logs, surely_logs_seed | intros _].
    apply logs_first_ok_bind;
      [apply surely_logs_logs, surely_logs_randint | intros seeds].
    apply logs_first_ok_bind;
      [apply surely_logs_logs, surely_logs_log | intros _].
    apply logs_first_ok_bind; [apply logs_lift | intros sp].
    apply logs_first_ok_bind;
      [apply surely_logs_logs, surely_logs_log | intros _].
    apply logs_first_ok_bind; [apply logs_with_rng | intros dm].
    apply logs_first_ok_bind; [apply logs_pop_features | intros [x y]].
    apply logs_first_ok_bind; [apply logs_init_db | intros _].
    apply logs_first_ok_bind; [apply logs_set_cursor | intros _].
    apply logs_first_ok_bind;
      [apply surely_logs_logs, surely_logs_log | intros _].
    apply logs_first_ok_bind; [apply logs_lift | intros folds].
    apply logs_first_ok_nil, appends_replicates. }
  destruct (Hfirst w) as [rest Hrest]. exists rest.
  split; [exact Hrest |]. intros Hret.
  destruct (StudyManager.run self w) as [r w'] eqn:Hrun. simpl in *.
  subst r. destruct (Hok w tt w' Hrun) as [rest' Hrest'].
  exists rest'. rewrite Hrest in Hrest'. simpl in Hrest'.
  apply app_inv_head in Hrest'. now injection Hrest' as ->.
Qed.

Lemma position_head (e : Event) (tr : list Event) :
  position e (e :: tr) = Some 0.
Proof. simpl. now destruct (decide (e = e)). Qed.

Lemma position_skip (e e' : Event) (tr : list Event) :
  e <> e' -> position e (e' :: tr) = option_map S (position e tr).
Proof. intros Hne. simpl. now destruct (decide (e = e')). Qed.

Lemma happens_before_second (a b c e : Event) (rest : list Event) :
  b <> a -> e <> a -> e <> b -> e <> c ->
  happens_before b e (a :: b :: c :: rest) = true /\
  happens_before e b (a :: b :: c :: rest) = false.
Proof.
  intros Hba Hea Heb Hec. unfold happens_before.
  rewrite (position_skip b a) by assumption. rewrite position_head.
  rewrite !(position_skip e) by assumption.
  destruct (position e rest); simpl; auto.
Qed.

Lemma happens_before_third (a b c e : Event) (rest : list Event) :
  c <> a -> c <> b -> e <> a -> e <> b -> e <> c ->
  happens_before c e (a :: b :: c :: rest) = true /\
  happens_before e c (a :: b :: c :: rest) = false.
Proof.
  intros Hca Hcb Hea Heb Hec. unfold happens_before.
  rewrite (position_skip c a), (position_skip c b) by assumption.
  rewrite position_head. rewrite !(position_skip e) by assumption.
  destruct (position e rest); simpl; auto.
Qed.

(** C2, as the code orders it: after seeding the global generator from
    the study seed, [run] first draws the replicate seeds and builds the
    stratified k-fold splitter, and only then runs the pre-analysis
    pipeline and extracts the target features; a run that returns has made
    these calls in exactly this order before creating the table and
    splitting. *)
Theorem run_draws_seeds_before_pre_analysis
        (self : StudyManager.t) (w : World) :
  let init_seed := StudyConfig.random_seed (StudyManager.study_config self) in
  let R := StudyConfig.no_replicates (StudyManager.study_config self) in
  let target := StudyConfig.target (StudyManager.study_config self) in
  exists new : list Event,
    StudyManager.trace (snd (StudyManager.run self w))
    = StudyManager.trace w ++ new /\
    (exists rest,
        new = [EvSeed init_seed; EvRandint R; EvStratifiedKFold R init_seed]
              ++ rest) /\
    happens_before (EvRandint R) EvPreAnalysis new = true /\
    happens_before (EvStratifiedKFold R init_seed) EvPreAnalysis new = true /\
    happens_before (EvRandint R) (EvPopFeatures target) new = true /\
    happens_before (EvStratifiedKFold R init_seed) (EvPopFeatures target) new
    = true /\
    happens_before EvPreAnalysis (EvRandint R) new = false /\
    happens_before (EvPopFeatures target) (EvStratifiedKFold R init_seed) new
    = false /\
    (fst (StudyManager.run self w) = Ok tt ->
     exists rest,
       new = [EvSeed init_seed; EvRandint R; EvStratifiedKFold R init_seed;
              EvPreAnalysis; EvPopFeatures target;
              EvCreateTable (StudyManager.study_label self); EvSplit]
             ++ rest).
Proof.
  intros init_seed R target.
  destruct (run_trace_shape self w) as [rest [Hshape Hok]].
  fold init_seed R target in Hshape, Hok.
  exists ([EvSeed init_seed; EvRandint R; EvStratifiedKFold R init_seed]
          ++ rest).
  split; [exact Hshape |]. split; [now exists rest |].
  simpl app.
  destruct (happens_before_second (EvSeed init_seed) (EvRandint R)
              (EvStratifiedKFold R init_seed) EvPreAnalysis rest)
    as [H1 H2]; try discriminate.
  destruct (happens_before_third (EvSeed init_seed) (EvRandint R)
              (EvStratifiedKFold R init_seed) EvPreAnalysis rest)
    as [H3 _]; try discriminate.
  destruct (happens_before_second (EvSeed init_seed) (EvRandint R)
              (EvStratifiedKFold R init_seed) (EvPopFeatures target) rest)
    as [H4 _]; try discriminate.
  destruct (happens_before_third (EvSeed init_seed) (EvRandint R)
              (EvStratifiedKFold R init_seed) (EvPopFeatures target) rest)
    as [H5 H6]; try discriminate.
  repeat (split; [assumption |]).
  intros Hret. destruct (Hok Hret) as [rest' ->]. now exists rest'.
Qed.

End Study.

(** C2 as stated fails on a run of three replicates with seed 42: the
    run returns, yet the pre-analysis pipeline and the target extraction
    are not called before the replicate seeds are drawn and the splitter
    is built, but after. *)
Lemma run_order_counterexample :
  let outcome := @StudyManager.run Demo.library Demo.manager Demo.start in
  let tr := StudyManager.trace (snd outcome) in
  fst outcome = Ok tt /\
  happens_before EvPreAnalysis (EvRandint 3) tr = false /\
  happens_before (EvPopFeatures ["y"]) (EvStratifiedKFold 3 42) tr = false /\
  happens_before (EvRandint 3) EvPreAnalysis tr = true /\
  happens_before (EvStratifiedKFold 3 42) (EvPopFeatures ["y"]) tr = true.
Proof. vm_compute. repeat split. Qed.

(** ** Rows of the result store *)

Section ResultRows.
Context `{Collaborators}.

Local Abbreviation World := StudyManager.World.

Lemma trial_rows_length (rep start : nat) (vals : list (Metric * Metric)) :
  length (trial_rows rep start vals) = length vals.
Proof.
  revert start. induction vals as [| v vals IH]; intros start; simpl;
    [reflexivity | now rewrite IH].
Qed.

Lemma trial_rows_app (rep start : nat) (a b : list (Metric * Metric)) :
  trial_rows rep start (a ++ b)
  = trial_rows rep start a ++ trial_rows rep (start + length a) b.
Proof.
  revert start. induction a as [| v a IH]; intros start; simpl.
  - now rewrite Nat.add_0_r.
  - rewrite IH. do 3 f_equal. lia.
Qed.

Lemma study_rows_length (start T : nat) (vals : list (list (Metric * Metric))) :
  Forall (fun l => length l = T) vals ->
  length (study_rows start vals) = length vals * T.
Proof.
  intros Hall. revert start.
  induction Hall as [| l vals Hl _ IH]; intros start; simpl; [reflexivity |].
  now rewrite length_app, trial_rows_length, IH, Hl.
Qed.

Lemma with_rng_store {A : Type} (m : M RNG A) (w w' : World) (r : result A) :
  StudyManager.with_rng m w = (r, w') ->
  StudyManager.db w' = StudyManager.db w /\
  StudyManager.db_cursor w' = StudyManager.db_cursor w.
Proof.
  unfold StudyManager.with_rng. destruct (m (StudyManager.rng w)) as [r0 g].
  intros Heq. now injection Heq as _ <-.
Qed.

Lemma seed_store (s : Z) (w w' : World) (r : result unit) :
  StudyManager.seed s w = (r, w') ->
  StudyManager.db w' = StudyManager.db w /\
  StudyManager.db_cursor w' = StudyManager.db_cursor w.
Proof. intros Heq. now injection Heq as _ <-. Qed.

Lemma calculate_metrics_shape (model : Model) (test_x test_y : DM.t)
      (obj : Metric) (metric_vals : list (string * Metric)) :
  StudyManager.calculate_metrics model test_x test_y = Ok (obj, metric_vals) ->
  exists tracked, metric_vals = [("objective", obj); ("bacc", tracked)].
Proof.
  unfold StudyManager.calculate_metrics, StudyManager.tracked_metrics.
  destruct (StudyManager.objective model test_x test_y) as [o | e];
    simpl; [| discriminate].
  destruct (predict model test_x) as [p | e]; simpl; [| discriminate].
  destruct (balanced_accuracy_score test_y p) as [b | e]; simpl;
    [| discriminate].
  intros Heq. injection Heq as <- <-. now exists b.
Qed.

Lemma save_results_extends (self : StudyManager.t) (rep n : nat)
      (ms : list (string * Metric)) (w w' : World)
      (tbl : Table) (old : list (list string)) :
  StudyManager.save_results self rep n ms w = (Ok tt, w') ->
  extended (StudyManager.study_label self) tbl old w ->
  extended (StudyManager.study_label self) tbl
    (old ++ [str_nat rep :: str_nat n
             :: map (fun kv => metric_str (snd kv)) ms]) w'.
Proof.
  intros Hrun [Hdb Hcur]. unfold StudyManager.save_results in Hrun.
  unfold bind, get in Hrun. rewrite Hcur in Hrun. simpl in Hrun.
  apply insert_row_ok in Hrun as [tbl' [Htbl [_ [Hdb' [Hcur' _]]]]].
  simpl in Htbl, Hdb', Hcur'. rewrite Hdb in Htbl. injection Htbl as <-.
  split; [| congruence].
  rewrite Hdb'. simpl. now rewrite lookup_insert_eq, <- app_assoc.
Qed.

Lemma opt_func_extends (self : StudyManager.t) (rep : nat)
      (train_x train_y test_x test_y : DM.t) (trial : OptunaTrial Metric)
      (w w' : World) (v : Metric) (tbl : Table) (old : list (list string)) :
  StudyManager.opt_func self rep train_x train_y test_x test_y trial w
  = (Ok v, w') ->
  extended (StudyManager.study_label self) tbl old w ->
  exists tracked,
    extended (StudyManager.study_label self) tbl
      (old ++ [result_row rep (number trial) (v, tracked)]) w'.
Proof.
  intros Hrun [Hdb Hcur]. unfold StudyManager.opt_func in Hrun.
  apply bind_ok_inv in Hrun as [[] [w1 [H1 Hrun]]].
  injection H1 as <-.
  apply bind_ok_inv in Hrun as [model [w2 [H2 Hrun]]].
  apply with_rng_store in H2 as [Hdb2 Hcur2]. simpl in Hdb2, Hcur2.
  apply bind_ok_inv in Hrun as [[] [w3 [H3 Hrun]]].
  injection H3 as <-.
  apply bind_ok_inv in Hrun as [model' [w4 [H4 Hrun]]].
  apply with_rng_store in H4 as [Hdb4 Hcur4]. simpl in Hdb4, Hcur4.
  apply bind_ok_inv in Hrun as [[obj ms] [w5 [H5 Hrun]]].
  unfold lift in H5. injection H5 as Hcalc <-.
  apply calculate_metrics_shape in Hcalc as [tracked ->].
  apply bind_ok_inv in Hrun as [[] [w6 [H6 Hrun]]].
  unfold ret in Hrun. injection Hrun as <- <-.
  exists tracked.
  apply (save_results_extends self rep (number trial) _ w4 w6 tbl old H6).
  split; congruence.
Qed.

Lemma optimize_extends (self : StudyManager.t) (rep : nat)
      (train_x train_y test_x test_y : DM.t) (name : string) (sampler : Z)
      (tbl : Table) (n : nat) :
  forall (past : list Metric) (old : list (list string)) (w w' : World),
    StudyManager.optimize
      (StudyManager.opt_func self rep train_x train_y test_x test_y)
      name sampler n past w = (Ok tt, w') ->
    extended (StudyManager.study_label self) tbl old w ->
    exists vals,
      length vals = n /\
      extended (StudyManager.study_label self) tbl
        (old ++ trial_rows rep (length past) vals) w'.
Proof.
  induction n as [| n IH]; intros past old w w' Hrun Hext; simpl in Hrun.
  - injection Hrun as <-. exists []. simpl. now rewrite app_nil_r.
  - apply bind_ok_inv in Hrun as [v [w1 [Hone Hrest]]].
    destruct (opt_func_extends _ _ _ _ _ _ _ _ _ _ _ _ Hone Hext)
      as [tracked Hext1]. simpl in Hext1.
    destruct (IH _ _ _ _ Hrest Hext1) as [vals [Hlen Hext2]].
    exists ((v, tracked) :: vals). split; [simpl; now rewrite Hlen |].
    rewrite length_app, Nat.add_1_r, <- app_assoc in Hext2. exact Hext2.
Qed.

Lemma replicate_extends (self : StudyManager.t) (seeds : list Z)
      (x y : DM.t) (i : nat) (fold : list nat * list nat)
      (w w' : World) (tbl : Table) (old : list (list string)) :
  StudyManager.replicate self seeds x y i fold w = (Ok tt, w') ->
  extended (StudyManager.study_label self) tbl old w ->
  exists vals,
    length vals = StudyConfig.no_trials (StudyManager.study_config self) /\
    extended (StudyManager.study_label self) tbl
      (old ++ trial_rows i 0 vals) w'.
Proof.
  intros Hrun [Hdb Hcur]. unfold StudyManager.replicate in Hrun.
  destruct fold as [train_idx test_idx].
  apply bind_ok_inv in Hrun as [s [w1 [H1 Hrun]]].
  unfold lift in H1. injection H1 as _ <-.
  apply bind_ok_inv in Hrun as [[] [w2 [H2 Hrun]]].
  apply seed_store in H2 as [Hdb2 Hcur2].
  apply bind_ok_inv in Hrun as [[train_x test_x] [w3 [H3 Hrun]]].
  unfold lift in H3. injection H3 as _ <-.
  apply bind_ok_inv in Hrun as [train_y [w4 [H4 Hrun]]].
  unfold lift in H4. injection H4 as _ <-.
  apply bind_ok_inv in Hrun as [test_y [w5 [H5 Hrun]]].
  unfold lift in H5. injection H5 as _ <-.
  unfold StudyManager.run_supervised in Hrun.
  eapply (optimize_extends _ _ _ _ _ _ _ _ tbl _ [] old) in Hrun;
    [exact Hrun |].
  split; congruence.
Qed.

Lemma replicates_extend (self : StudyManager.t) (seeds : list Z)
      (x y : DM.t) (tbl : Table) (folds : list (list nat * list nat)) :
  forall (i : nat) (old : list (list string)) (w w' : World),
    StudyManager.replicates self seeds x y i folds w = (Ok tt, w') ->
    extended (StudyManager.study_label self) tbl old w ->
    exists vals,
      length vals = length folds /\
      Forall (fun l => length l
                       = StudyConfig.no_trials (StudyManager.study_config self))
        vals /\
      extended (StudyManager.study_label self) tbl
        (old ++ study_rows i vals) w'.
Proof.
  induction folds as [| fold folds IH]; intros i old w w' Hrun Hext;
    simpl in Hrun.
  - injection Hrun as <-. exists []. simpl. rewrite app_nil_r. auto.
  - apply bind_ok_inv in Hrun as [[] [w1 [Hone Hrest]]].
    destruct (replicate_extends _ _ _ _ _ _ _ _ _ _ Hone Hext)
      as [l [Hl Hext1]].
    destruct (IH _ _ _ _ Hrest Hext1) as [vals [Hlen [Hall Hext2]]].
    exists (l :: vals). split; [simpl; now rewrite Hlen |].
    split; [now constructor |].
    simpl. rewrite <- app_assoc in Hext2. exact Hext2.
Qed.

Lemma study_rows_each (start : nat) (vals : list (list (Metric * Metric))) :
  Forall (fun row => exists rep trial v, row = result_row rep trial v)
    (study_rows start vals).
Proof.
  assert (Htrial : forall rep l s,
             Forall (fun row => exists rep trial v, row = result_row rep trial v)
               (trial_rows rep s l)).
  { intros rep l. induction l as [| v l IH]; intros s; simpl;
      constructor; [now exists rep, s, v | apply IH]. }
  revert start. induction vals as [| l vals IH]; intros start; simpl.
  - constructor.
  - apply Forall_app. split; [apply Htrial | apply IH].
Qed.

Lemma log_store (e : Event) (w w' : World) (r : result unit) :
  StudyManager.log e w = (r, w') ->
  StudyManager.db w' = StudyManager.db w /\
  StudyManager.db_cursor w' = StudyManager.db_cursor w.
Proof. intros Heq. now injection Heq as _ <-. Qed.

Lemma randint_store (n : nat) (w w' : World) (r : result (list Z)) :
  StudyManager.randint n w = (r, w') ->
  StudyManager.db w' = StudyManager.db w /\
  StudyManager.db_cursor w' = StudyManager.db_cursor w.
Proof.
  unfold StudyManager.randint, bind. simpl. intros Heq.
  now apply with_rng_store in Heq.
Qed.

(** C3: a run with [R] replicates and [T] trials that returns started
    without a table of its label and leaves that table with exactly one
    row per replicate and trial, [R * T] in all, in replicate then trial
    order; each row holds the replicate, the trial number, the objective
    value and the tracked value.  The splitter is assumed to yield as many
    folds as it was built for. *)
Theorem completed_run_persists_one_row_per_trial
        (self : StudyManager.t) (w w' : World) :
  (forall k s sp X Y folds,
      StratifiedKFold k s = Ok sp -> skf_split sp X Y = Ok folds ->
      length folds = k) ->
  StudyManager.run self w = (Ok tt, w') ->
  let R := StudyConfig.no_replicates (StudyManager.study_config self) in
  let T := StudyConfig.no_trials (StudyManager.study_config self) in
  StudyManager.db w !! StudyManager.study_label self = None /\
  exists vals : list (list (Metric * Metric)),
    length vals = R /\
    Forall (fun l => length l = T) vals /\
    StudyManager.db w' !! StudyManager.study_label self
    = Some {| columns := ["replicate"; "trial"; "objective"; "bacc"];
              rows := study_rows 0 vals |} /\
    length (study_rows 0 vals) = R * T /\
    Forall (fun row => exists rep trial v, row = result_row rep trial v)
      (study_rows 0 vals).
Proof.
  intros Hfolds Hrun R T. unfold StudyManager.run in Hrun.
  apply bind_ok_inv in Hrun as [[] [w1 [H1 Hrun]]].
  apply seed_store in H1 as [Hd1 Hc1].
  apply bind_ok_inv in Hrun as [seeds [w2 [H2 Hrun]]].
  apply randint_store in H2 as [Hd2 Hc2].
  apply bind_ok_inv in Hrun as [[] [w3 [H3 Hrun]]].
  apply log_store in H3 as [Hd3 Hc3].
  apply bind_ok_inv in Hrun as [sp [w4 [H4 Hrun]]].
  unfold lift in H4. injection H4 as Hsp <-.
  apply bind_ok_inv in Hrun as [[] [w5 [H5 Hrun]]].
  apply log_store in H5 as [Hd5 Hc5].
  apply bind_ok_inv in Hrun as [dm [w6 [H6 Hrun]]].
  apply with_rng_store in H6 as [Hd6 Hc6].
  apply bind_ok_inv in Hrun as [[x y] [w7 [H7 Hrun]]].
  assert (Hd7 : StudyManager.db w7 = StudyManager.db w6).
  { destruct (DM.feature_splittable dm); [| discriminate].
    unfold bind, lift in H7. simpl in H7. now injection H7 as _ <-. }
  apply bind_ok_inv in Hrun as [[] [w8 [H8 Hrun]]].
  unfold StudyManager.init_db, bind in H8.
  cbn [StudyManager.log modify fst snd] in H8.
  pose proof (create_table_ok _ _ _ _ _ H8) as [Hfree [Hd8 [Hc8 _]]].
  cbn [StudyManager.db StudyManager.db_cursor] in Hfree, Hd8, Hc8.
  apply bind_ok_inv in Hrun as [[] [w9 [H9 Hrun]]].
  injection H9 as <-.
  apply bind_ok_inv in Hrun as [[] [w10 [H10 Hrun]]].
  injection H10 as <-.
  apply bind_ok_inv in Hrun as [folds [w11 [H11 Hrun]]].
  unfold lift in H11. injection H11 as Hsplit <-.
  pose (tbl := {| columns := ["replicate"; "trial"; "objective"; "bacc"];
                  rows := [] |}).
  apply (replicates_extend self seeds x y tbl folds 0 []) in Hrun.
  - destruct Hrun as [vals [Hlen [Hall [Hdb _]]]].
    split; [congruence |]. exists vals.
    assert (HR : length vals = R).
    { rewrite Hlen. eapply Hfolds; eassumption. }
    split; [exact HR |]. split; [exact Hall |].
    split; [exact Hdb |]. split.
    + now rewrite (study_rows_length 0 T vals Hall), HR.
    + apply study_rows_each.
  - split; simpl; [| reflexivity].
    rewrite Hd8. now rewrite lookup_insert_eq.
Qed.

End ResultRows.

(** ** The properties on concrete data *)

(** The double 0.7 lies in [0, 1]. *)
Lemma seven_tenths_in_unit_interval :
  py_float (7 # 10) = Finite (round_double (7 # 10)) /\
  (0 <= round_double (7 # 10))%Q /\ (round_double (7 # 10) <= 1)%Q.
Proof.
  split; [vm_compute; reflexivity |].
  split; apply Qle_bool_imp_le; vm_compute; reflexivity.
Qed.

(** Ten samples and the threshold 0.7: the float product is 7, so the
    sample with six null entries stays and all ten are kept. *)
Lemma SampleNullityDrop_run_keeps_below_tolerance_witness :
  exists p : Q,
    float_product (DM.len Demo.survey) (py_float (7 # 10)) = Ok (Finite p) /\
    Qfloor p = 7%Z /\
    SampleNullityDrop.run {| threshold := py_float (7 # 10) |} Demo.survey
    = Ok Demo.survey.
Proof.
  destruct seven_tenths_in_unit_interval as [H7 [H0 H1]].
  destruct (SampleNullityDrop_run_keeps_below_tolerance
              {| threshold := py_float (7 # 10) |} Demo.survey)
    as [_ Hunit].
  destruct (Hunit _ H7 H0 H1) as [p [Hp Hrun]];
    [vm_compute; reflexivity |].
  assert (Hfloor : Qfloor p = 7%Z).
  { vm_compute in Hp. injection Hp as <-. reflexivity. }
  exists p. split; [exact Hp |]. split; [exact Hfloor |].
  rewrite Hrun, Hfloor. reflexivity.
Defined.

(** With the doubles 0.3 and 0.7 as thresholds the ten samples give the
    tolerances 3 and 7: nine samples are kept under the smaller one, all
    ten under the larger. *)
Lemma SampleNullityDrop_threshold_monotone_witness :
  py_float (3 # 10) = Finite (round_double (3 # 10)) /\
  py_float (7 # 10) = Finite (round_double (7 # 10)) /\
  (round_double (3 # 10) <= round_double (7 # 10))%Q /\
  exists r1 r2 : DM.t,
    SampleNullityDrop.run {| threshold := py_float (3 # 10) |} Demo.survey
    = Ok r1 /\
    SampleNullityDrop.run {| threshold := py_float (7 # 10) |} Demo.survey
    = Ok r2 /\
    DM.len r1 = 9 /\ DM.len r2 = 10 /\ DM.len r1 <= DM.len r2.
Proof.
  assert (H3 : py_float (3 # 10) = Finite (round_double (3 # 10)))
    by (vm_compute; reflexivity).
  destruct seven_tenths_in_unit_interval as [H7 [_ H1]].
  assert (Hle : (round_double (3 # 10) <= round_double (7 # 10))%Q)
    by (apply round_double_mono; lra).
  split; [exact H3 |]. split; [exact H7 |]. split; [exact Hle |].
  destruct (SampleNullityDrop_threshold_monotone _ _ Demo.survey Hle)
    as [Hunit _].
  destruct Hunit as [r1 [r2 [Hr1 [Hr2 Hlen]]]].
  { apply round_double_nonneg. lra. }
  { exact H1. }
  { vm_compute. reflexivity. }
  rewrite H3, H7. exists r1, r2.
  split; [exact Hr1 |]. split; [exact Hr2 |].
  vm_compute in Hr1. vm_compute in Hr2.
  injection Hr1 as <-. injection Hr2 as <-.
  split; [reflexivity |]. split; [reflexivity |]. vm_compute. lia.
Defined.

(** On the ten samples with threshold 0.7 the tolerance is 7: feature
    [a], null in seven samples, stays, and feature [b], null in eight, is
    the one dropped. *)
Lemma FeatureNullityDrop_run_drops_above_tolerance_witness :
  DM.multi_feature Demo.survey = true /\
  feature_null_count Demo.survey "a" = 7%Z /\
  feature_null_count Demo.survey "b" = 8%Z /\
  exists (p : Q) (x' : DM.t),
    float_product (DM.len Demo.survey) (py_float (7 # 10)) = Ok (Finite p) /\
    Qfloor p = 7%Z /\
    FeatureNullityDrop.run {| threshold := py_float (7 # 10) |} Demo.survey
    = Ok x' /\
    DM.features x' = ["a"; "c"; "d"; "e"; "f"; "g"].
Proof.
  split; [reflexivity |]. split; [reflexivity |]. split; [reflexivity |].
  destruct seven_tenths_in_unit_interval as [H7 [H0 H1]].
  destruct (FeatureNullityDrop_run_drops_above_tolerance
              {| threshold := py_float (7 # 10) |} Demo.survey eq_refl)
    as [Hunit Hdrop].
  destruct (Hunit _ H7 H0 H1) as [p [Hp Hpos]]; [vm_compute; reflexivity |].
  destruct (Hdrop p Hp Hpos) as [x' [Hrun _]].
  assert (Hfloor : Qfloor p = 7%Z).
  { clear Hrun. vm_compute in Hp. injection Hp as <-. reflexivity. }
  exists p, x'. split; [exact Hp |]. split; [exact Hfloor |].
  split; [exact Hrun |].
  vm_compute in Hrun. injection Hrun as <-. reflexivity.
Defined.

(** Keeping and dropping [c] and [a], configured in that order, on the
    table with features [a], [b], [c]. *)
Lemma explicit_keep_drop_complementary_witness :
  DM.multi_feature Demo.table = true /\
  exists xk xd : DM.t,
    ExplicitKeep.run {| features := ["c"; "a"] |} Demo.table = Ok xk /\
    ExplicitDrop.run {| features := ["c"; "a"] |} Demo.table = Ok xd /\
    DM.features xk = ["a"; "c"] /\
    DM.features xd = ["b"].
Proof.
  split; [reflexivity |].
  destruct (explicit_keep_drop_complementary ["c"; "a"] Demo.table eq_refl)
    as [xk [xd [Hk [Hd [Hfk [Hfd _]]]]]].
  { intros s [<- | [<- | []]]; vm_compute; tauto. }
  exists xk, xd. split; [exact Hk |]. split; [exact Hd |].
  split; [rewrite Hfk | rewrite Hfd]; reflexivity.
Defined.

(** The three hooks on a container without the multi-feature
    capability. *)
Lemma single_feature_hooks_raise_TypeError_witness :
  DM.multi_feature Demo.series = false /\
  ExplicitDrop.run {| features := ["v"] |} Demo.series = Err TypeError /\
  ExplicitKeep.run {| features := ["v"] |} Demo.series = Err TypeError /\
  FeatureNullityDrop.run {| threshold := py_float (1 # 2) |} Demo.series
  = Err TypeError.
Proof.
  split; [reflexivity |].
  exact (single_feature_hooks_raise_TypeError
           {| features := ["v"] |} {| threshold := py_float (1 # 2) |}
           Demo.series eq_refl).
Defined.

(** The centring stand-in keeps two of three columns: both outputs of
    [run_fitted] carry [PC0] and [PC1]. *)
Lemma pca_outputs_carry_component_labels_witness :
  (exists (x_out : DM.t) self',
      PrincipalComponentAnalysis.run Demo.train (Demo.tuned (7 # 10))
      = (Ok (OutManager x_out), self') /\
      DM.len x_out = 3 /\
      DM.features x_out = ["PC0"; "PC1"]) /\
  (exists (train_out test_out : DM.t) self',
      PrincipalComponentAnalysis.run_fitted Demo.train (Some Demo.test)
        (Demo.tuned (7 # 10))
      = (Ok (OutManager train_out, OutManager test_out), self') /\
      DM.features train_out = ["PC0"; "PC1"] /\
      DM.features test_out = ["PC0"; "PC1"]).
Proof.
  pose (arr := [[Some (-9); Some (-9)]; [Some 0; Some 0]; [Some 9; Some 9]]%Z
               : ndarray).
  pose (arr_test := [[Some (-12); Some (-15)]; [Some (-6); Some (-9)]]%Z
                    : ndarray).
  assert (Hrect : Forall (fun row => length row = shape1 arr) arr)
    by (repeat constructor).
  assert (Hrect_t : Forall (fun row => length row = shape1 arr) arr_test)
    by (repeat constructor).
  destruct (@pca_outputs_carry_component_labels Demo.centring Demo.suggested
              (Demo.tuned (7 # 10)) (@PCA.new Demo.centring (7 # 10))
              {| Demo.count := 3; Demo.sums := [12; 15; 19]%Z; Demo.kept := 2 |}
              Demo.train Demo.test arr arr_test
              eq_refl eq_refl eq_refl eq_refl eq_refl eq_refl Hrect
              eq_refl eq_refl Hrect_t)
    as [[x_out [s1 [Hrun [Hlen [Hfeat _]]]]]
          [train_out [test_out [s2 [Hfit [Hft [Hfe _]]]]]]].
  split.
  - exists x_out, s1. split; [exact Hrun |]. split; [exact Hlen |].
    exact Hfeat.
  - exists train_out, test_out, s2. split; [exact Hfit |].
    split; [exact Hft |]. rewrite Hfe. exact Hft.
Defined.

Lemma demo_split_yields_all_folds
      (k : nat) (s : Z) (sp : @Splitter Demo.library) (X Y : ndarray)
      (folds : list (list nat * list nat)) :
  @StratifiedKFold Demo.library k s = Ok sp ->
  @skf_split Demo.library sp X Y = Ok folds ->
  length folds = k.
Proof.
  simpl. destruct (k <? 2)%nat; [discriminate |].
  intros Hsp. injection Hsp as <-.
  destruct (length X <? k)%nat; [discriminate |].
  intros Hfolds. injection Hfolds as <-.
  now rewrite length_map, length_seq.
Qed.

(** Three replicates of two trials on the six-sample dataset: the run
    returns and its table holds six rows. *)
Lemma completed_run_persists_one_row_per_trial_witness :
  let outcome := @StudyManager.run Demo.library Demo.manager Demo.start in
  fst outcome = Ok tt /\
  exists vals : list (list (nat * nat)),
    length vals = 3 /\
    StudyManager.db (snd outcome) !! "study__model__data"
    = Some {| columns := ["replicate"; "trial"; "objective"; "bacc"];
              rows := @study_rows Demo.library 0 vals |} /\
    length (@study_rows Demo.library 0 vals) = 6.
Proof.
  intros outcome.
  assert (Hret : fst outcome = Ok tt) by (vm_compute; reflexivity).
  assert (Hrun : @StudyManager.run Demo.library Demo.manager Demo.start
                 = (Ok tt, snd outcome)).
  { rewrite <- Hret. apply surjective_pairing. }
  split; [exact Hret |].
  destruct (@completed_run_persists_one_row_per_trial Demo.library
              Demo.manager Demo.start (snd outcome)
              demo_split_yields_all_folds Hrun)
    as [_ [vals [Hlen [_ [Hdb [Hrows _]]]]]].
  exists vals. split; [exact Hlen |]. split; [exact Hdb | exact Hrows].
Defined.

(** A hook built from an empty configuration: it raises until it is
    tuned, and once tuned with one half it keeps that transform through a
    fit. *)
Lemma untuned_hook_raises_tuned_hook_keeps_transform_witness :
  exists fresh tuned : @PrincipalComponentAnalysis.t Demo.centring Demo.suggested,
    @PrincipalComponentAnalysis.init Demo.centring Demo.suggested ∅ = Ok fresh /\
    Session.play [Session.CallRun Demo.train;
                  Session.CallRunFitted Demo.train (Some Demo.test)] fresh
    = ([Session.Raised AttributeError; Session.Raised AttributeError], fresh) /\
    @PrincipalComponentAnalysis.tune Demo.centring Demo.suggested (1 # 2)%Q fresh
    = (Ok tt, tuned) /\
    exists p,
      PrincipalComponentAnalysis.backing_pca
        (snd (Session.play [Session.CallRun Demo.train] tuned)) = Some p /\
      PCA.n_components p = (1 # 2)%Q.
Proof.
  destruct (@untuned_hook_raises_tuned_hook_keeps_transform
              Demo.centring Demo.suggested) as [_ [Hraise Hkeep]].
  pose (fresh := @PrincipalComponentAnalysis.mk Demo.centring Demo.suggested
                   (7 # 10)%Q None).
  exists fresh, (Demo.tuned (1 # 2)).
  split; [reflexivity |].
  split.
  { exact (Hraise ∅ fresh
             [Session.CallRun Demo.train;
              Session.CallRunFitted Demo.train (Some Demo.test)]
             eq_refl eq_refl). }
  split; [reflexivity |].
  destruct (Hkeep fresh (Demo.tuned (1 # 2)) (1 # 2)%Q
              [Session.CallRun Demo.train] eq_refl eq_refl)
    as [tuner [p [Htune [_ [Hp Hv]]]]].
  exists p. split; [exact Hp |].
  rewrite Hv. simpl in Htune. now injection Htune as <-.
Defined.

(** * Further properties of the hooks *)

(** ** Sample dropping at the ends of the tolerance range *)

Lemma py_int_below_one (q : Q) : (q < 1)%Q -> (py_int q <= 0)%Z.
Proof.
  destruct q as [n d]. unfold Qlt, py_int. simpl. intros Hlt.
  destruct (Z_lt_le_dec n 0) as [Hneg | Hpos].
  - destruct (Z.mul_quot_ge n (Z.pos d)) as [_ Hq]; [lia | lia |].
    destruct (Z_le_gt_dec (Z.quot n (Z.pos d)) 0) as [Hdone | Hgt];
      [exact Hdone | exfalso].
    assert (0 < Z.pos d * Z.quot n (Z.pos d))%Z
      by (apply Z.mul_pos_pos; lia).
    lia.
  - rewrite Z.quot_small by lia. lia.
Qed.

Lemma null_count_le_length (row : list cell) : null_count row <= length row.
Proof. unfold null_count. apply filter_length_le. Qed.

(** X1: when the float product [n_samples × threshold] is a finite number
    below 1 the tolerance is at most 0 and [SampleNullityDrop.run] drops
    every sample, those without a single null entry included. *)
Theorem SampleNullityDrop_low_tolerance_drops_every_sample
        (self : NullityDrop) (x : DM.t) (p : Q) :
  float_product (DM.len x) (threshold self) = Ok (Finite p) ->
  (p < 1)%Q ->
  SampleNullityDrop.run self x = Ok (DM.with_samples x []).
Proof.
  intros Hp Hlow.
  rewrite (SampleNullityDrop_run_with self x _
             (null_tolerance_finite self _ p Hp)).
  do 2 f_equal. apply filter_none. intros row _.
  apply Z.ltb_ge. pose proof (py_int_below_one _ Hlow). lia.
Qed.

(** Three samples without a null entry and the threshold 0.3: the float
    product is 0.8999999999999999 and nothing is kept. *)
Lemma SampleNullityDrop_low_tolerance_drops_every_sample_witness :
  (exists p : Q,
     float_product (DM.len Demo.train) (py_float (3 # 10)) = Ok (Finite p) /\
     (p < 1)%Q) /\
  SampleNullityDrop.run {| threshold := py_float (3 # 10) |} Demo.train
  = Ok (DM.with_samples Demo.train []).
Proof.
  assert (Hp : exists p : Q,
             float_product (DM.len Demo.train) (py_float (3 # 10))
             = Ok (Finite p) /\ (p < 1)%Q).
  { eexists. split; [vm_compute; reflexivity |].
    apply Qlt_alt. vm_compute. reflexivity. }
  split; [exact Hp |]. destruct Hp as [p [Hp Hlow]].
  exact (SampleNullityDrop_low_tolerance_drops_every_sample
           {| threshold := py_float (3 # 10) |} Demo.train p Hp Hlow).
Defined.

(** The product of seven samples and the double nearest 1/7 rounds to 1:
    the tolerance is 1 and the samples without a null entry are kept. *)
Remark seven_sevenths_round_to_one :
  null_tolerance {| threshold := py_float (1 # 7) |} 7 = Ok 1%Z /\
  null_tolerance {| threshold := py_float (7 # 10) |} 10 = Ok 7%Z /\
  null_tolerance {| threshold := py_float (3 # 10) |} 10 = Ok 3%Z /\
  null_tolerance {| threshold := py_float (29 # 50) |} 50 = Ok 28%Z.
Proof. repeat split; vm_compute; reflexivity. Qed.

(** X2: when the tolerance exceeds the length of every sample, that is
    the number of features, [SampleNullityDrop.run] returns the container
    as it is: no sample can be dropped, however many of its entries are
    null. *)
Theorem SampleNullityDrop_high_tolerance_keeps_every_sample
        (self : NullityDrop) (x : DM.t) (tol : Z) :
  null_tolerance self (DM.len x) = Ok tol ->
  Forall (fun row => (Z.of_nat (length row) < tol)%Z) (DM.samples x) ->
  SampleNullityDrop.run self x = Ok x.
Proof.
  intros Htol Hall.
  rewrite (SampleNullityDrop_run_with self x tol Htol).
  rewrite filter_every.
  - now destruct x.
  - intros row Hrow. rewrite List.Forall_forall in Hall.
    specialize (Hall row Hrow). apply Z.ltb_lt.
    pose proof (null_count_le_length row). lia.
Qed.

Lemma SampleNullityDrop_high_tolerance_keeps_every_sample_witness :
  null_tolerance {| threshold := py_float 1 |} (DM.len Demo.table) = Ok 4%Z /\
  SampleNullityDrop.run {| threshold := py_float 1 |} Demo.table
  = Ok Demo.table.
Proof.
  assert (Htol : null_tolerance {| threshold := py_float 1 |}
                   (DM.len Demo.table) = Ok 4%Z) by (vm_compute; reflexivity).
  split; [exact Htol |].
  apply (SampleNullityDrop_high_tolerance_keeps_every_sample
           {| threshold := py_float 1 |} Demo.table 4 Htol).
  repeat constructor.
Defined.

(** ** Feature dropping: repetition, thresholds *)

Lemma select_cols_nil (mask : list bool) : DM.select_cols mask [] = [].
Proof. now destruct mask. Qed.

Lemma select_cols_compose (p q : string -> bool) (ns : list string) :
  (forall n, q n = true -> p n = true) ->
  forall row,
    DM.select_cols (map q (List.filter p ns))
      (DM.select_cols (map p ns) row)
    = DM.select_cols (map q ns) row.
Proof.
  intros Himp. induction ns as [| n ns IH]; intros row; [reflexivity |].
  destruct row as [| c row].
  - now rewrite !select_cols_nil.
  - simpl. destruct (p n) eqn:Hp; simpl.
    + now rewrite IH.
    + destruct (q n) eqn:Hq; [| apply IH].
      apply Himp in Hq. congruence.
Qed.

Lemma select_cols_length (mask : list bool) (row : list cell) :
  length (DM.select_cols mask row) <= length (List.filter (fun b => b) mask).
Proof.
  revert row. induction mask as [| b mask IH]; intros [| c row]; simpl;
    try lia.
  destruct b; simpl; [specialize (IH row); lia | apply IH].
Qed.

Lemma select_cols_all (ns : list string) (row : list cell) :
  length row <= length ns ->
  DM.select_cols (map (fun n => negb (mem_str n [])) ns) row = row.
Proof.
  revert row. induction ns as [| n ns IH]; intros [| c row] Hlen;
    simpl in *; try reflexivity; try lia.
  now rewrite IH by lia.
Qed.

Lemma filter_mask_length (p : string -> bool) (ns : list string) :
  length (List.filter (fun b => b) (map p ns)) = length (List.filter p ns).
Proof.
  induction ns as [| n ns IH]; [reflexivity |]. simpl.
  destruct (p n); simpl; now rewrite IH.
Qed.

(** Dropping no feature gives the container back when no sample is longer
    than the feature list. *)
Lemma drop_features_nil (x : DM.t) :
  Forall (fun row => length row <= length (DM.names x)) (DM.samples x) ->
  DM.drop_features x [] = Ok x.
Proof.
  intros Hrows. unfold DM.drop_features. simpl.
  rewrite filter_every by reflexivity.
  destruct x as [mf fs ns rows]. unfold DM.with_columns. simpl in *.
  do 2 f_equal. induction Hrows as [| row rows Hrow _ IH]; [reflexivity |].
  simpl. now rewrite IH, select_cols_all.
Qed.

Lemma drop_features_rows_fit (x x' : DM.t) (unwanted : list string) :
  DM.drop_features x unwanted = Ok x' ->
  Forall (fun row => length row <= length (DM.names x')) (DM.samples x').
Proof.
  unfold DM.drop_features. destruct (DM.all_present unwanted x);
    [| discriminate].
  intros Heq. injection Heq as <-. simpl.
  apply List.Forall_forall. intros row Hrow.
  apply in_map_iff in Hrow as [row0 [<- _]].
  rewrite <- filter_mask_length. apply select_cols_length.
Qed.

(** A feature that stays has the null count it had. *)
Lemma counted_nulls_after_drop (x x' : DM.t) (unwanted : list string)
      (k : string) :
  DM.drop_features x unwanted = Ok x' ->
  ~ In k unwanted ->
  counted_nulls x' k = counted_nulls x k.
Proof.
  unfold DM.drop_features.
  destruct (DM.all_present unwanted x); [| discriminate].
  intros Heq Hkept. injection Heq as <-.
  unfold counted_nulls, FeatureNullityDrop.null_content,
    DM.get_features, DM.all_present. simpl.
  assert (Hmem : mem_str k (List.filter (fun n => negb (mem_str n unwanted))
                              (DM.names x))
                 = mem_str k (DM.names x)).
  { destruct (mem_str k (DM.names x)) eqn:Hin.
    - apply mem_str_In. apply filter_In. split.
      + now apply mem_str_In.
      + apply negb_true_iff. now apply mem_str_false.
    - apply mem_str_false. intros Hf. apply filter_In in Hf as [Hf _].
      apply mem_str_In in Hf. congruence. }
  rewrite Hmem. destruct (mem_str k (DM.names x)); simpl; [| reflexivity].
  f_equal. unfold DM.as_array. simpl. rewrite map_map. f_equal.
  apply map_ext. intros row. apply select_cols_compose.
  intros n Hn. apply negb_true_iff, mem_str_false. intros Hin.
  apply Hkept. simpl in Hn. rewrite orb_false_r in Hn.
  apply String.eqb_eq in Hn. now subst.
Qed.

(** X3: [FeatureNullityDrop.run] is idempotent: on its own result it drops
    nothing more and returns that result. *)
Theorem FeatureNullityDrop_run_idempotent
        (self : NullityDrop) (x x' : DM.t) :
  FeatureNullityDrop.run self x = Ok x' ->
  FeatureNullityDrop.run self x' = Ok x'.
Proof.
  unfold FeatureNullityDrop.run.
  destruct (DM.multi_feature x) eqn:Hm; simpl; [| discriminate].
  destruct (null_tolerance self (DM.len x)) as [tol | e] eqn:Htol.
  2: { unfold FeatureNullityDrop.drop_idx. rewrite Htol. discriminate. }
  rewrite (drop_idx_ok self x tol Htol). simpl. intros Hdrop.
  set (dropped := List.filter (fun k => (tol <? counted_nulls x k)%Z)
                    (DM.features x)) in *.
  destruct (drop_features_ok x dropped) as [y [Hy [Hfeat Hlen]]].
  { intros n Hn. apply filter_In in Hn. tauto. }
  assert (y = x') by congruence. subst y.
  assert (Hm' : DM.multi_feature x' = true).
  { unfold DM.drop_features in Hdrop.
    destruct (DM.all_present dropped x); [| discriminate].
    injection Hdrop as <-. exact Hm. }
  rewrite Hm'. simpl. rewrite <- Hlen in Htol.
  rewrite (drop_idx_ok self x' tol Htol). simpl.
  rewrite filter_none.
  - apply drop_features_nil. eapply drop_features_rows_fit. exact Hdrop.
  - intros k Hk. rewrite Hfeat in Hk. apply filter_In in Hk as [Hin Hout].
    apply negb_true_iff, mem_str_false in Hout.
    rewrite (counted_nulls_after_drop x x' dropped k Hdrop Hout).
    destruct (tol <? counted_nulls x k)%Z eqn:Hlt; [| reflexivity].
    exfalso. apply Hout. apply filter_In. now split.
Qed.

Lemma FeatureNullityDrop_run_idempotent_witness :
  exists x' : DM.t,
    FeatureNullityDrop.run {| threshold := py_float (1 # 2) |} Demo.table
    = Ok x' /\
    DM.features x' = ["a"; "c"] /\
    FeatureNullityDrop.run {| threshold := py_float (1 # 2) |} x' = Ok x'.
Proof.
  assert (Hrun : exists x' : DM.t,
             FeatureNullityDrop.run {| threshold := py_float (1 # 2) |}
               Demo.table = Ok x' /\ DM.features x' = ["a"; "c"]).
  { eexists. split; vm_compute; reflexivity. }
  destruct Hrun as [x' [Hrun Hfeat]].
  exists x'. split; [exact Hrun |]. split; [exact Hfeat |].
  exact (FeatureNullityDrop_run_idempotent
           {| threshold := py_float (1 # 2) |} Demo.table x' Hrun).
Defined.

Lemma feature_drop_monotone (t1 t2 : Q) (x : DM.t) (p1 p2 : Q) :
  DM.multi_feature x = true ->
  (t1 <= t2)%Q ->
  float_product (DM.len x) (Finite t1) = Ok (Finite p1) ->
  float_product (DM.len x) (Finite t2) = Ok (Finite p2) ->
  exists x1 x2 : DM.t,
    FeatureNullityDrop.run {| threshold := Finite t1 |} x = Ok x1 /\
    FeatureNullityDrop.run {| threshold := Finite t2 |} x = Ok x2 /\
    (forall k, In k (DM.features x1) -> In k (DM.features x2)) /\
    length (DM.features x1) <= length (DM.features x2).
Proof.
  intros Hm Hle Hp1 Hp2.
  pose (dropped := fun p : Q =>
          List.filter
            (fun k => (py_int p <? counted_nulls x k)%Z) (DM.features x)).
  destruct (drop_features_ok x (dropped p1)) as [x1 [H1 [Hf1 _]]].
  { intros n Hn. apply filter_In in Hn. tauto. }
  destruct (drop_features_ok x (dropped p2)) as [x2 [H2 [Hf2 _]]].
  { intros n Hn. apply filter_In in Hn. tauto. }
  assert (Htol : (py_int p1 <= py_int p2)%Z).
  { apply py_int_mono. exact (float_product_mono _ _ _ _ _ Hle Hp1 Hp2). }
  pose proof (null_tolerance_finite {| threshold := Finite t1 |} _ p1 Hp1)
    as Ht1.
  pose proof (null_tolerance_finite {| threshold := Finite t2 |} _ p2 Hp2)
    as Ht2.
  assert (Himp : forall k,
             negb (mem_str k (dropped p1)) = true ->
             In k (DM.features x) ->
             negb (mem_str k (dropped p2)) = true).
  { intros k Hk Hin. apply negb_true_iff, mem_str_false.
    apply negb_true_iff, mem_str_false in Hk.
    unfold dropped in *. rewrite filter_In in *. intros [_ Hlt].
    apply Hk. split; [exact Hin |].
    apply Z.ltb_lt in Hlt. apply Z.ltb_lt. lia. }
  exists x1, x2.
  unfold FeatureNullityDrop.run. rewrite Hm. simpl.
  rewrite (drop_idx_ok _ x _ Ht1), (drop_idx_ok _ x _ Ht2). simpl.
  split; [exact H1 |]. split; [exact H2 |]. rewrite Hf1, Hf2. split.
  - intros k Hk. apply filter_In in Hk as [Hin Hk]. apply filter_In.
    split; [exact Hin | now apply Himp].
  - clear -Himp. unfold DM.features in *.
    induction (DM.names x) as [| n ns IH]; simpl; [lia |].
    assert (IH' : length (List.filter (fun n => negb (mem_str n (dropped p1))) ns)
                  <= length (List.filter (fun n => negb (mem_str n (dropped p2))) ns)).
    { clear IH.
      assert (Hsub : forall l, (forall k, In k l -> In k (n :: ns)) ->
                length (List.filter (fun n => negb (mem_str n (dropped p1))) l)
                <= length (List.filter (fun n => negb (mem_str n (dropped p2))) l)).
      { induction l as [| m l IHl]; intros Hl; simpl; [lia |].
        specialize (IHl (fun k Hk => Hl k (or_intror Hk))).
        destruct (negb (mem_str m (dropped p1))) eqn:Hk1.
        - rewrite (Himp m Hk1 (Hl m (or_introl eq_refl))). simpl. lia.
        - destruct (negb (mem_str m (dropped p2))); simpl; lia. }
      apply Hsub. intros k Hk. now right. }
    destruct (negb (mem_str n (dropped p1))) eqn:Hk1.
    + rewrite (Himp n Hk1 (or_introl eq_refl)). simpl. lia.
    + destruct (negb (mem_str n (dropped p2))); simpl; lia.
Qed.

(** X4: for a fixed multi-feature container and thresholds [t1 <= t2],
    both runs return and the larger threshold drops no more features:
    every feature [FeatureNullityDrop.run] keeps under [t1] it keeps under
    [t2].  This holds for every pair of thresholds in [0, 1], and beyond
    that interval for every pair whose float products with the sample
    count are finite. *)
Theorem FeatureNullityDrop_threshold_monotone (t1 t2 : Q) (x : DM.t) :
  DM.multi_feature x = true ->
  (t1 <= t2)%Q ->
  ((0 <= t1)%Q -> (t2 <= 1)%Q -> (Z.of_nat (DM.len x) < 2 ^ 63)%Z ->
   exists x1 x2 : DM.t,
     FeatureNullityDrop.run {| threshold := Finite t1 |} x = Ok x1 /\
     FeatureNullityDrop.run {| threshold := Finite t2 |} x = Ok x2 /\
     (forall k, In k (DM.features x1) -> In k (DM.features x2)) /\
     length (DM.features x1) <= length (DM.features x2)) /\
  (forall p1 p2 : Q,
      float_product (DM.len x) (Finite t1) = Ok (Finite p1) ->
      float_product (DM.len x) (Finite t2) = Ok (Finite p2) ->
      exists x1 x2 : DM.t,
        FeatureNullityDrop.run {| threshold := Finite t1 |} x = Ok x1 /\
        FeatureNullityDrop.run {| threshold := Finite t2 |} x = Ok x2 /\
        (forall k, In k (DM.features x1) -> In k (DM.features x2)) /\
        length (DM.features x1) <= length (DM.features x2)).
Proof.
  intros Hm Hle. split.
  - intros H0 H1 Hlen.
    destruct (float_product_unit_interval (DM.len x) t1 Hlen H0)
      as [p1 [Hp1 _]]; [lra |].
    destruct (float_product_unit_interval (DM.len x) t2 Hlen)
      as [p2 [Hp2 _]]; [lra | exact H1 |].
    exact (feature_drop_monotone t1 t2 x p1 p2 Hm Hle Hp1 Hp2).
  - intros p1 p2. now apply feature_drop_monotone.
Qed.

(** With the doubles 0.3 and 0.7 on the ten samples the tolerances are 3
    and 7: features [a] and [b] go under the smaller threshold, only [b]
    under the larger. *)
Lemma FeatureNullityDrop_threshold_monotone_witness :
  (round_double (3 # 10) <= round_double (7 # 10))%Q /\
  exists x1 x2 : DM.t,
    FeatureNullityDrop.run {| threshold := py_float (3 # 10) |} Demo.survey
    = Ok x1 /\
    FeatureNullityDrop.run {| threshold := py_float (7 # 10) |} Demo.survey
    = Ok x2 /\
    DM.features x1 = ["c"; "d"; "e"; "f"; "g"] /\
    DM.features x2 = ["a"; "c"; "d"; "e"; "f"; "g"] /\
    length (DM.features x1) <= length (DM.features x2).
Proof.
  assert (H3 : py_float (3 # 10) = Finite (round_double (3 # 10)))
    by (vm_compute; reflexivity).
  destruct seven_tenths_in_unit_interval as [H7 [_ H1]].
  assert (Hle : (round_double (3 # 10) <= round_double (7 # 10))%Q)
    by (apply round_double_mono; lra).
  split; [exact Hle |].
  destruct (FeatureNullityDrop_threshold_monotone _ _ Demo.survey
              eq_refl Hle) as [Hunit _].
  destruct Hunit as [x1 [x2 [Hr1 [Hr2 [_ Hlen]]]]].
  { apply round_double_nonneg. lra. }
  { exact H1. }
  { vm_compute. reflexivity. }
  rewrite H3, H7. exists x1, x2.
  split; [exact Hr1 |]. split; [exact Hr2 |].
  vm_compute in Hr1. vm_compute in Hr2.
  injection Hr1 as <-. injection Hr2 as <-.
  split; [reflexivity |]. split; [reflexivity |]. exact Hlen.
Defined.

Lemma single_name_mask (k : string) (ns : list string) :
  List.NoDup ns ->
  length (List.filter (fun n => mem_str n [k]) ns) <= 1.
Proof.
  induction 1 as [| n ns Hout _ IH]; simpl; [lia |].
  rewrite orb_false_r. destruct (String.eqb_spec n k) as [-> | Hne];
    simpl; [| exact IH].
  rewrite filter_none; [simpl; lia |].
  intros m Hm. simpl. rewrite orb_false_r.
  apply String.eqb_neq. intros ->. contradiction.
Qed.

Lemma null_total_le (mask : list bool) (rows : list (list cell)) :
  length (List.filter (fun b => b) mask) <= 1 ->
  null_total (map (DM.select_cols mask) rows) <= length rows.
Proof.
  intros Hone. induction rows as [| row rows IH]; simpl; [lia |].
  pose proof (null_count_le_length (DM.select_cols mask row)).
  pose proof (select_cols_length mask row). lia.
Qed.

(** With distinct feature names a feature has at most one null entry per
    sample. *)
Lemma counted_nulls_le_len (x : DM.t) (k : string) :
  List.NoDup (DM.features x) ->
  (counted_nulls x k <= Z.of_nat (DM.len x))%Z.
Proof.
  intros Hnd. unfold counted_nulls, FeatureNullityDrop.null_content,
    DM.get_features.
  destruct (DM.all_present [k] x); simpl; [| lia].
  apply inj_le. unfold DM.as_array, DM.len. simpl.
  apply null_total_le. rewrite filter_mask_length.
  now apply single_name_mask.
Qed.

(** X5: with distinct feature names, fewer than 2^53 samples and a
    threshold of at least 1 whose float product with the sample count
    does not overflow, [FeatureNullityDrop.run] drops no feature; on a
    rectangular container it returns the container as it is. *)
Theorem FeatureNullityDrop_full_threshold_keeps_every_feature
        (t : Q) (x : DM.t) (p : Q) :
  DM.multi_feature x = true ->
  List.NoDup (DM.features x) ->
  (1 <= t)%Q ->
  (Z.of_nat (DM.len x) < 2 ^ 53)%Z ->
  float_product (DM.len x) (Finite t) = Ok (Finite p) ->
  exists x' : DM.t,
    FeatureNullityDrop.run {| threshold := Finite t |} x = Ok x' /\
    DM.features x' = DM.features x /\
    (Forall (fun row => length row = length (DM.features x)) (DM.samples x) ->
     x' = x).
Proof.
  intros Hm Hnd Hone Hlen Hp.
  pose proof (null_tolerance_finite {| threshold := Finite t |} _ p Hp)
    as Htol.
  assert (Hfull : (Z.of_nat (DM.len x) <= py_int p)%Z).
  { rewrite <- (py_int_inject (Z.of_nat (DM.len x))). apply py_int_mono.
    exact (float_product_at_least_count _ _ _ Hlen Hone Hp). }
  assert (Hnone : List.filter
                    (fun k => (py_int p <? counted_nulls x k)%Z)
                    (DM.features x)
                  = []).
  { apply filter_none. intros k _. apply Z.ltb_ge.
    pose proof (counted_nulls_le_len x k Hnd). lia. }
  destruct (drop_features_ok x []) as [x' [Hx' [Hfeat _]]];
    [intros n [] |].
  exists x'. unfold FeatureNullityDrop.run. rewrite Hm. simpl.
  rewrite (drop_idx_ok _ x _ Htol), Hnone. simpl.
  split; [exact Hx' |]. split.
  - rewrite Hfeat. now apply filter_every.
  - intros Hrect. rewrite drop_features_nil in Hx'; [congruence |].
    eapply List.Forall_impl; [| exact Hrect]. unfold DM.features.
    simpl. intros row Hrow. lia.
Qed.

Lemma FeatureNullityDrop_full_threshold_keeps_every_feature_witness :
  FeatureNullityDrop.run {| threshold := Finite 1 |} Demo.table
  = Ok Demo.table.
Proof.
  assert (Hp : exists p : Q,
             float_product (DM.len Demo.table) (Finite 1) = Ok (Finite p)).
  { eexists. vm_compute. reflexivity. }
  destruct Hp as [p Hp].
  destruct (FeatureNullityDrop_full_threshold_keeps_every_feature
              1 Demo.table p eq_refl)
    as [x' [Hrun [_ Hsame]]].
  - repeat constructor; simpl; intuition discriminate.
  - lra.
  - vm_compute. reflexivity.
  - exact Hp.
  - rewrite Hrun. f_equal. apply Hsame. repeat constructor.
Defined.

(** ** The hooks and a product that is not a finite number *)

(** X19: the two nullity hooks return exactly when the float product
    [n_samples × threshold] is a finite number.  An infinite product, or
    a sample count beyond the doubles, makes [int] raise [OverflowError],
    a NaN product makes it raise [ValueError], and both hooks raise with
    it. *)
Theorem nullity_hooks_return_iff_product_finite
        (self : NullityDrop) (x : DM.t) :
  DM.multi_feature x = true ->
  match float_product (DM.len x) (threshold self) with
  | Ok (Finite _) =>
      exists r1 r2 : DM.t,
        SampleNullityDrop.run self x = Ok r1 /\
        FeatureNullityDrop.run self x = Ok r2
  | Ok (Infinite _) =>
      SampleNullityDrop.run self x = Err OverflowError /\
      FeatureNullityDrop.run self x = Err OverflowError
  | Ok NaN =>
      SampleNullityDrop.run self x = Err ValueError /\
      FeatureNullityDrop.run self x = Err ValueError
  | Err e =>
      e = OverflowError /\
      SampleNullityDrop.run self x = Err OverflowError /\
      FeatureNullityDrop.run self x = Err OverflowError
  end.
Proof.
  intros Hm.
  pose proof (null_tolerance_product self (DM.len x)) as Htol.
  unfold SampleNullityDrop.run, SampleNullityDrop.keep_idx,
    FeatureNullityDrop.run, FeatureNullityDrop.drop_idx.
  rewrite Hm. cbn [negb].
  destruct (float_product (DM.len x) (threshold self)) as [[p | s |] | e]
    eqn:Hp; simpl in Htol.
  - pose proof (SampleNullityDrop_run_with self x _ Htol) as Hrun.
    unfold SampleNullityDrop.run, SampleNullityDrop.keep_idx in Hrun.
    pose proof (drop_idx_ok self x _ Htol) as Hdrop.
    unfold FeatureNullityDrop.drop_idx in Hdrop.
    destruct (drop_features_ok x
                (List.filter (fun k => (py_int p <? counted_nulls x k)%Z)
                   (DM.features x))) as [r2 [Hr2 _]].
    { intros n Hn. apply filter_In in Hn. tauto. }
    eexists. exists r2. split; [exact Hrun |].
    rewrite Hdrop. simpl. exact Hr2.
  - rewrite Htol. now split.
  - rewrite Htol. now split.
  - rewrite Htol. unfold float_product, float_of_int in Hp.
    destruct (binary64 (inject_Z (Z.of_nat (DM.len x)))); [discriminate |].
    injection Hp as <-. now repeat split.
Qed.

(** A NaN threshold, and one beyond the range of doubles, on the
    four-sample table. *)
Lemma nullity_hooks_return_iff_product_finite_witness :
  DM.multi_feature Demo.table = true /\
  py_float (10 ^ 400) = Infinite false /\
  SampleNullityDrop.run {| threshold := NaN |} Demo.table = Err ValueError /\
  FeatureNullityDrop.run {| threshold := NaN |} Demo.table = Err ValueError /\
  SampleNullityDrop.run {| threshold := py_float (10 ^ 400) |} Demo.table
  = Err OverflowError /\
  FeatureNullityDrop.run {| threshold := py_float (10 ^ 400) |} Demo.table
  = Err OverflowError.
Proof.
  split; [reflexivity |]. split; [vm_compute; reflexivity |].
  pose proof (nullity_hooks_return_iff_product_finite
                {| threshold := NaN |} Demo.table eq_refl) as Hnan.
  pose proof (nullity_hooks_return_iff_product_finite
                {| threshold := py_float (10 ^ 400) |} Demo.table eq_refl)
    as Hinf.
  assert (Pnan : float_product (DM.len Demo.table) NaN = Ok NaN)
    by (vm_compute; reflexivity).
  assert (Pinf : float_product (DM.len Demo.table) (py_float (10 ^ 400))
                 = Ok (Infinite false)) by (vm_compute; reflexivity).
  cbn [threshold] in Hnan, Hinf. rewrite Pnan in Hnan. rewrite Pinf in Hinf.
  destruct Hnan as [Hn1 Hn2], Hinf as [Hi1 Hi2].
  now repeat split.
Defined.

(** * Further properties of the PCA hook *)

Section PCAHookMore.
Context `{Decomposition} `{Tuning}.

Local Abbreviation hook := PrincipalComponentAnalysis.t.
Local Abbreviation mk_hook := PrincipalComponentAnalysis.mk.

Lemma bind_same {S A B : Type} (m : M S A) (k : A -> M S B) (s1 s2 : S) :
  m s1 = m s2 -> bind m k s1 = bind m k s2.
Proof. intros Heq. unfold bind. now rewrite Heq. Qed.

Lemma bind_err {S A B : Type} (m : M S A) (k : A -> M S B) (s s' : S)
      (e : error) :
  m s = (Err e, s') -> bind m k s = (Err e, s').
Proof. intros Heq. unfold bind. now rewrite Heq. Qed.

Lemma on_backing_fit_forgets (h1 h2 : hook) (p1 p2 : PCA.t) (X : ndarray) :
  PrincipalComponentAnalysis.prop_tuner h1
  = PrincipalComponentAnalysis.prop_tuner h2 ->
  PrincipalComponentAnalysis.backing_pca h1 = Some p1 ->
  PrincipalComponentAnalysis.backing_pca h2 = Some p2 ->
  PCA.n_components p1 = PCA.n_components p2 ->
  PrincipalComponentAnalysis.on_backing PCA.fit_transform X h1
  = PrincipalComponentAnalysis.on_backing PCA.fit_transform X h2 \/
  exists e s1 s2,
    PrincipalComponentAnalysis.on_backing PCA.fit_transform X h1
    = (Err e, s1) /\
    PrincipalComponentAnalysis.on_backing PCA.fit_transform X h2
    = (Err e, s2).
Proof.
  intros Ht Hb1 Hb2 Hn. unfold PrincipalComponentAnalysis.on_backing.
  rewrite Hb1, Hb2, Ht. unfold PCA.fit_transform. rewrite Hn.
  destruct (pca_fit (PCA.n_components p2) X) as [f | e].
  - now left.
  - right. now exists e; do 2 eexists.
Qed.

(** X6: [run] and [run_fitted] start from a new fit every time: on two
    hooks tuned to the same value they have the same outcome, and when they
    return they leave both hooks in the same state, whatever either was
    fitted on before. *)
Theorem run_forgets_earlier_fits
        (h1 h2 : hook) (p1 p2 : PCA.t) (x : DM.t) (x_test : option DM.t) :
  PrincipalComponentAnalysis.prop_tuner h1
  = PrincipalComponentAnalysis.prop_tuner h2 ->
  PrincipalComponentAnalysis.backing_pca h1 = Some p1 ->
  PrincipalComponentAnalysis.backing_pca h2 = Some p2 ->
  PCA.n_components p1 = PCA.n_components p2 ->
  (fst (PrincipalComponentAnalysis.run x h1)
   = fst (PrincipalComponentAnalysis.run x h2) /\
   forall out s,
     PrincipalComponentAnalysis.run x h1 = (Ok out, s) ->
     PrincipalComponentAnalysis.run x h2 = (Ok out, s)) /\
  (fst (PrincipalComponentAnalysis.run_fitted x x_test h1)
   = fst (PrincipalComponentAnalysis.run_fitted x x_test h2) /\
   forall out s,
     PrincipalComponentAnalysis.run_fitted x x_test h1 = (Ok out, s) ->
     PrincipalComponentAnalysis.run_fitted x x_test h2 = (Ok out, s)).
Proof.
  intros Ht Hb1 Hb2 Hn.
  destruct (on_backing_fit_forgets h1 h2 p1 p2 (DM.as_array x)
              Ht Hb1 Hb2 Hn) as [Hsame | [e [s1 [s2 [He1 He2]]]]].
  - unfold PrincipalComponentAnalysis.run,
      PrincipalComponentAnalysis.run_fitted.
    destruct (DM.multi_feature x);
      rewrite !(bind_same _ _ h1 h2 Hsame); repeat split; auto.
  - unfold PrincipalComponentAnalysis.run,
      PrincipalComponentAnalysis.run_fitted.
    destruct (DM.multi_feature x);
      rewrite !(bind_err _ _ h1 s1 e He1), !(bind_err _ _ h2 s2 e He2);
      repeat split; intros; discriminate.
Qed.

(** X7: the training output of [run_fitted] is what [run] returns on the
    training data alone. *)
Theorem run_fitted_train_output_is_run_output
        (self self' : hook) (x_train : DM.t) (x_test : option DM.t)
        (train_out test_out : hook_out) :
  PrincipalComponentAnalysis.run_fitted x_train x_test self
  = (Ok (train_out, test_out), self') ->
  exists self'',
    PrincipalComponentAnalysis.run x_train self = (Ok train_out, self'').
Proof.
  unfold PrincipalComponentAnalysis.run_fitted,
    PrincipalComponentAnalysis.run.
  destruct (DM.multi_feature x_train); intros Hrun.
  - apply bind_ok_inv in Hrun as [tmp [s1 [Hfit Hrun]]].
    apply bind_ok_inv in Hrun as [x_out [s2 [Hrel Hrun]]].
    unfold lift in Hrel. injection Hrel as Hrel <-.
    apply bind_ok_inv in Hrun as [xt [s3 [_ Hrun]]].
    apply bind_ok_inv in Hrun as [tmp_t [s4 [_ Hrun]]].
    apply bind_ok_inv in Hrun as [xt' [s5 [_ Hrun]]].
    apply bind_ok_inv in Hrun as [t_out [s6 [_ Hrun]]].
    unfold ret in Hrun. injection Hrun as <- _ _.
    exists s1. unfold bind. rewrite Hfit. unfold lift. now rewrite Hrel.
  - apply bind_ok_inv in Hrun as [tmp [s1 [Hfit Hrun]]].
    apply bind_ok_inv in Hrun as [xt [s2 [_ Hrun]]].
    apply bind_ok_inv in Hrun as [tmp_t [s3 [_ Hrun]]].
    unfold ret in Hrun. injection Hrun as <- _ _.
    exists s1. unfold bind. now rewrite Hfit.
Qed.

Lemma on_backing_fit_inv (self s1 : hook) (X tmp : ndarray) :
  PrincipalComponentAnalysis.on_backing PCA.fit_transform X self
  = (Ok tmp, s1) ->
  exists p f,
    PrincipalComponentAnalysis.backing_pca self = Some p /\
    pca_fit (PCA.n_components p) X = Ok f /\
    pca_apply f X = Ok tmp /\
    s1 = mk_hook (PrincipalComponentAnalysis.prop_tuner self)
           (Some (PCA.mk (PCA.n_components p) (Some f))).
Proof.
  unfold PrincipalComponentAnalysis.on_backing.
  destruct (PrincipalComponentAnalysis.backing_pca self) as [p |];
    [| discriminate].
  unfold PCA.fit_transform.
  destruct (pca_fit (PCA.n_components p) X) as [f | e] eqn:Hf;
    [| discriminate].
  intros Heq. injection Heq as Happ <-. now exists p, f.
Qed.

(** X8: on the multi-feature path a [run_fitted] that returns has fitted
    the transform on the training data only, leaves the hook with that
    fit, and has mapped the test data with it. *)
Theorem run_fitted_multi_feature_maps_test_with_train_fit
        (self self' : hook) (x_train x_test : DM.t)
        (train_out test_out : hook_out) :
  DM.multi_feature x_train = true ->
  PrincipalComponentAnalysis.run_fitted x_train (Some x_test) self
  = (Ok (train_out, test_out), self') ->
  exists (p : PCA.t) (f : fitted) (tmp_train tmp_test : ndarray)
         (t_out : DM.t),
    PrincipalComponentAnalysis.backing_pca self = Some p /\
    pca_fit (PCA.n_components p) (DM.as_array x_train) = Ok f /\
    pca_apply f (DM.as_array x_train) = Ok tmp_train /\
    PrincipalComponentAnalysis.backing_pca self'
    = Some (PCA.mk (PCA.n_components p) (Some f)) /\
    pca_apply f (DM.as_array x_test) = Ok tmp_test /\
    PrincipalComponentAnalysis.relabel x_test
      (PrincipalComponentAnalysis.pc_labels (shape1 tmp_train)) tmp_test
    = Ok t_out /\
    test_out = OutManager t_out.
Proof.
  intros Hm Hrun. unfold PrincipalComponentAnalysis.run_fitted in Hrun.
  rewrite Hm in Hrun.
  apply bind_ok_inv in Hrun as [tmp [s1 [Hfit Hrun]]].
  apply on_backing_fit_inv in Hfit as [p [f [Hb [Hf [Happ ->]]]]].
  apply bind_ok_inv in Hrun as [x_out [s2 [Hrel Hrun]]].
  unfold lift in Hrel. injection Hrel as Hrel <-.
  apply bind_ok_inv in Hrun as [xt [s3 [Hxt Hrun]]].
  unfold lift in Hxt. simpl in Hxt. injection Hxt as <- <-.
  apply bind_ok_inv in Hrun as [tmp_t [s4 [Htr Hrun]]].
  rewrite (on_backing_transform _ (PCA.mk (PCA.n_components p) (Some f)) f)
    in Htr by reflexivity.
  injection Htr as Htr <-.
  apply bind_ok_inv in Hrun as [xt' [s5 [Hmix Hrun]]].
  unfold lift, DM.mixin in Hmix.
  destruct (DM.multi_feature x_test); [| discriminate].
  injection Hmix as <- <-.
  apply bind_ok_inv in Hrun as [t_out [s6 [Hrel_t Hrun]]].
  unfold lift in Hrel_t. injection Hrel_t as Hrel_t <-.
  unfold ret in Hrun. injection Hrun as <- <- <-.
  exists p, f, tmp, tmp_t, t_out. simpl. auto 10.
Qed.

Lemma relabel_inv (x x' : DM.t) (k : nat) (arr : ndarray) :
  PrincipalComponentAnalysis.relabel x
    (PrincipalComponentAnalysis.pc_labels k) arr = Ok x' ->
  DM.features x' = PrincipalComponentAnalysis.pc_labels k /\
  DM.len x' = DM.len x.
Proof.
  unfold PrincipalComponentAnalysis.relabel.
  destruct (drop_features_ok x (DM.features x)) as [x0 [Hx0 [Hf0 Hl0]]];
    [auto |].
  rewrite Hx0. simpl. unfold DM.features in Hf0.
  rewrite filter_all_out in Hf0. unfold DM.set_features.
  destruct (DM.fits x0 _ arr) eqn:Hfits; [| discriminate].
  intros Heq. injection Heq as <-.
  unfold DM.fits in Hfits. apply andb_true_iff in Hfits as [Hlen _].
  apply Nat.eqb_eq in Hlen.
  destruct (assign_from_fresh (PrincipalComponentAnalysis.pc_labels k)
              0 x0 arr Hlen) as [Hn Hl].
  - rewrite Hf0. simpl. apply pc_labels_NoDup.
  - unfold DM.features. rewrite Hn, Hf0, Hl, Hl0. now split.
Qed.

(** X9: whenever [run] returns on a multi-feature container, the output
    is a container with as many samples as the input whose features are
    [PC0], [PC1], ... up to the width of the transformed array, all
    distinct. *)
Theorem run_output_features_distinct
        (self self' : hook) (x : DM.t) (out : hook_out) :
  DM.multi_feature x = true ->
  PrincipalComponentAnalysis.run x self = (Ok out, self') ->
  exists (x_out : DM.t) (k : nat),
    out = OutManager x_out /\
    DM.features x_out = PrincipalComponentAnalysis.pc_labels k /\
    length (DM.features x_out) = k /\
    List.NoDup (DM.features x_out) /\
    DM.len x_out = DM.len x.
Proof.
  intros Hm Hrun. unfold PrincipalComponentAnalysis.run in Hrun.
  rewrite Hm in Hrun.
  apply bind_ok_inv in Hrun as [tmp [s1 [_ Hrun]]].
  apply bind_ok_inv in Hrun as [x_out [s2 [Hrel Hrun]]].
  unfold lift in Hrel. injection Hrel as Hrel <-.
  unfold ret in Hrun. injection Hrun as <- _.
  apply relabel_inv in Hrel as [Hfeat Hlen].
  exists x_out, (shape1 tmp). rewrite Hfeat.
  split; [reflexivity |]. split; [reflexivity |].
  split; [apply pc_labels_length |].
  split; [apply pc_labels_NoDup | exact Hlen].
Qed.

End PCAHookMore.

(** The hook tuned to 7/10 and the same hook after a [run] on other data
    give the same outcome on the training data. *)
Lemma run_forgets_earlier_fits_witness :
  let fresh := Demo.tuned (7 # 10) in
  let used := snd (PrincipalComponentAnalysis.run Demo.test fresh) in
  option_map (@PCA.fit_state Demo.centring)
    (PrincipalComponentAnalysis.backing_pca used)
  = Some (Some {| Demo.count := 2; Demo.sums := [2; 2; 3]%Z; Demo.kept := 2 |}) /\
  fst (PrincipalComponentAnalysis.run Demo.train fresh)
  = fst (PrincipalComponentAnalysis.run Demo.train used).
Proof.
  intros fresh used. split; [reflexivity |].
  refine (proj1 (proj1 (@run_forgets_earlier_fits Demo.centring Demo.suggested
                          fresh used (@PCA.new Demo.centring (7 # 10))
                          (@PCA.mk Demo.centring (7 # 10)
                             (Some {| Demo.count := 2;
                                      Demo.sums := [2; 2; 3]%Z;
                                      Demo.kept := 2 |}))
                          Demo.train None eq_refl eq_refl eq_refl eq_refl))).
Defined.

Lemma run_fitted_train_output_is_run_output_witness :
  exists out : hook_out * hook_out,
    fst (PrincipalComponentAnalysis.run_fitted Demo.train (Some Demo.test)
           (Demo.tuned (7 # 10))) = Ok out /\
    fst (PrincipalComponentAnalysis.run Demo.train (Demo.tuned (7 # 10)))
    = Ok (fst out).
Proof.
  destruct (PrincipalComponentAnalysis.run_fitted Demo.train (Some Demo.test)
              (Demo.tuned (7 # 10))) as [[[a b] | e] s] eqn:Hrun.
  - destruct (@run_fitted_train_output_is_run_output
                Demo.centring Demo.suggested _ _ _ _ _ _ Hrun) as [s' Hr].
    exists (a, b). rewrite Hr. split; reflexivity.
  - vm_compute in Hrun. discriminate.
Defined.

Lemma run_fitted_multi_feature_maps_test_with_train_fit_witness :
  exists (out : hook_out * hook_out) (f : Demo.centre),
    fst (PrincipalComponentAnalysis.run_fitted Demo.train (Some Demo.test)
           (Demo.tuned (7 # 10))) = Ok out /\
    Demo.centre_fit (7 # 10) (DM.as_array Demo.train) = Ok f /\
    option_map (@PCA.fit_state Demo.centring)
      (PrincipalComponentAnalysis.backing_pca
         (snd (PrincipalComponentAnalysis.run_fitted Demo.train
                 (Some Demo.test) (Demo.tuned (7 # 10)))))
    = Some (Some f).
Proof.
  destruct (PrincipalComponentAnalysis.run_fitted Demo.train (Some Demo.test)
              (Demo.tuned (7 # 10))) as [[[a b] | e] s] eqn:Hrun.
  - destruct (@run_fitted_multi_feature_maps_test_with_train_fit
                Demo.centring Demo.suggested (Demo.tuned (7 # 10)) s
                Demo.train Demo.test a b eq_refl Hrun)
      as [p [f [tmp [tmp_t [t_out [Hb [Hf [_ [Hs _]]]]]]]]].
    injection Hb as <-. exists (a, b), f. simpl. rewrite Hs.
    split; [reflexivity |]. split; [exact Hf | reflexivity].
  - vm_compute in Hrun. discriminate.
Defined.

Lemma run_output_features_distinct_witness :
  exists x_out : DM.t,
    fst (PrincipalComponentAnalysis.run Demo.train (Demo.tuned (7 # 10)))
    = Ok (OutManager x_out) /\
    List.NoDup (DM.features x_out) /\
    DM.len x_out = 3.
Proof.
  destruct (PrincipalComponentAnalysis.run Demo.train (Demo.tuned (7 # 10)))
    as [[out | e] s] eqn:Hrun.
  - destruct (@run_output_features_distinct Demo.centring Demo.suggested
                (Demo.tuned (7 # 10)) s Demo.train out eq_refl Hrun) as [x_out [k [-> [_ [_ [Hnd Hlen]]]]]].
    exists x_out. split; [reflexivity |]. split; [exact Hnd | exact Hlen].
  - vm_compute in Hrun. discriminate.
Defined.

(** * Further properties of the study manager *)

Section StoreFrame.
Context `{Collaborators}.

Local Abbreviation World := StudyManager.World.

Lemma spares_store_bind {A B : Type} (m : M World A) (k : A -> M World B) :
  spares_store m -> (forall a, spares_store (k a)) -> spares_store (bind m k).
Proof.
  intros Hm Hk w. unfold bind. destruct (Hm w) as [Hd Hc].
  destruct (m w) as [[a | e] w1]; simpl in *; [| now split].
  destruct (Hk a w1) as [Hd' Hc']. split; congruence.
Qed.

Lemma spares_store_log (e : Event) : spares_store (StudyManager.log e).
Proof. intros w. now split. Qed.

Lemma spares_store_with_rng {A : Type} (m : M RNG A) :
  spares_store (StudyManager.with_rng m).
Proof.
  intros w. unfold StudyManager.with_rng.
  now destruct (m (StudyManager.rng w)).
Qed.

Lemma spares_store_lift {A : Type} (r : result A) :
  spares_store (@lift World A r).
Proof. intros w. now split. Qed.

Lemma spares_store_raise {A : Type} (e : error) :
  spares_store (@raise World A e).
Proof. intros w. now split. Qed.

Lemma spares_store_seed (s : Z) : spares_store (StudyManager.seed s).
Proof.
  unfold StudyManager.seed. apply spares_store_bind;
    [apply spares_store_log | intros _; apply spares_store_with_rng].
Qed.

Lemma spares_store_randint (n : nat) : spares_store (StudyManager.randint n).
Proof.
  unfold StudyManager.randint. apply spares_store_bind;
    [apply spares_store_log | intros _; apply spares_store_with_rng].
Qed.

Lemma spares_store_pop (dm : DM.t) (target : list string) :
  spares_store
    (if DM.feature_splittable dm then
       (_ <- StudyManager.log (EvPopFeatures target) ;;
        lift (DM.pop_features dm target))%st
     else raise NotImplementedError).
Proof.
  destruct (DM.feature_splittable dm).
  - apply spares_store_bind;
      [apply spares_store_log | intros _; apply spares_store_lift].
  - apply spares_store_raise.
Qed.

Lemma refuses_after {A B : Type} (name : string)
      (m : M World A) (k : A -> M World B) :
  spares_store m -> (forall a, refuses_existing name (k a)) ->
  refuses_existing name (bind m k).
Proof.
  intros Hm Hk w Hsome. unfold bind. destruct (Hm w) as [Hd _].
  destruct (m w) as [[a | e] w1]; simpl in *.
  - destruct (Hk a w1) as [He Hd']; [now rewrite Hd |].
    split; [exact He | congruence].
  - split; [now exists e | exact Hd].
Qed.

Lemma init_db_refuses {B : Type} (self : StudyManager.t)
      (k : unit -> M World B) :
  refuses_existing (StudyManager.study_label self)
    (bind (StudyManager.init_db self) k).
Proof.
  intros w [tbl Htbl].
  assert (Hinit : StudyManager.init_db self w
                  = (Err OperationalError,
                     snd (StudyManager.log
                            (EvCreateTable (StudyManager.study_label self)) w))).
  { unfold StudyManager.init_db, bind.
    cbn [StudyManager.log modify fst snd].
    apply create_table_existing. simpl. now exists tbl. }
  unfold bind. rewrite Hinit.
  split; [now exists OperationalError | reflexivity].
Qed.

(** X10: a run against a store that already holds a table of the study's
    label raises and leaves the store as it was: an earlier study's rows
    are neither overwritten nor added to. *)
Theorem run_refuses_existing_table (self : StudyManager.t) (w : World) :
  is_Some (StudyManager.db w !! StudyManager.study_label self) ->
  (exists e, fst (StudyManager.run self w) = Err e) /\
  StudyManager.db (snd (StudyManager.run self w)) = StudyManager.db w.
Proof.
  revert w. change (refuses_existing (StudyManager.study_label self)
                      (StudyManager.run self)).
  unfold StudyManager.run.
  apply refuses_after; [apply spares_store_seed | intros _].
  apply refuses_after; [apply spares_store_randint | intros seeds].
  apply refuses_after; [apply spares_store_log | intros _].
  apply refuses_after; [apply spares_store_lift | intros sp].
  apply refuses_after; [apply spares_store_log | intros _].
  apply refuses_after; [apply spares_store_with_rng | intros dm].
  apply refuses_after; [apply spares_store_pop | intros [x y]].
  apply init_db_refuses.
Qed.

End StoreFrame.

Lemma run_refuses_existing_table_witness :
  fst (@StudyManager.run Demo.library Demo.manager Demo.earlier)
  = Err OperationalError /\
  StudyManager.db (snd (@StudyManager.run Demo.library Demo.manager
                          Demo.earlier))
  = StudyManager.db Demo.earlier.
Proof.
  split; [vm_compute; reflexivity |].
  apply (@run_refuses_existing_table Demo.library Demo.manager Demo.earlier).
  eexists. reflexivity.
Defined.

Section OtherTables.
Context `{Collaborators}.

Local Abbreviation World := StudyManager.World.

Lemma spares_others_bind {A B : Type} (name : string)
      (m : M World A) (k : A -> M World B) :
  spares_others name m -> (forall a, spares_others name (k a)) ->
  spares_others name (bind m k).
Proof.
  intros Hm Hk w other Hne. unfold bind. specialize (Hm w other Hne).
  destruct (m w) as [[a | e] w1]; simpl in *; [| exact Hm].
  now rewrite (Hk a w1 other Hne).
Qed.

Lemma spares_store_others {A : Type} (name : string) (m : M World A) :
  spares_store m -> spares_others name m.
Proof. intros Hm w other _. destruct (Hm w) as [Hd _]. now rewrite Hd. Qed.

Lemma spares_others_create (name : string) (cols : list string) :
  spares_others name (StudyManager.create_table name cols).
Proof.
  intros w other Hne.
  destruct (StudyManager.create_table name cols w) as [[[] | e] w'] eqn:Hrun.
  - apply create_table_ok in Hrun as [_ [Hdb _]]. simpl. rewrite Hdb.
    now apply lookup_insert_ne.
  - apply create_table_err in Hrun as [_ ->]. reflexivity.
Qed.

Lemma spares_others_insert (name : string) (vals : list string) :
  spares_others name (StudyManager.insert_row name vals).
Proof.
  intros w other Hne.
  destruct (StudyManager.insert_row name vals w) as [[[] | e] w'] eqn:Hrun.
  - apply insert_row_ok in Hrun as [tbl [_ [_ [Hdb _]]]]. simpl.
    rewrite Hdb. now apply lookup_insert_ne.
  - apply insert_row_err in Hrun as [_ ->]. reflexivity.
Qed.

Lemma spares_store_get : spares_store (@get World).
Proof. intros w. now split. Qed.

Lemma spares_store_ret {A : Type} (a : A) : spares_store (@ret World A a).
Proof. intros w. now split. Qed.

Ltac spares_step :=
  first [ apply spares_others_create
        | apply spares_others_insert
        | apply spares_store_others;
          first [ apply spares_store_seed
                | apply spares_store_randint
                | apply spares_store_pop
                | apply spares_store_log
                | apply spares_store_with_rng
                | apply spares_store_lift
                | apply spares_store_raise
                | apply spares_store_ret
                | apply spares_store_get ]
        | apply spares_others_bind; [| intros ?] ].

Lemma spares_others_save_results (self : StudyManager.t) (rep n : nat)
      (ms : list (string * Metric)) :
  spares_others (StudyManager.study_label self)
    (StudyManager.save_results self rep n ms).
Proof.
  unfold StudyManager.save_results.
  apply spares_others_bind; [spares_step | intros w0].
  apply spares_others_bind;
    [destruct (StudyManager.db_cursor w0); spares_step | intros _].
  repeat spares_step.
Qed.

Lemma spares_others_opt_func (self : StudyManager.t) (rep : nat)
      (train_x train_y test_x test_y : DM.t) (trial : OptunaTrial Metric) :
  spares_others (StudyManager.study_label self)
    (StudyManager.opt_func self rep train_x train_y test_x test_y trial).
Proof.
  unfold StudyManager.opt_func.
  apply spares_others_bind; [spares_step | intros _].
  apply spares_others_bind; [spares_step | intros model].
  apply spares_others_bind; [spares_step | intros _].
  apply spares_others_bind; [spares_step | intros model'].
  apply spares_others_bind; [spares_step | intros [obj_val metric_vals]].
  apply spares_others_bind; [apply spares_others_save_results | intros _].
  spares_step.
Qed.

Lemma spares_others_optimize (name : string)
      (func : OptunaTrial Metric -> M World Metric)
      (study : string) (sampler : Z) (n : nat) :
  (forall trial, spares_others name (func trial)) ->
  forall past,
    spares_others name (StudyManager.optimize func study sampler n past).
Proof.
  intros Hf. induction n as [| n IH]; intros past; simpl.
  - spares_step.
  - apply spares_others_bind; [apply Hf | intros v; apply IH].
Qed.

Lemma spares_others_replicates (self : StudyManager.t) (seeds : list Z)
      (x y : DM.t) (folds : list (list nat * list nat)) :
  forall i,
    spares_others (StudyManager.study_label self)
      (StudyManager.replicates self seeds x y i folds).
Proof.
  induction folds as [| [train_idx test_idx] folds IH]; intros i; simpl.
  - spares_step.
  - apply spares_others_bind; [| intros _; apply IH].
    unfold StudyManager.replicate.
    apply spares_others_bind; [spares_step | intros s].
    apply spares_others_bind; [spares_step | intros _].
    apply spares_others_bind; [spares_step | intros [train_x test_x]].
    apply spares_others_bind; [spares_step | intros train_y].
    apply spares_others_bind; [spares_step | intros test_y].
    unfold StudyManager.run_supervised. apply spares_others_optimize.
    intros trial. apply spares_others_opt_func.
Qed.

(** X11: whatever its outcome, a run touches no table but the one named
    by its own study label: the tables of other studies in the same store
    keep their columns and rows. *)
Theorem run_spares_other_tables
        (self : StudyManager.t) (w : World) (other : string) :
  other <> StudyManager.study_label self ->
  StudyManager.db (snd (StudyManager.run self w)) !! other
  = StudyManager.db w !! other.
Proof.
  revert w other. change (spares_others (StudyManager.study_label self)
                            (StudyManager.run self)).
  unfold StudyManager.run.
  apply spares_others_bind; [spares_step | intros _].
  apply spares_others_bind; [spares_step | intros seeds].
  apply spares_others_bind; [spares_step | intros _].
  apply spares_others_bind; [spares_step | intros sp].
  apply spares_others_bind; [spares_step | intros _].
  apply spares_others_bind; [spares_step | intros dm].
  apply spares_others_bind; [spares_step | intros [x y]].
  apply spares_others_bind.
  { unfold StudyManager.init_db. repeat spares_step. }
  intros _. apply spares_others_bind.
  { intros w other _. reflexivity. }
  intros _. apply spares_others_bind; [spares_step | intros _].
  apply spares_others_bind; [spares_step | intros folds].
  apply spares_others_replicates.
Qed.

End OtherTables.

Lemma run_spares_other_tables_witness :
  fst (@StudyManager.run Demo.library Demo.manager Demo.shared) = Ok tt /\
  StudyManager.db (snd (@StudyManager.run Demo.library Demo.manager
                          Demo.shared)) !! "other__model__data"
  = Some {| columns := ["replicate"; "trial"; "objective"; "bacc"];
            rows := [["0"; "0"; "3"; "1"]] |}.
Proof.
  split; [vm_compute; reflexivity |].
  rewrite (@run_spares_other_tables Demo.library Demo.manager Demo.shared
             "other__model__data"); [reflexivity | discriminate].
Defined.

Section Unsupervised.
Context `{Collaborators}.

Local Abbreviation World := StudyManager.World.

(** X12: when the pre-analysis pipeline hands back a container without
    the feature-splittable capability, [run] raises [NotImplementedError]
    before any table is created: the store and the cursor are as they
    were. *)
Theorem run_without_target_split_not_implemented
        (self : StudyManager.t) (w : World)
        (sp : Splitter) (dm' : DM.t) (g' : RNG) :
  StratifiedKFold
    (StudyConfig.no_replicates (StudyManager.study_config self))
    (StudyConfig.random_seed (StudyManager.study_config self)) = Ok sp ->
  process_pre_analysis
    (DataConfig.data_manager (StudyManager.data_config self))
    (snd (np_random_randint
            (StudyConfig.no_replicates (StudyManager.study_config self))
            (np_random_seed
               (StudyConfig.random_seed (StudyManager.study_config self)))))
  = (Ok dm', g') ->
  DM.feature_splittable dm' = false ->
  fst (StudyManager.run self w) = Err NotImplementedError /\
  StudyManager.db (snd (StudyManager.run self w)) = StudyManager.db w /\
  StudyManager.db_cursor (snd (StudyManager.run self w))
  = StudyManager.db_cursor w.
Proof.
  set (s := StudyConfig.random_seed (StudyManager.study_config self)).
  set (R := StudyConfig.no_replicates (StudyManager.study_config self)).
  intros Hsp Hpre Hflat.
  unfold StudyManager.run. fold s R.
  unfold bind, StudyManager.seed, StudyManager.randint, bind,
    StudyManager.log, modify, StudyManager.with_rng, lift, raise.
  cbn [fst snd StudyManager.rng StudyManager.db StudyManager.db_cursor
       StudyManager.trace].
  destruct (np_random_randint R (np_random_seed s)) as [seeds g] eqn:Hdraw.
  cbn [fst snd StudyManager.rng StudyManager.db StudyManager.db_cursor
       StudyManager.trace] in *.
  rewrite Hsp. cbn [fst snd StudyManager.rng]. rewrite Hpre.
  cbn [fst snd]. rewrite Hflat. cbn. auto.
Qed.

End Unsupervised.

Lemma run_without_target_split_not_implemented_witness :
  fst (@StudyManager.run Demo.library Demo.unsupervised Demo.start)
  = Err NotImplementedError /\
  StudyManager.db (snd (@StudyManager.run Demo.library Demo.unsupervised
                          Demo.start)) = ∅.
Proof.
  destruct (@run_without_target_split_not_implemented Demo.library
              Demo.unsupervised Demo.start 3 Demo.series
              (snd (Demo.draws 3 42)) eq_refl eq_refl eq_refl)
    as [Herr [Hdb _]].
  split; [exact Herr | exact Hdb].
Defined.

Section RowsKept.
Context `{Collaborators}.

Local Abbreviation World := StudyManager.World.

Lemma bind_err_inv {S A B : Type} (m : M S A) (k : A -> M S B)
      (s s' : S) (e : error) :
  bind m k s = (Err e, s') ->
  m s = (Err e, s') \/
  exists a s1, m s = (Ok a, s1) /\ k a s1 = (Err e, s').
Proof.
  unfold bind. destruct (m s) as [[a | e0] s1]; intros Heq.
  - right. now exists a, s1.
  - left. injection Heq as <- <-. reflexivity.
Qed.

Lemma save_results_fail_keeps (self : StudyManager.t) (rep n : nat)
      (ms : list (string * Metric)) (w w' : World) (e : error) :
  StudyManager.save_results self rep n ms w = (Err e, w') ->
  StudyManager.db w' = StudyManager.db w /\
  StudyManager.db_cursor w' = StudyManager.db_cursor w.
Proof.
  unfold StudyManager.save_results, bind, get.
  destruct (StudyManager.db_cursor w) eqn:Hcur; simpl.
  - intros Heq. apply insert_row_err in Heq as [_ ->]. now split.
  - intros Heq. injection Heq as _ <-. now split.
Qed.

Lemma opt_func_fail_keeps (self : StudyManager.t) (rep : nat)
      (train_x train_y test_x test_y : DM.t) (trial : OptunaTrial Metric)
      (w w' : World) (e : error) (tbl : Table) (old : list (list string)) :
  StudyManager.opt_func self rep train_x train_y test_x test_y trial w
  = (Err e, w') ->
  extended (StudyManager.study_label self) tbl old w ->
  extended (StudyManager.study_label self) tbl old w'.
Proof.
  intros Hrun [Hdb Hcur]. unfold StudyManager.opt_func in Hrun.
  apply bind_err_inv in Hrun as [H1 | [[] [w1 [H1 Hrun]]]];
    [discriminate |].
  injection H1 as <-.
  apply bind_err_inv in Hrun as [H2 | [model [w2 [H2 Hrun]]]].
  { apply with_rng_store in H2 as [Hd Hc]. split; simpl in *; congruence. }
  apply with_rng_store in H2 as [Hd2 Hc2]. simpl in Hd2, Hc2.
  apply bind_err_inv in Hrun as [H3 | [[] [w3 [H3 Hrun]]]];
    [discriminate |].
  injection H3 as <-.
  apply bind_err_inv in Hrun as [H4 | [model' [w4 [H4 Hrun]]]].
  { apply with_rng_store in H4 as [Hd Hc]. split; simpl in *; congruence. }
  apply with_rng_store in H4 as [Hd4 Hc4]. simpl in Hd4, Hc4.
  apply bind_err_inv in Hrun as [H5 | [[obj ms] [w5 [H5 Hrun]]]].
  { unfold lift in H5. injection H5 as _ <-. split; congruence. }
  unfold lift in H5. injection H5 as _ <-.
  apply bind_err_inv in Hrun as [H6 | [[] [w6 [H6 Hrun]]]];
    [| discriminate].
  apply save_results_fail_keeps in H6 as [Hd6 Hc6]. split; congruence.
Qed.

Lemma optimize_outcome (self : StudyManager.t) (rep : nat)
      (train_x train_y test_x test_y : DM.t) (name : string) (sampler : Z)
      (tbl : Table) (n : nat) :
  let func := StudyManager.opt_func self rep train_x train_y test_x test_y in
  forall (past : list Metric) (old : list (list string)) (w : World),
    extended (StudyManager.study_label self) tbl old w ->
    exists (vals : list (Metric * Metric)) (w_last : World),
      completed func name sampler past w (map fst vals) w_last /\
      extended (StudyManager.study_label self) tbl
        (old ++ trial_rows rep (length past) vals) w_last /\
      extended (StudyManager.study_label self) tbl
        (old ++ trial_rows rep (length past) vals)
        (snd (StudyManager.optimize func name sampler n past w)) /\
      match fst (StudyManager.optimize func name sampler n past w) with
      | Ok _ =>
          length vals = n /\
          snd (StudyManager.optimize func name sampler n past w) = w_last
      | Err e =>
          length vals < n /\
          func {| number := length past + length vals;
                  history := past ++ map fst vals;
                  study_name := name; sampler_seed := sampler |} w_last
          = (Err e, snd (StudyManager.optimize func name sampler n past w))
      end.
Proof.
  intros func. induction n as [| n IH]; intros past old w Hext.
  - exists [], w. simpl. rewrite app_nil_r.
    split; [constructor |]. split; [exact Hext |]. split; [exact Hext |].
    split; reflexivity.
  - cbn [StudyManager.optimize]. unfold bind.
    destruct (func {| number := length past; history := past;
                      study_name := name; sampler_seed := sampler |} w)
      as [[v | e] w1] eqn:Hone.
    + destruct (opt_func_extends _ _ _ _ _ _ _ _ _ _ _ _ Hone Hext)
        as [tracked Hext1]. simpl in Hext1.
      destruct (IH (past ++ [v]) _ w1 Hext1)
        as [vals [w_last [Hdone [Hlast [Hend Hout]]]]].
      rewrite length_app, Nat.add_1_r, <- app_assoc in Hlast, Hend.
      exists ((v, tracked) :: vals), w_last.
      split; [econstructor; eassumption |].
      split; [exact Hlast |]. split; [exact Hend |].
      destruct (fst (StudyManager.optimize func name sampler n
                       (past ++ [v]) w1)) as [u | e].
      * destruct Hout as [Hlen Hsame]. split; [simpl; lia | exact Hsame].
      * destruct Hout as [Hlen Hfail]. split; [simpl; lia |].
        rewrite length_app, <- app_assoc in Hfail. simpl in Hfail.
        simpl.
        replace (length past + S (length vals))
          with (length past + 1 + length vals) by lia.
        exact Hfail.
    + exists [], w. simpl. rewrite !app_nil_r, Nat.add_0_r.
      split; [constructor |]. split; [exact Hext |].
      split; [eapply opt_func_fail_keeps; eassumption |].
      split; [lia | exact Hone].
Qed.

(** X13: whatever the outcome of [run_supervised], the table keeps its
    earlier rows and holds exactly one more row per trial that returned,
    in trial order.  The trials numbered [0 .. length vals - 1] returned
    the objective values of [vals], one after the other, and the table
    then held their rows.  When the search returns these are all
    [no_trials] trials; when it raises, the error is the one of the trial
    numbered [length vals], called on that table, and the table is still
    the same afterwards. *)
Theorem run_supervised_keeps_completed_trials
        (self : StudyManager.t) (rep : nat)
        (train_x train_y test_x test_y : DM.t) (seed : Z)
        (tbl : Table) (old : list (list string)) (w : World) :
  extended (StudyManager.study_label self) tbl old w ->
  let func := StudyManager.opt_func self rep train_x train_y test_x test_y in
  let name :=
    String.append (StudyManager.study_label self)
      (String.append " [" (String.append (str_nat rep) "]")) in
  let out := StudyManager.run_supervised self rep train_x train_y
               test_x test_y seed w in
  exists (vals : list (Metric * Metric)) (w_last : World),
    completed func name seed [] w (map fst vals) w_last /\
    extended (StudyManager.study_label self) tbl
      (old ++ trial_rows rep 0 vals) w_last /\
    extended (StudyManager.study_label self) tbl
      (old ++ trial_rows rep 0 vals) (snd out) /\
    match fst out with
    | Ok _ =>
        length vals = StudyConfig.no_trials (StudyManager.study_config self) /\
        snd out = w_last
    | Err e =>
        length vals < StudyConfig.no_trials (StudyManager.study_config self) /\
        func {| number := length vals; history := map fst vals;
                study_name := name; sampler_seed := seed |} w_last
        = (Err e, snd out)
    end.
Proof.
  intros Hext func name out.
  exact (optimize_outcome self rep train_x train_y test_x test_y name seed
           tbl _ [] old w Hext).
Qed.

(** X14: the table [init_db] creates has one column per value that
    [save_results] writes for the metrics of [calculate_metrics]: on such a
    table, with the cursor set, saving appends the row of the replicate,
    the trial, the objective and the tracked value whenever sqlite reads
    the label as an identifier and the values as literals; the number of
    values never makes it fail. *)
Theorem saved_row_matches_created_columns (self : StudyManager.t) :
  (forall w w1,
      StudyManager.init_db self w = (Ok tt, w1) ->
      StudyManager.db w1 !! StudyManager.study_label self
      = Some {| columns := ["replicate"; "trial"; "objective"; "bacc"];
                rows := [] |}) /\
  (forall (w : World) (tbl : Table) (model : Model) (test_x test_y : DM.t)
          (obj : Metric) (metric_vals : list (string * Metric))
          (rep n : nat),
      StudyManager.db w !! StudyManager.study_label self = Some tbl ->
      columns tbl = ["replicate"; "trial"; "objective"; "bacc"] ->
      StudyManager.db_cursor w = true ->
      StudyManager.calculate_metrics model test_x test_y
      = Ok (obj, metric_vals) ->
      sql_identifier (StudyManager.study_label self) = true ->
      forallb sql_literal
        (str_nat rep :: str_nat n
         :: map (fun kv => metric_str (snd kv)) metric_vals) = true ->
      exists (tracked : Metric) (w' : World),
        metric_vals = [("objective", obj); ("bacc", tracked)] /\
        StudyManager.save_results self rep n metric_vals w = (Ok tt, w') /\
        StudyManager.db w' !! StudyManager.study_label self
        = Some {| columns := columns tbl;
                  rows := rows tbl ++ [result_row rep n (obj, tracked)] |}).
Proof.
  split.
  - intros w w1. unfold StudyManager.init_db, bind.
    cbn [StudyManager.log modify fst snd].
    intros Heq. apply create_table_ok in Heq as [_ [Hdb _]].
    rewrite Hdb. now rewrite lookup_insert_eq.
  - intros w tbl model test_x test_y obj ms rep n Hdb Hcols Hcur Hcalc
           Hname Hvals.
    apply calculate_metrics_shape in Hcalc as [tracked ->].
    exists tracked. unfold StudyManager.save_results, bind, get.
    rewrite Hcur. cbn [StudyManager.log modify fst snd ret].
    unfold StudyManager.insert_row.
    cbn [StudyManager.db StudyManager.rng StudyManager.db_cursor
           StudyManager.trace].
    rewrite Hname, Hvals, Hdb, Hcols. simpl.
    eexists. split; [reflexivity |].
    split; [reflexivity |]. simpl. now rewrite lookup_insert_eq.
Qed.

End RowsKept.

(** With a model factory that raises on the second trial, the search
    raises and the table holds the row of the first trial and no other. *)
Lemma run_supervised_keeps_completed_trials_witness :
  let outcome :=
    @StudyManager.run_supervised Demo.flaky Demo.manager 0
      Demo.train Demo.train Demo.test Demo.test 7 Demo.opened in
  fst outcome = Err ValueError /\
  StudyManager.db (snd outcome) !! "study__model__data"
  = Some {| columns := ["replicate"; "trial"; "objective"; "bacc"];
            rows := [["0"; "0"; "6"; "1"]] |} /\
  exists (vals : list (nat * nat)) (w_last : @StudyManager.World Demo.flaky),
    length vals = 1 /\
    @trial_rows Demo.flaky 0 0 vals = [["0"; "0"; "6"; "1"]] /\
    @StudyManager.opt_func Demo.flaky Demo.manager 0
      Demo.train Demo.train Demo.test Demo.test
      {| number := length vals; history := map fst vals;
         study_name := "study__model__data [0]"; sampler_seed := 7 |} w_last
    = (Err ValueError, snd outcome).
Proof.
  intros outcome.
  assert (Hfst : fst outcome = Err ValueError) by (vm_compute; reflexivity).
  assert (Hrows : StudyManager.db (snd outcome) !! "study__model__data"
                  = Some {| columns := ["replicate"; "trial"; "objective";
                                        "bacc"];
                            rows := [["0"; "0"; "6"; "1"]] |})
    by (vm_compute; reflexivity).
  split; [exact Hfst |]. split; [exact Hrows |].
  destruct (@run_supervised_keeps_completed_trials Demo.flaky Demo.manager 0
              Demo.train Demo.train Demo.test Demo.test 7
              {| columns := ["replicate"; "trial"; "objective"; "bacc"];
                 rows := [] |} [] Demo.opened)
    as [vals [w_last [_ [_ [[Hdb _] Hout]]]]].
  { split; reflexivity. }
  fold outcome in Hdb, Hout. rewrite Hfst in Hout.
  destruct Hout as [_ Hfail].
  change (StudyManager.study_label Demo.manager) with "study__model__data"
    in Hdb.
  rewrite Hrows in Hdb. injection Hdb as Hvals. simpl in Hvals.
  pose proof (@trial_rows_length Demo.flaky 0 0 vals) as Hlen.
  rewrite <- Hvals in Hlen. simpl in Hlen.
  exists vals, w_last. split; [symmetry; exact Hlen |].
  split; [symmetry; exact Hvals | exact Hfail].
Defined.

(** The label [study__model__data] and the values 0, 0, 8 and 1 are read
    as an identifier and as literals. *)
Lemma saved_row_matches_created_columns_witness :
  exists w1 w2 : @StudyManager.World Demo.library,
    @StudyManager.init_db Demo.library Demo.manager Demo.start = (Ok tt, w1) /\
    @StudyManager.save_results Demo.library Demo.manager 0 0
      [("objective", 8); ("bacc", 1)] (snd (StudyManager.set_cursor w1))
    = (Ok tt, w2) /\
    StudyManager.db w2 !! "study__model__data"
    = Some {| columns := ["replicate"; "trial"; "objective"; "bacc"];
              rows := [["0"; "0"; "8"; "1"]] |}.
Proof.
  destruct (@saved_row_matches_created_columns Demo.library Demo.manager)
    as [Hcreate Hsave].
  pose (w1 := snd (@StudyManager.init_db Demo.library Demo.manager Demo.start)).
  assert (Hfst : fst (@StudyManager.init_db Demo.library Demo.manager
                        Demo.start) = Ok tt) by (vm_compute; reflexivity).
  assert (Hinit : @StudyManager.init_db Demo.library Demo.manager Demo.start
                  = (Ok tt, w1)).
  { rewrite <- Hfst. apply surjective_pairing. }
  pose proof (Hcreate _ _ Hinit) as Hdb.
  destruct (Hsave (snd (StudyManager.set_cursor w1)) _ 4 Demo.test Demo.test
              8 [("objective", 8); ("bacc", 1)] 0 0 Hdb eq_refl eq_refl
              eq_refl eq_refl eq_refl) as [tr [w2 [Hvals [Hs Hrow]]]].
  injection Hvals as <-.
  exists w1, w2. split; [exact Hinit |]. split; [exact Hs |].
  exact Hrow.
Defined.

Section UnreadableText.
Context `{Collaborators}.

Local Abbreviation World := StudyManager.World.

(** X20: text that sqlite does not read as meant makes the statement
    raise and the store stay as it was.  With the cursor set,
    [save_results] raises [OperationalError] when the label is not read
    as an identifier or one of the values (the text of a NaN, say) is not
    read as a literal; [init_db] raises it when the label is not read as
    an identifier. *)
Theorem unreadable_sql_text_raises
        (self : StudyManager.t) (rep n : nat) (metrics : list (string * Metric))
        (w : World) :
  sql_identifier (StudyManager.study_label self)
  && forallb sql_literal
       (str_nat rep :: str_nat n
        :: map (fun kv => metric_str (snd kv)) metrics) = false ->
  StudyManager.db_cursor w = true ->
  fst (StudyManager.save_results self rep n metrics w) = Err OperationalError /\
  StudyManager.db (snd (StudyManager.save_results self rep n metrics w))
  = StudyManager.db w /\
  (sql_identifier (StudyManager.study_label self) = false ->
   fst (StudyManager.init_db self w) = Err OperationalError /\
   StudyManager.db (snd (StudyManager.init_db self w)) = StudyManager.db w).
Proof.
  intros Hbad Hcur. split; [| split].
  - unfold StudyManager.save_results, bind, get. rewrite Hcur.
    cbn [StudyManager.log modify fst snd ret].
    unfold StudyManager.insert_row. now rewrite Hbad.
  - unfold StudyManager.save_results, bind, get. rewrite Hcur.
    cbn [StudyManager.log modify fst snd ret].
    unfold StudyManager.insert_row. now rewrite Hbad.
  - intros Hname. unfold StudyManager.init_db, bind.
    cbn [StudyManager.log modify fst snd].
    unfold StudyManager.create_table. rewrite Hname. now split.
Qed.

End UnreadableText.

(** A study labelled [my study]: the label [my study__model__data] holds
    a blank, and neither statement goes through. *)
Lemma unreadable_sql_text_raises_witness :
  let w := snd (@StudyManager.set_cursor Demo.library Demo.start) in
  StudyManager.study_label Demo.spaced = "my study__model__data" /\
  fst (@StudyManager.save_results Demo.library Demo.spaced 0 0
         [("objective", 8); ("bacc", 1)] w) = Err OperationalError /\
  fst (@StudyManager.init_db Demo.library Demo.spaced w)
  = Err OperationalError.
Proof.
  intros w. split; [reflexivity |].
  destruct (@unreadable_sql_text_raises Demo.library Demo.spaced 0 0
              [("objective", 8); ("bacc", 1)] w eq_refl eq_refl)
    as [Hsave [_ Hinit]].
  split; [exact Hsave |]. apply Hinit. reflexivity.
Defined.

Section Reseeding.
Context `{Collaborators}.

Local Abbreviation World := StudyManager.World.

Lemma seeds_of_app (a b : list Event) :
  seeds_of (a ++ b) = seeds_of a ++ seeds_of b.
Proof.
  induction a as [| e a IH]; [reflexivity |].
  destruct e; simpl; now rewrite IH.
Qed.

Lemma reseeds_of_logs {A : Type} (l : list Event) (m : M World A) :
  logs l m -> reseeds (seeds_of l) m.
Proof.
  intros Hm w a w' Hrun. now rewrite (Hm w a w' Hrun), seeds_of_app.
Qed.

Lemma reseeds_bind {A B : Type} (l1 l2 : list Z)
      (m : M World A) (k : A -> M World B) :
  reseeds l1 m -> (forall a, reseeds l2 (k a)) -> reseeds (l1 ++ l2) (bind m k).
Proof.
  intros Hm Hk w b w' Hrun.
  apply bind_ok_inv in Hrun as [a [w1 [H1 H2]]].
  now rewrite (Hk a w1 b w' H2), (Hm w a w1 H1), app_assoc.
Qed.

Lemma reseeds_none_bind {A B : Type} (m : M World A) (k : A -> M World B) :
  reseeds [] m -> (forall a, reseeds [] (k a)) -> reseeds [] (bind m k).
Proof. intros Hm Hk. now apply (reseeds_bind [] []). Qed.

Lemma reseeds_log (e : Event) :
  reseeds (seeds_of [e]) (StudyManager.log e).
Proof. apply reseeds_of_logs, surely_logs_logs, surely_logs_log. Qed.

Lemma reseeds_with_rng {A : Type} (m : M RNG A) :
  reseeds [] (StudyManager.with_rng m).
Proof. apply (reseeds_of_logs []), logs_with_rng. Qed.

Lemma reseeds_lift {A : Type} (r : result A) : reseeds [] (@lift World A r).
Proof. apply (reseeds_of_logs []), logs_lift. Qed.

Lemma reseeds_still {A : Type} (m : M World A) :
  (forall w, StudyManager.trace (snd (m w)) = StudyManager.trace w) ->
  reseeds [] m.
Proof. intros Hm. now apply (reseeds_of_logs []), logs_still. Qed.

Lemma reseeds_save_results (self : StudyManager.t) (rep n : nat)
      (ms : list (string * Metric)) :
  reseeds [] (StudyManager.save_results self rep n ms).
Proof.
  unfold StudyManager.save_results.
  apply reseeds_none_bind; [now apply reseeds_still | intros w0].
  apply reseeds_none_bind.
  { destruct (StudyManager.db_cursor w0); now apply reseeds_still. }
  intros _. apply reseeds_none_bind; [apply (reseeds_log (EvInsert _ _)) |].
  intros _. apply reseeds_still. intros w.
  destruct (StudyManager.insert_row _ _ w) as [[[] | e] w'] eqn:Hrun.
  - now apply insert_row_ok in Hrun as [tbl [_ [_ [_ [_ Htr]]]]].
  - now apply insert_row_err in Hrun as [_ ->].
Qed.

Lemma reseeds_opt_func (self : StudyManager.t) (rep : nat)
      (train_x train_y test_x test_y : DM.t) (trial : OptunaTrial Metric) :
  reseeds []
    (StudyManager.opt_func self rep train_x train_y test_x test_y trial).
Proof.
  unfold StudyManager.opt_func.
  apply reseeds_none_bind; [apply (reseeds_log (EvBuildModel _ _)) |].
  intros _. apply reseeds_none_bind; [apply reseeds_with_rng | intros model].
  apply reseeds_none_bind; [apply (reseeds_log (EvFit _ _)) | intros _].
  apply reseeds_none_bind; [apply reseeds_with_rng | intros model'].
  apply reseeds_none_bind; [apply reseeds_lift | intros [obj ms]].
  apply reseeds_none_bind; [apply reseeds_save_results | intros _].
  now apply reseeds_still.
Qed.

Lemma reseeds_optimize (func : OptunaTrial Metric -> M World Metric)
      (name : string) (sampler : Z) (n : nat) :
  (forall trial, reseeds [] (func trial)) ->
  forall past, reseeds [] (StudyManager.optimize func name sampler n past).
Proof.
  intros Hf. induction n as [| n IH]; intros past; simpl.
  - now apply reseeds_still.
  - apply reseeds_none_bind; [apply Hf | intros v; apply IH].
Qed.

Lemma replicate_reseeds (self : StudyManager.t) (seeds : list Z)
      (x y : DM.t) (i : nat) (fold : list nat * list nat) (w w' : World) :
  StudyManager.replicate self seeds x y i fold w = (Ok tt, w') ->
  exists s,
    nth_error seeds i = Some s /\
    seeds_of (StudyManager.trace w')
    = seeds_of (StudyManager.trace w) ++ [s].
Proof.
  unfold StudyManager.replicate. destruct fold as [train_idx test_idx].
  intros Hrun. apply bind_ok_inv in Hrun as [s [w1 [H1 Hrun]]].
  unfold lift in H1. destruct (nth_error seeds i) as [s0 |]; [| discriminate].
  injection H1 as -> <-. exists s. split; [reflexivity |].
  match type of Hrun with
  | ?m _ = _ => enough (Hres : reseeds [s] m) by exact (Hres _ _ _ Hrun)
  end.
  apply (reseeds_bind [s] []).
  { apply (reseeds_of_logs [EvSeed s]), surely_logs_logs, surely_logs_seed. }
  intros _. apply reseeds_none_bind; [apply reseeds_lift |].
  intros [train_x test_x].
  apply reseeds_none_bind; [apply reseeds_lift | intros train_y].
  apply reseeds_none_bind; [apply reseeds_lift | intros test_y].
  unfold StudyManager.run_supervised. apply reseeds_optimize.
  intros trial. apply reseeds_opt_func.
Qed.

Lemma skipn_nth_error {A : Type} (l : list A) (i : nat) (a : A) :
  nth_error l i = Some a -> skipn i l = a :: skipn (S i) l.
Proof.
  revert i. induction l as [| b l IH]; intros [| i] Hnth;
    simpl in *; try discriminate.
  - now injection Hnth as ->.
  - now apply IH.
Qed.

Lemma replicates_reseed (self : StudyManager.t) (seeds : list Z)
      (x y : DM.t) (folds : list (list nat * list nat)) :
  forall (i : nat) (w w' : World),
    StudyManager.replicates self seeds x y i folds w = (Ok tt, w') ->
    seeds_of (StudyManager.trace w')
    = seeds_of (StudyManager.trace w)
      ++ firstn (length folds) (skipn i seeds).
Proof.
  induction folds as [| fold folds IH]; intros i w w' Hrun; simpl in Hrun.
  - injection Hrun as <-. simpl. now rewrite app_nil_r.
  - apply bind_ok_inv in Hrun as [[] [w1 [Hone Hrest]]].
    apply replicate_reseeds in Hone as [s [Hnth Hone]].
    rewrite (IH _ _ _ Hrest), Hone, (skipn_nth_error seeds i s Hnth).
    simpl. now rewrite <- app_assoc.
Qed.

(** X15: in a run that returns, the global generator is seeded with the
    study seed and then, replicate after replicate, with the seeds drawn
    from the generator right after that first seeding: replicate [i] runs
    under the [i]-th draw, which depends on the study seed and the number
    of replicates only.  The splitter is assumed to yield as many folds as
    it was built for. *)
Theorem run_reseeds_each_replicate_with_its_draw
        (self : StudyManager.t) (w w' : World) :
  (forall k s sp X Y folds,
      StratifiedKFold k s = Ok sp -> skf_split sp X Y = Ok folds ->
      length folds = k) ->
  StudyManager.run self w = (Ok tt, w') ->
  let s := StudyConfig.random_seed (StudyManager.study_config self) in
  let R := StudyConfig.no_replicates (StudyManager.study_config self) in
  seeds_of (StudyManager.trace w')
  = seeds_of (StudyManager.trace w)
    ++ s :: firstn R (fst (np_random_randint R (np_random_seed s))).
Proof.
  intros Hfolds Hrun s R. unfold StudyManager.run in Hrun. fold s R in Hrun.
  apply bind_ok_inv in Hrun as [[] [w1 [H1 Hrun]]].
  assert (Hrng1 : StudyManager.rng w1 = np_random_seed s)
    by (injection H1 as <-; reflexivity).
  apply (reseeds_of_logs [EvSeed s] _
           (surely_logs_logs _ _ (surely_logs_seed s))) in H1.
  apply bind_ok_inv in Hrun as [seeds [w2 [H2 Hrun]]].
  assert (Hseeds : seeds = fst (np_random_randint R (np_random_seed s))).
  { unfold StudyManager.randint, bind, StudyManager.log, modify,
      StudyManager.with_rng in H2. simpl in H2. rewrite Hrng1 in H2.
    destruct (np_random_randint R (np_random_seed s)) as [l g].
    now injection H2 as <- _. }
  apply (reseeds_of_logs [EvRandint R] _
           (surely_logs_logs _ _ (surely_logs_randint R))) in H2.
  apply bind_ok_inv in Hrun as [[] [w3 [H3 Hrun]]].
  apply (reseeds_log (EvStratifiedKFold R s)) in H3.
  apply bind_ok_inv in Hrun as [sp [w4 [H4 Hrun]]].
  unfold lift in H4. injection H4 as Hsp <-.
  apply bind_ok_inv in Hrun as [[] [w5 [H5 Hrun]]].
  apply (reseeds_log EvPreAnalysis) in H5.
  apply bind_ok_inv in Hrun as [dm [w6 [H6 Hrun]]].
  apply reseeds_with_rng in H6.
  apply bind_ok_inv in Hrun as [[x y] [w7 [H7 Hrun]]].
  apply (reseeds_of_logs _ _ (logs_pop_features dm _)) in H7.
  apply bind_ok_inv in Hrun as [[] [w8 [H8 Hrun]]].
  apply (reseeds_of_logs _ _ (logs_init_db self)) in H8.
  apply bind_ok_inv in Hrun as [[] [w9 [H9 Hrun]]].
  apply (reseeds_of_logs _ _ logs_set_cursor) in H9.
  apply bind_ok_inv in Hrun as [[] [w10 [H10 Hrun]]].
  apply (reseeds_log EvSplit) in H10.
  apply bind_ok_inv in Hrun as [folds [w11 [H11 Hrun]]].
  unfold lift in H11. injection H11 as Hsplit <-.
  apply replicates_reseed in Hrun.
  rewrite Hrun, H10, H9, H8, H7, H6, H5, H3, H2, H1. simpl.
  rewrite !app_nil_r, <- app_assoc. simpl.
  rewrite (Hfolds _ _ _ _ _ _ Hsp Hsplit), Hseeds. reflexivity.
Qed.

End Reseeding.

Lemma run_reseeds_each_replicate_with_its_draw_witness :
  seeds_of (StudyManager.trace
              (snd (@StudyManager.run Demo.library Demo.manager Demo.start)))
  = [42; 1250496048; 1310387594; 1622543901]%Z.
Proof.
  assert (Hfst : fst (@StudyManager.run Demo.library Demo.manager Demo.start)
                 = Ok tt) by (vm_compute; reflexivity).
  assert (Hrun : @StudyManager.run Demo.library Demo.manager Demo.start
                 = (Ok tt, snd (@StudyManager.run Demo.library Demo.manager
                                  Demo.start))).
  { rewrite <- Hfst at 1. apply surjective_pairing. }
  rewrite (@run_reseeds_each_replicate_with_its_draw Demo.library
             Demo.manager Demo.start _ demo_split_yields_all_folds Hrun).
  vm_compute. reflexivity.
Defined.

(** * Properties of the data configuration *)

Section DataConfiguration.
Context `{ConfigLibrary}.

(** X16: constructing a [DataConfig] whose format has no registered
    manager raises [ValueError] once format and label are parsed: no
    manager is built and no leftover entry is reported. *)
Theorem init_unregistered_format_raises_ValueError
        (st st1 st2 : Parsing) (format label : string) :
  DataConfigInit.parse_format st = (Ok format, st1) ->
  DataConfigInit.parse_label st1 = (Ok label, st2) ->
  DATA_MANAGERS !! format = None ->
  DataConfigInit.init st = (Err ValueError, st2).
Proof.
  intros Hf Hl Hnone. unfold DataConfigInit.init, bind.
  rewrite Hf, Hl. unfold DataConfigInit.parse_manager. now rewrite Hnone.
Qed.

(** X17: a [DataConfig] that is constructed holds the manager built by
    the class registered for its format, and the logger has received,
    after whatever the parsers and that class logged, exactly one warning
    for each entry they left in the dictionary, in the dictionary's
    order. *)
Theorem init_reports_each_leftover_entry
        (st st' : Parsing) (cfg : DataConfig.t) :
  DataConfigInit.init st = (Ok cfg, st') ->
  exists (manager_cls : ManagerClass) (st2 st3 : Parsing),
    DATA_MANAGERS !! DataConfig.format cfg = Some manager_cls /\
    manager_from_config manager_cls st2 = (Ok (DataConfig.data_manager cfg), st3) /\
    json_data st' = json_data st3 /\
    warnings st'
    = warnings st3
      ++ map DataConfigInit.ignored_entry (map fst (json_data st3)).
Proof.
  intros Hinit. unfold DataConfigInit.init in Hinit.
  apply bind_ok_inv in Hinit as [format [st1 [_ Hinit]]].
  apply bind_ok_inv in Hinit as [label [st2 [_ Hinit]]].
  apply bind_ok_inv in Hinit as [dm [st3 [Hm Hinit]]].
  unfold DataConfigInit.parse_manager in Hm.
  destruct (DATA_MANAGERS !! format) as [manager_cls |] eqn:Hreg;
    [| discriminate].
  apply bind_ok_inv in Hinit as [[] [st4 [Hrep Hinit]]].
  unfold ret in Hinit. injection Hinit as <- <-.
  exists manager_cls, st2, st3. simpl.
  split; [exact Hreg |]. split; [exact Hm |].
  unfold DataConfigInit.report_remaining_values in Hrep.
  destruct (json_data st3) as [| kv d] eqn:Hd; simpl in Hrep;
    injection Hrep as <-; simpl.
  - rewrite Hd. simpl. now rewrite app_nil_r.
  - now rewrite map_map.
Qed.

End DataConfiguration.

Lemma init_unregistered_format_raises_ValueError_witness :
  fst (@DataConfigInit.init Demo.registry
         {| json_data := [("format", JStr "images"); ("label", JStr "d");
                          ("extra", JNull)];
            warnings := [] |})
  = Err ValueError /\
  warnings (snd (@DataConfigInit.init Demo.registry
                   {| json_data := [("format", JStr "images");
                                    ("label", JStr "d"); ("extra", JNull)];
                      warnings := [] |}))
  = [].
Proof.
  rewrite (@init_unregistered_format_raises_ValueError Demo.registry
             {| json_data := [("format", JStr "images"); ("label", JStr "d");
                              ("extra", JNull)];
                warnings := [] |}
             {| json_data := [("label", JStr "d"); ("extra", JNull)];
                warnings := [] |}
             {| json_data := [("extra", JNull)]; warnings := [] |}
             "images" "d" eq_refl eq_refl eq_refl).
  split; reflexivity.
Defined.

Lemma init_reports_each_leftover_entry_witness :
  let st := {| json_data := [("format", JStr "tabular"); ("colour", JNull);
                             ("label", JStr "d"); ("size", JNum 3)];
               warnings := [] |} in
  let cfg := DataConfig.mk "tabular" "d" Demo.dataset in
  let st' := {| json_data := [("colour", JNull); ("size", JNum 3)];
                warnings := [DataConfigInit.ignored_entry "colour";
                             DataConfigInit.ignored_entry "size"] |} in
  @DataConfigInit.init Demo.registry st = (Ok cfg, st') /\
  exists (manager_cls : @ManagerClass Demo.registry) (st2 st3 : Parsing),
    @DATA_MANAGERS Demo.registry !! "tabular" = Some manager_cls /\
    @manager_from_config Demo.registry manager_cls st2
    = (Ok Demo.dataset, st3) /\
    json_data st' = json_data st3 /\
    warnings st'
    = warnings st3
      ++ map DataConfigInit.ignored_entry (map fst (json_data st3)).
Proof.
  intros st cfg st'. split; [reflexivity |].
  exact (@init_reports_each_leftover_entry Demo.registry st st' cfg eq_refl).
Defined.

(** * The fit of the multi-feature path and the test data *)

Section TestDataKeptOut.
Context `{Decomposition} `{Tuning}.

(** X18: on the multi-feature path the transform [run_fitted] leaves in
    the hook is the same for any two test containers, a missing one
    included, whether or not their transformation succeeds: the test data
    has no part in the fit. *)
Theorem run_fitted_multi_feature_fit_same_for_any_test
        (self : PrincipalComponentAnalysis.t) (x_train : DM.t)
        (x_test x_test' : option DM.t) :
  DM.multi_feature x_train = true ->
  PrincipalComponentAnalysis.backing_pca
    (snd (PrincipalComponentAnalysis.run_fitted x_train x_test self))
  = PrincipalComponentAnalysis.backing_pca
      (snd (PrincipalComponentAnalysis.run_fitted x_train x_test' self)).
Proof.
  intros Hm.
  now rewrite !(run_fitted_multi_feature_fit_ignores_test self x_train _ Hm).
Qed.

End TestDataKeptOut.

(** The fit after [run_fitted] on the training table is the same with a
    two-sample test table and with a test table holding a null entry, on
    which the transformation raises. *)
Lemma run_fitted_multi_feature_fit_same_for_any_test_witness :
  fst (PrincipalComponentAnalysis.run_fitted Demo.train (Some Demo.table)
         (Demo.tuned (7 # 10))) = Err ValueError /\
  PrincipalComponentAnalysis.backing_pca
    (snd (PrincipalComponentAnalysis.run_fitted Demo.train (Some Demo.test)
            (Demo.tuned (7 # 10))))
  = PrincipalComponentAnalysis.backing_pca
      (snd (PrincipalComponentAnalysis.run_fitted Demo.train (Some Demo.table)
              (Demo.tuned (7 # 10)))).
Proof.
  split; [reflexivity |].
  exact (@run_fitted_multi_feature_fit_same_for_any_test
           Demo.centring Demo.suggested (Demo.tuned (7 # 10)) Demo.train
           (Some Demo.test) (Some Demo.table) eq_refl).
Defined.
